(** * The NES picture processing unit (nes/ppu.py, nes/bitwise.py)

    A shallow embedding of the [NESPPU] class: its register port
    ([read_register], [write_register]), its tick port ([run_cycles]) and the
    rendering helpers they call, followed by the properties of the
    specification that were checked against it.

    Modelling conventions.
    - Python integers are unbounded, so every integer is a [Z]; the masks the
      source applies ([& 0xFF], [% 256]) are written out where the source has
      them and nowhere else.
    - A [bytearray] or list indexed by a computed value is a [list] read with
      [py_index] and written with [list_set] / [bytearray_set]; an index out
      of range, or a non-byte stored into a [bytearray], is the exception
      Python raises and is modelled as [None].  A function that can raise
      returns [option].
    - The video memory [NESVRAM] lives in nes/memory.py, which is not part of
      the sources at hand: it is the parameter [VRAMView] (read, write and
      the four address constants the PPU uses).
    - The interrupt listener and the screen are write-only collaborators:
      the calls they receive are recorded in [nmi_raised] and [screen].
    - [print] calls (the open-bus warnings and the debugging dump at lines
      15 and 239) only write to the console and are left out. *)

From stdpp Require Import base list numbers option.
From Stdlib Require Import ZArith Lia Bool.

Open Scope Z_scope.

(** ** nes/bitwise.py *)

Module Bitwise.

Definition set_bit (target bit : Z) : Z := Z.lor target (Z.shiftl 1 bit).

Definition clear_bit (target bit : Z) : Z :=
  Z.land target (Z.lnot (Z.shiftl 1 bit)).

(* [value & (0b00000001 << bit) > 0]: [&] binds tighter than [>]. *)
Definition bit_high (value bit : Z) : bool :=
  0 <? Z.land value (Z.shiftl 1 bit).

Definition bit_low (value bit : Z) : bool :=
  Z.land value (Z.shiftl 1 bit) =? 0.

(* [v & 0x00FF + (hi_byte << 8)]: [+] binds tighter than [&]. *)
Definition replace_high_byte (v hi_byte : Z) : Z :=
  Z.land v (0x00FF + Z.shiftl hi_byte 8).

Definition lower_nibble (value : Z) : Z := Z.land value 0x0F.

Definition upper_nibble (value : Z) : Z := Z.shiftr (Z.land value 0xF0) 4.

End Bitwise.

Import Bitwise.

(** ** Python sequences *)

(** [l[i]]: a negative index counts from the end, an index out of range
    raises [IndexError]. *)
Definition py_index {A : Type} (l : list A) (i : Z) : option A :=
  let n := Z.of_nat (length l) in
  if 0 <=? i then l !! Z.to_nat i
  else if 0 <=? n + i then l !! Z.to_nat (n + i)
  else None.

(** [l[i] = x] for an index that the source always takes from [range] or
    [enumerate], hence a natural number. *)
Definition list_set {A : Type} (l : list A) (i : nat) (x : A) : option (list A) :=
  if (i <? length l)%nat then Some (<[i := x]> l) else None.

(** [b[i] = x] on a [bytearray]: [x] must be a byte ([ValueError] otherwise). *)
Definition bytearray_set (b : list Z) (i : Z) (x : Z) : option (list Z) :=
  if (0 <=? x) && (x <=? 255) then
    let n := Z.of_nat (length b) in
    if (0 <=? i) && (i <? n) then Some (<[Z.to_nat i := x]> b)
    else if (i <? 0) && (0 <=? n + i) then Some (<[Z.to_nat (n + i) := x]> b)
    else None
  else None.

(** [range(n)] as a list of integers. *)
Definition py_range (n : nat) : list Z := map Z.of_nat (seq 0 n).

(** ** Colours and the RGB table *)

Definition color : Type := Z * Z * Z.
(** A palette is a list of colours (four, once decoded). *)
Abbreviation palette := (list color).

Definition color_eqb (a b : color) : bool :=
  let '(r1, g1, b1) := a in
  let '(r2, g2, b2) := b in
  (r1 =? r2) && (g1 =? g2) && (b1 =? b2).

Definition DEFAULT_NES_PALETTE : list color :=
  [ ( 82,  82,  82); (  1,  26,  81); ( 15,  15, 101); ( 35,   6,  99);
    ( 54,   3,  75); ( 64,   4,  38); ( 63,   9,   4); ( 50,  19,   0);
    ( 31,  32,   0); ( 11,  42,   0); (  0,  47,   0); (  0,  46,  10);
    (  0,  38,  45); (  0,   0,   0); (  0,   0,   0); (  0,   0,   0);
    (160, 160, 160); ( 30,  74, 157); ( 56,  55, 188); ( 88,  40, 184);
    (117,  33, 148); (132,  35,  92); (130,  46,  36); (111,  63,   0);
    ( 81,  82,   0); ( 49,  99,   0); ( 26, 107,   5); ( 14, 105,  46);
    ( 16,  92, 104); (  0,   0,   0); (  0,   0,   0); (  0,   0,   0);
    (254, 255, 255); (105, 158, 252); (137, 135, 255); (174, 118, 255);
    (206, 109, 241); (224, 112, 178); (222, 124, 112); (200, 145,  62);
    (166, 167,  37); (129, 186,  40); ( 99, 196,  70); ( 84, 193, 125);
    ( 86, 179, 192); ( 60,  60,  60); (  0,   0,   0); (  0,   0,   0);
    (254, 255, 255); (190, 214, 253); (204, 204, 255); (221, 196, 255);
    (234, 192, 249); (242, 193, 223); (241, 199, 194); (232, 208, 170);
    (217, 218, 157); (201, 226, 158); (188, 230, 174); (180, 229, 199);
    (181, 223, 228); (169, 169, 169); (  0,   0,   0); (  0,   0,   0) ].

(** The palette in use; the source allows replacing it from outside, this
    development keeps the default. *)
Definition rgb_palette : list color := DEFAULT_NES_PALETTE.

(** [_get_non_palette_color]: walk the greys from (1,1,1) until one is not in
    the palette.  The [while True] loop is given fuel. *)
Fixpoint _get_non_palette_color (fuel : nat) (trans_c : color) : option color :=
  match fuel with
  | O => None
  | S fuel' =>
      if existsb (color_eqb trans_c) rgb_palette then
        let '(r, g, b) := trans_c in
        _get_non_palette_color fuel' (r + 1, g + 1, b + 1)
      else Some trans_c
  end.

Definition transparent_color : color := (1, 1, 1).

(** ** The video memory view (nes/memory.py, not among the sources) *)

Class VRAMView (V : Type) : Type := {
  vram_read : V -> Z -> Z;
  vram_write : V -> Z -> Z -> V;
  PALETTE_START : Z;
  NAMETABLE_START : Z;
  NAMETABLE_LENGTH_BYTES : Z;
  ATTRIBUTE_TABLE_OFFSET : Z
}.

(** ** Register indices and bit masks *)

Inductive register : Type :=
| PPU_CTRL | PPU_MASK | PPU_STATUS | OAM_ADDR
| OAM_DATA | PPU_SCROLL | PPU_ADDR | PPU_DATA.

(** The offset of the register in the CPU memory map from 0x2000. *)
Definition register_index (r : register) : Z :=
  match r with
  | PPU_CTRL => 0 | PPU_MASK => 1 | PPU_STATUS => 2 | OAM_ADDR => 3
  | OAM_DATA => 4 | PPU_SCROLL => 5 | PPU_ADDR => 6 | PPU_DATA => 7
  end.

Definition OAM_SIZE_BYTES : Z := 256.

Definition VBLANK_MASK : Z := 0x80.               (* 0b10000000 *)
Definition SPRITE0_HIT_MASK : Z := 0x40.          (* 0b01000000 *)
Definition SPRITE_OVERFLOW_MASK : Z := 0x20.      (* 0b00100000 *)

Definition SPRITE_SIZE_MASK : Z := 0x20.          (* 0b00100000 *)
Definition BKG_PATTERN_TABLE_MASK : Z := 0x10.    (* 0b00010000 *)
Definition SPRITE_PATTERN_TABLE_MASK : Z := 0x08. (* 0b00001000 *)
Definition VRAM_INCREMENT_MASK : Z := 0x04.       (* 0b00000100 *)
Definition NAMETABLE_MASK : Z := 0x03.            (* 0b00000011 *)

Definition RENDERING_ENABLED_MASK : Z := 0x18.    (* 0b00011000 *)
Definition RENDER_SPRITES_MASK : Z := 0x10.       (* 0b00010000 *)
Definition RENDER_BACKGROUND_MASK : Z := 0x08.    (* 0b00001000 *)

Definition RENDER_LEFT8_BKG_BIT : Z := 1.
Definition RENDER_LEFT8_SPRITES_BIT : Z := 2.

Definition PPU_SCROLL_X : Z := 0.
Definition PPU_SCROLL_Y : Z := 1.

Definition PIXELS_PER_LINE : Z := 341.
Definition SCREEN_TILE_ROWS : Z := 30.
Definition SCREEN_TILE_COLS : Z := 32.
Definition PATTERN_SIZE_BYTES : Z := 16.

(** ** The engine state *)

Section Engine.

Context {V : Type} `{VRAMView V}.

(** The attributes of a [NESPPU] object that the code reads after
    construction.  [_active_sprites] and [_bkg_px] do not exist until
    their first assignment ([None] here); [screen] and [nmi_raised] record
    the calls made to the two collaborators. *)
Record PPU : Type := mkPPU {
  ppu_ctrl : Z;
  ppu_mask : Z;
  oam_addr : Z;
  _oam_addr_held : Z;
  ppu_scroll : list Z;
  ppu_addr : Z;
  _ppu_byte_latch : Z;
  _ppu_data_buffer : Z;
  _io_latch : Z;
  _palette : list palette;
  _pattern_lo : list Z;
  _pattern_hi : list Z;
  _sprite_pattern : list (list (option color));
  _sprite_bkg_priority : list bool;
  _active_sprites : option (list Z);
  line : Z;
  pixel : Z;
  row : Z;
  col : Z;
  _bkg_px : option Z;
  _tN : Z;
  _tX : Z;
  _tY : Z;
  in_vblank : bool;
  sprite_zero_hit : bool;
  sprite_overflow : bool;
  cycles_since_reset : Z;
  cycles_since_frame : Z;
  frames_since_reset : Z;
  vram : V;
  oam : list Z;
  screen : list (Z * Z * color);
  nmi_raised : Z;
  _palette_cache : list (list (option palette))
}.

Definition eta_PPU (s : PPU) : PPU :=
  mkPPU (ppu_ctrl s) (ppu_mask s) (oam_addr s) (_oam_addr_held s)
    (ppu_scroll s) (ppu_addr s) (_ppu_byte_latch s) (_ppu_data_buffer s)
    (_io_latch s) (_palette s) (_pattern_lo s) (_pattern_hi s)
    (_sprite_pattern s) (_sprite_bkg_priority s) (_active_sprites s)
    (line s) (pixel s) (row s) (col s) (_bkg_px s) (_tN s) (_tX s) (_tY s)
    (in_vblank s) (sprite_zero_hit s) (sprite_overflow s)
    (cycles_since_reset s) (cycles_since_frame s) (frames_since_reset s)
    (vram s) (oam s) (screen s) (nmi_raised s) (_palette_cache s).

(** An attribute assignment [self.f = x]: the record rebuilt with the one
    field replaced. *)
Ltac setter proj :=
  let x := fresh "x" in
  let s := fresh "s" in
  intros x s;
  let e := eval cbv beta delta [eta_PPU] in (eta_PPU s) in
  match eval pattern (proj s) in e with
  | ?f _ => let r := eval cbv beta in (f x) in exact r
  end.

Definition set_ppu_ctrl : Z -> PPU -> PPU := ltac:(setter ppu_ctrl).
Definition set_ppu_mask : Z -> PPU -> PPU := ltac:(setter ppu_mask).
Definition set_oam_addr : Z -> PPU -> PPU := ltac:(setter oam_addr).
Definition set__oam_addr_held : Z -> PPU -> PPU := ltac:(setter _oam_addr_held).
Definition set_ppu_scroll : list Z -> PPU -> PPU := ltac:(setter ppu_scroll).
Definition set_ppu_addr : Z -> PPU -> PPU := ltac:(setter ppu_addr).
Definition set__ppu_byte_latch : Z -> PPU -> PPU := ltac:(setter _ppu_byte_latch).
Definition set__ppu_data_buffer : Z -> PPU -> PPU := ltac:(setter _ppu_data_buffer).
Definition set__io_latch : Z -> PPU -> PPU := ltac:(setter _io_latch).
Definition set__palette : list palette -> PPU -> PPU := ltac:(setter _palette).
Definition set__pattern_lo : list Z -> PPU -> PPU := ltac:(setter _pattern_lo).
Definition set__pattern_hi : list Z -> PPU -> PPU := ltac:(setter _pattern_hi).
Definition set__sprite_pattern : list (list (option color)) -> PPU -> PPU :=
  ltac:(setter _sprite_pattern).
Definition set__sprite_bkg_priority : list bool -> PPU -> PPU :=
  ltac:(setter _sprite_bkg_priority).
Definition set__active_sprites : option (list Z) -> PPU -> PPU :=
  ltac:(setter _active_sprites).
Definition set_line : Z -> PPU -> PPU := ltac:(setter line).
Definition set_pixel : Z -> PPU -> PPU := ltac:(setter pixel).
Definition set_row : Z -> PPU -> PPU := ltac:(setter row).
Definition set_col : Z -> PPU -> PPU := ltac:(setter col).
Definition set__bkg_px : option Z -> PPU -> PPU := ltac:(setter _bkg_px).
Definition set__tN : Z -> PPU -> PPU := ltac:(setter _tN).
Definition set__tX : Z -> PPU -> PPU := ltac:(setter _tX).
Definition set__tY : Z -> PPU -> PPU := ltac:(setter _tY).
Definition set_in_vblank : bool -> PPU -> PPU := ltac:(setter in_vblank).
Definition set_sprite_zero_hit : bool -> PPU -> PPU := ltac:(setter sprite_zero_hit).
Definition set_sprite_overflow : bool -> PPU -> PPU := ltac:(setter sprite_overflow).
Definition set_cycles_since_reset : Z -> PPU -> PPU :=
  ltac:(setter cycles_since_reset).
Definition set_cycles_since_frame : Z -> PPU -> PPU :=
  ltac:(setter cycles_since_frame).
Definition set_frames_since_reset : Z -> PPU -> PPU :=
  ltac:(setter frames_since_reset).
Definition set_vram : V -> PPU -> PPU := ltac:(setter vram).
Definition set_oam : list Z -> PPU -> PPU := ltac:(setter oam).
Definition set_screen : list (Z * Z * color) -> PPU -> PPU := ltac:(setter screen).
Definition set_nmi_raised : Z -> PPU -> PPU := ltac:(setter nmi_raised).
Definition set__palette_cache : list (list (option palette)) -> PPU -> PPU :=
  ltac:(setter _palette_cache).

(** [__init__]: the engine at reset, over the video memory [v] built from
    the cartridge. *)
Definition init (v : V) : PPU := {|
  ppu_ctrl := 0;
  ppu_mask := 0;
  oam_addr := 0;
  _oam_addr_held := 0;
  ppu_scroll := [0; 0];
  ppu_addr := 0;
  _ppu_byte_latch := 0;
  _ppu_data_buffer := 0;
  _io_latch := 0;
  _palette := [take 3 DEFAULT_NES_PALETTE; take 3 (drop 3 DEFAULT_NES_PALETTE)];
  _pattern_lo := [0; 0];
  _pattern_hi := [0; 0];
  _sprite_pattern := replicate 8 (replicate 8 None);
  _sprite_bkg_priority := replicate 8 false;
  _active_sprites := None;
  line := 0;
  pixel := 0;
  row := 0;
  col := 0;
  _bkg_px := None;
  _tN := 0;
  _tX := 0;
  _tY := 0;
  in_vblank := false;
  sprite_zero_hit := false;
  sprite_overflow := false;
  cycles_since_reset := 0;
  cycles_since_frame := 0;
  frames_since_reset := 0;
  vram := v;
  oam := replicate (Z.to_nat OAM_SIZE_BYTES) 0;
  screen := [];
  nmi_raised := 0;
  _palette_cache := [replicate 4 None; replicate 4 None]
|}.

Definition invalidate_palette_cache (s : PPU) : PPU :=
  set__palette_cache [replicate 4 None; replicate 4 None] s.

(** ** The register port *)

(** The [ppu_status] property (without the latch noise in the low bits). *)
Definition ppu_status (s : PPU) : Z :=
  VBLANK_MASK * Z.b2z (in_vblank s)
  + SPRITE0_HIT_MASK * Z.b2z (sprite_zero_hit s)
  + SPRITE_OVERFLOW_MASK * Z.b2z (sprite_overflow s).

Definition _increment_vram_address (s : PPU) : PPU :=
  set_ppu_addr
    (ppu_addr s
     + (if Z.land (ppu_ctrl s) VRAM_INCREMENT_MASK =? 0 then 1 else 32)) s.

Definition _trigger_nmi (s : PPU) : PPU :=
  set_nmi_raised (nmi_raised s + 1) s.

(** [read_register]: the byte returned and the state left behind. *)
Definition read_register (reg : register) (s : PPU) : option (Z * PPU) :=
  match reg with
  | PPU_CTRL | PPU_MASK | OAM_ADDR | PPU_SCROLL | PPU_ADDR =>
      Some (_io_latch s, s)
  | PPU_STATUS =>
      let s := set__ppu_byte_latch 0 s in
      let v := ppu_status s + Z.land 0x00011111 (_io_latch s) in
      let s := set_in_vblank false s in
      let s := set__io_latch v s in
      Some (v, s)
  | OAM_DATA =>
      v ← py_index (oam s) (oam_addr s);
      Some (v, set__io_latch v s)
  | PPU_DATA =>
      let '(v, s) :=
        if ppu_addr s <? PALETTE_START then
          (_ppu_data_buffer s,
           set__ppu_data_buffer (vram_read (vram s) (ppu_addr s)) s)
        else
          (vram_read (vram s) (ppu_addr s),
           set__ppu_data_buffer (vram_read (vram s) (ppu_addr s - 0x1000)) s) in
      let s := _increment_vram_address s in
      let s := set__io_latch (_ppu_data_buffer s) s in
      Some (v, s)
  end.

(** [write_register]. *)
Definition write_register (reg : register) (value : Z) (s : PPU) : option PPU :=
  let s := set__io_latch (Z.land value 0xFF) s in
  match reg with
  | PPU_CTRL =>
      if cycles_since_reset s <? 29658 then Some s
      else
        let trigger_nmi :=
          in_vblank s
          && (0 <? Z.land value VBLANK_MASK)
          && (Z.land (ppu_ctrl s) VBLANK_MASK =? 0) in
        let s := set_ppu_ctrl (Z.land value 0xFF) s in
        let s := set__tN (Z.land value 0x03) s in
        Some (if trigger_nmi then _trigger_nmi s else s)
  | PPU_MASK => Some (set_ppu_mask (Z.land value 0xFF) s)
  | PPU_STATUS => Some s
  | OAM_ADDR => Some (set_oam_addr (Z.land value 0xFF) s)
  | OAM_DATA =>
      o ← bytearray_set (oam s) (oam_addr s) value;
      let s := set_oam o s in
      Some (set_oam_addr (Z.land (oam_addr s + 1) 0xFF) s)
  | PPU_SCROLL =>
      sc ← bytearray_set (ppu_scroll s) (_ppu_byte_latch s) value;
      let s := set_ppu_scroll sc s in
      let s :=
        if _ppu_byte_latch s =? 0
        then set__tX (Z.shiftr (Z.land value 0xF8) 3) s
        else set__tY (Z.shiftr (Z.land value 0xF8) 3) s in
      Some (set__ppu_byte_latch (1 - _ppu_byte_latch s) s)
  | PPU_ADDR =>
      let s :=
        if _ppu_byte_latch s =? 0 then
          let s := set_ppu_addr
                     (Z.land (ppu_addr s) 0x00FF + Z.shiftl value 8) s in
          set__tY (Z.land (_tY s) 0x10 + Z.land value 0x0F) s
        else
          let s := set_ppu_addr (Z.land (ppu_addr s) 0xFF00 + value) s in
          let s := set__tY (Z.land (_tY s) 0x07 + Z.land value 0x03) s in
          set__tN (Z.shiftr (Z.land value 0x0C) 2) s in
      Some (set__ppu_byte_latch (1 - _ppu_byte_latch s) s)
  | PPU_DATA =>
      let s := set_vram (vram_write (vram s) (ppu_addr s) value) s in
      let s := _increment_vram_address s in
      Some (if PALETTE_START <=? ppu_addr s
            then invalidate_palette_cache s else s)
  end.

(** ** Palette decoding *)

(** [decode_palette]: the four RGB colours of a palette, memoised in
    [_palette_cache].  A cached entry is used when it is truthy, that is, a
    non-empty list. *)
Definition decode_palette (palette_id : Z) (is_sprite : bool) (s : PPU)
  : option (palette * PPU) :=
  let bank := if is_sprite then 1%nat else 0%nat in
  cache_row ← _palette_cache s !! bank;
  cached ← py_index cache_row palette_id;
  match cached with
  | Some (c :: p) => Some (c :: p, s)
  | _ =>
      let palette_address :=
        PALETTE_START + 16 * Z.b2z is_sprite + 4 * palette_id in
      let p :=
        map (fun i => nth (Z.to_nat (Z.land (vram_read (vram s) (palette_address + i)) 0x3F))
                          rgb_palette (0, 0, 0))
            (py_range 4) in
      (* 0 <= palette_id <= 3 at every call, so the index is a position *)
      cache_row' ← list_set cache_row (Z.to_nat palette_id) (Some p);
      Some (p, set__palette_cache (<[bank := cache_row']> (_palette_cache s)) s)
  end.

(** ** Background pipeline *)

Definition shift_bkg_latches (s : PPU) : option PPU :=
  p1 ← _palette s !! 1%nat;
  latch ← list_set (_palette s) 0 p1;
  let s := set__palette latch s in
  lo1 ← _pattern_lo s !! 1%nat;
  latch ← list_set (_pattern_lo s) 0 lo1;
  let s := set__pattern_lo latch s in
  hi1 ← _pattern_hi s !! 1%nat;
  latch ← list_set (_pattern_hi s) 0 hi1;
  Some (set__pattern_hi latch s).

(** [fill_bkg_latches(line, col)].  [int(a / b)] truncates, hence [Z.quot].
    The [try ... except] around the tile read only guards a view that
    raises; the view modelled here always answers. *)
Definition fill_bkg_latches (line col : Z) (s : PPU) : option PPU :=
  let row := Z.quot line 8 in
  let nx0 := Z.b2z (bit_high (_tN s) 0) in
  let ny0 := Z.b2z (bit_high (_tN s) 1) in
  scroll_y ← py_index (ppu_scroll s) PPU_SCROLL_Y;
  scroll_x ← py_index (ppu_scroll s) PPU_SCROLL_X;
  let total_row :=
    (row + ny0 * SCREEN_TILE_ROWS + Z.shiftr (Z.land scroll_y 0xF8) 3)
      mod (2 * SCREEN_TILE_ROWS) in
  let total_col :=
    (col + nx0 * SCREEN_TILE_COLS + Z.shiftr (Z.land scroll_x 0xF8) 3)
      mod (2 * SCREEN_TILE_COLS) in
  let ny := Z.quot total_row SCREEN_TILE_ROWS in
  let nx := Z.quot total_col SCREEN_TILE_COLS in
  let tile_row := total_row - ny * SCREEN_TILE_ROWS in
  let tile_col := total_col - nx * SCREEN_TILE_COLS in
  let ntbl_base := NAMETABLE_START + (ny * 2 + nx) * NAMETABLE_LENGTH_BYTES in
  let tile_addr := ntbl_base + tile_row * SCREEN_TILE_COLS + tile_col in
  let tile_index := vram_read (vram s) tile_addr in
  let tile_bank := 0 <? Z.land (ppu_ctrl s) BKG_PATTERN_TABLE_MASK in
  let table_base := Z.b2z tile_bank * 0x1000 in
  let tile_base := table_base + tile_index * PATTERN_SIZE_BYTES in
  let attribute_byte :=
    vram_read (vram s)
      (ntbl_base + ATTRIBUTE_TABLE_OFFSET
       + (Z.quot tile_row 4 * 8 + Z.quot tile_col 4)) in
  let shift := 4 * (Z.quot tile_row 2 mod 2) + 2 * (Z.quot tile_col 2 mod 2) in
  let mask := Z.shiftl 0x03 shift in
  let palette_id := Z.shiftr (Z.land attribute_byte mask) shift in
  '(p, s) ← decode_palette palette_id false s;
  latch ← list_set (_palette s) 1 p;
  let s := set__palette latch s in
  let tile_line := line - 8 * row in
  latch ← list_set (_pattern_lo s) 1 (vram_read (vram s) (tile_base + tile_line));
  let s := set__pattern_lo latch s in
  latch ← list_set (_pattern_hi s) 1 (vram_read (vram s) (tile_base + tile_line + 8));
  Some (set__pattern_hi latch s).

Definition _get_bkg_pixel (s : PPU) : option color :=
  if (Z.land (ppu_mask s) RENDER_BACKGROUND_MASK =? 0)
     || ((pixel s - 1 <? 8) && bit_low (ppu_mask s) RENDER_LEFT8_BKG_BIT)
  then Some transparent_color
  else
    let mask := Z.shiftl 1 (7 - (pixel s - 1) mod 8) in
    lo0 ← _pattern_lo s !! 0%nat;
    hi0 ← _pattern_hi s !! 0%nat;
    let v := Z.b2z (0 <? Z.land lo0 mask) + Z.b2z (0 <? Z.land hi0 mask) * 2 in
    if 0 <? v then
      p0 ← _palette s !! 0%nat;
      py_index p0 v
    else Some transparent_color.

(** ** Sprite pipeline *)

(** The tile and the line within it that [_fill_sprite_latches] fetches for
    a sprite whose OAM tile byte is [tile_byte], on line [sl] of the sprite. *)
Definition sprite_tile_line (double_sprites flip_v : bool) (tile_byte sl : Z)
  : Z * Z :=
  if negb double_sprites then
    (tile_byte, if negb flip_v then sl else 7 - sl)
  else
    let line := if negb flip_v then sl else 15 - sl in
    let tile_ix := Z.land tile_byte 0xFE in
    if 8 <=? line then (tile_ix + 1, line - 8) else (tile_ix, line).

(** The address of the low pattern byte fetched for that sprite line. *)
Definition sprite_pattern_addr (ctrl : Z) (double_sprites flip_v : bool)
    (tile_byte sl : Z) : Z :=
  let table_base := Z.b2z (0 <? Z.land ctrl SPRITE_PATTERN_TABLE_MASK) * 0x1000 in
  let '(tile_ix, line) := sprite_tile_line double_sprites flip_v tile_byte sl in
  let tile_base := table_base + tile_ix * PATTERN_SIZE_BYTES in
  tile_base + line.

(** The inner loop [for x in range(8)] writing one row of [_sprite_pattern]. *)
Fixpoint fill_sprite_row (pal : palette) (lo hi : Z) (flip_h : bool)
    (xs : list Z) (pattern_row : list (option color))
  : option (list (option color)) :=
  match xs with
  | [] => Some pattern_row
  | x :: xs' =>
      let c := Z.b2z (bit_high hi x) * 2 + Z.b2z (bit_high lo x) in
      px ← (if c =? 0 then Some None else Some <$> py_index pal c);
      pattern_row' ← list_set pattern_row (Z.to_nat (if flip_h then x else 7 - x)) px;
      fill_sprite_row pal lo hi flip_h xs' pattern_row'
  end.

(** [_fill_sprite_latches]: the loop over [enumerate(active_sprite_addrs)],
    [i] being the index of the head of [addrs]. *)
Fixpoint _fill_sprite_latches (i : nat) (addrs : list Z) (sprite_line : list Z)
    (double_sprites : bool) (s : PPU) : option PPU :=
  match addrs with
  | [] => Some s
  | address :: addrs' =>
      attribs ← py_index (oam s) (Z.land (address + 2) 0xFF);
      let palette_ix := Z.land attribs 0x03 in
      '(pal, s) ← decode_palette palette_ix true s;
      let flip_v := bit_high attribs 7 in
      let flip_h := bit_high attribs 6 in
      priorities ← list_set (_sprite_bkg_priority s) i (bit_high attribs 5);
      let s := set__sprite_bkg_priority priorities s in
      tile_byte ← py_index (oam s) (Z.land (address + 1) 0xFF);
      sl ← sprite_line !! i;
      let pattern_lo_addr :=
        sprite_pattern_addr (ppu_ctrl s) double_sprites flip_v tile_byte sl in
      let sprite_pattern_lo := vram_read (vram s) pattern_lo_addr in
      let sprite_pattern_hi := vram_read (vram s) (pattern_lo_addr + 8) in
      pattern_row ← _sprite_pattern s !! i;
      pattern_row' ← fill_sprite_row pal sprite_pattern_lo sprite_pattern_hi
                        flip_h (py_range 8) pattern_row;
      let s := set__sprite_pattern (<[i := pattern_row']> (_sprite_pattern s)) s in
      _fill_sprite_latches (S i) addrs' sprite_line double_sprites s
  end.

(** The loop [for n in range(64)] of [_prefetch_active_sprites], with its
    [break] once nine sprites are held. *)
Fixpoint scan_sprites (oam_bytes : list Z) (held line sprite_height : Z)
    (ns : list Z) (active sprite_line : list Z) : option (list Z * list Z) :=
  match ns with
  | [] => Some (active, sprite_line)
  | n :: ns' =>
      let addr := (held + n * 4) mod OAM_SIZE_BYTES in
      sprite_y ← py_index oam_bytes addr;
      if (sprite_y <=? line) && (line <? sprite_y + sprite_height) then
        let active := active ++ [addr] in
        let sprite_line := sprite_line ++ [line - sprite_y] in
        if (9 <=? length active)%nat then Some (active, sprite_line)
        else scan_sprites oam_bytes held line sprite_height ns' active sprite_line
      else scan_sprites oam_bytes held line sprite_height ns' active sprite_line
  end.

Definition _prefetch_active_sprites (line : Z) (s : PPU) : option PPU :=
  let double_sprites := 0 <? Z.land (ppu_ctrl s) SPRITE_SIZE_MASK in
  let sprite_height := if double_sprites then 16 else 8 in
  '(active, sprite_line) ←
    scan_sprites (oam s) (_oam_addr_held s) line sprite_height (py_range 64) [] [];
  let '(s, active, sprite_line) :=
    if (8 <? length active)%nat
    then (set_sprite_overflow true s, take 8 active, take 8 sprite_line)
    else (s, active, sprite_line) in
  let s := set__active_sprites (Some active) s in
  _fill_sprite_latches 0 active sprite_line double_sprites s.

(** The loop [for i in reversed(range(len(self._active_sprites)))] of
    [_overlay_sprites]; the accumulator is
    [(sprite_c_out, top_sprite, s0_visible)]. *)
Fixpoint overlay_loop (s : PPU) (active : list Z) (idxs : list nat)
    (acc : option color * option nat * bool)
  : option (option color * option nat * bool) :=
  match idxs with
  | [] => Some acc
  | i :: idxs' =>
      sprite_addr ← active !! i;
      sprite_x ← py_index (oam s) (sprite_addr + 3);
      acc' ←
        (if (sprite_x <=? pixel s - 1) && (pixel s - 1 <? sprite_x + 8) then
           let pix := pixel s - 1 - sprite_x in
           pattern_row ← _sprite_pattern s !! i;
           c ← py_index pattern_row pix;
           match c with
           | Some rgb =>
               let '(_, _, s0_visible) := acc in
               Some (Some rgb, Some i, s0_visible || (sprite_addr =? 0))
           | None => Some acc
           end
         else Some acc);
      overlay_loop s active idxs' acc'
  end.

(** [_overlay_sprites(bkg_pixel)]: the colour to draw and the state (the
    sprite-zero flag and the palette cache may change). *)
Definition _overlay_sprites (bkg_pixel : color) (s : PPU) : option (color * PPU) :=
  if (Z.land (ppu_mask s) RENDER_SPRITES_MASK =? 0)
     || ((pixel s - 1 <? 8) && bit_low (ppu_mask s) RENDER_LEFT8_SPRITES_BIT)
  then Some (bkg_pixel, s)
  else
    active ← _active_sprites s;
    '(sprite_c_out, top_sprite, s0_visible) ←
      overlay_loop s active (rev (seq 0 (length active))) (None, None, false);
    let s :=
      if s0_visible && negb (color_eqb bkg_pixel transparent_color)
      then set_sprite_zero_hit true s else s in
    c_out ←
      match sprite_c_out with
      | Some rgb =>
          top ← top_sprite;
          priority ← _sprite_bkg_priority s !! top;
          Some (if negb priority || color_eqb bkg_pixel transparent_color
                then rgb else bkg_pixel)
      | None => Some bkg_pixel
      end;
    if negb (color_eqb c_out transparent_color) then Some (c_out, s)
    else
      '(p, s) ← decode_palette 0 false s;
      c ← py_index p 0;
      Some (c, s).

(** ** The tick port *)

Definition _new_frame (s : PPU) : PPU :=
  let s := set_frames_since_reset (frames_since_reset s + 1) s in
  let s := set_cycles_since_frame 0 s in
  let s := set_pixel 0 s in
  let s := set_line 0 s in
  let s := set_row 0 s in
  set_col 0 s.

Definition screen_write_at (x y : Z) (c : color) (s : PPU) : PPU :=
  set_screen ((x, y, c) :: screen s) s.

Definition shift_and_fill (line col : Z) (s : PPU) : option PPU :=
  s ← shift_bkg_latches s;
  fill_bkg_latches line col s.

(** The body of [if self.line <= 239 and rendering enabled] in [run_cycles]. *)
Definition visible_line_dot (s : PPU) : option PPU :=
  if (0 <? pixel s) && (pixel s <=? 256) then
    s ← (if ((pixel s - 1) mod 8 =? 0) && (1 <? pixel s)
         then shift_and_fill (line s) (col s + 1) s else Some s);
    bkg_pixel ← _get_bkg_pixel s;
    '(final_pixel, s) ← _overlay_sprites bkg_pixel s;
    Some (if negb (color_eqb final_pixel transparent_color)
          then screen_write_at (pixel s - 1) (line s) final_pixel s else s)
  else if pixel s =? 257 then _prefetch_active_sprites (line s + 1) s
  else if (321 <=? pixel s) && (pixel s <=? 336) then
    if pixel s mod 8 =? 1
    then shift_and_fill (line s + 1) (Z.quot (pixel s - 321) 8) s
    else Some s
  else Some (set__bkg_px (Some 0) s).

(** The chain [if self.line == 0 and self.pixel == 65 ... elif ...]; the
    boolean tells whether [frame_ended = True] was executed. *)
Definition scanline_events (s : PPU) : option (PPU * bool) :=
  if (line s =? 0) && (pixel s =? 65) then
    Some (set__oam_addr_held (oam_addr s) s, false)
  else if (line s =? 240) && (pixel s =? 0) then Some (s, false)
  else if (line s =? 241) && (pixel s =? 1) then
    let s := set_in_vblank true s in
    Some (if 0 <? Z.land (ppu_ctrl s) VBLANK_MASK then _trigger_nmi s else s,
          false)
  else if line s <=? 260 then Some (s, false)
  else if line s =? 261 then
    if pixel s =? 1 then
      let s := set_in_vblank false s in
      let s := set_sprite_zero_hit false s in
      Some (set_sprite_overflow false s, false)
    else if pixel s =? 257 then
      s ← _prefetch_active_sprites 0 s; Some (s, false)
    else if (321 <=? pixel s) && (pixel s <=? 336) then
      if pixel s mod 8 =? 1
      then s ← shift_and_fill 0 (Z.quot (pixel s - 321) 8) s; Some (s, false)
      else Some (s, false)
    else if pixel s =? PIXELS_PER_LINE - 1 - frames_since_reset s mod 2
    then Some (s, true)
    else Some (s, false)
  else Some (s, false).

(** The counter updates that close every iteration. *)
Definition advance_counters (s : PPU) : PPU :=
  let s := set_cycles_since_reset (cycles_since_reset s + 1) s in
  let s := set_cycles_since_frame (cycles_since_frame s + 1) s in
  let s := set_pixel (pixel s + 1) s in
  let s := if (1 <? pixel s) && (pixel s mod 8 =? 1)
           then set_col (col s + 1) s else s in
  if PIXELS_PER_LINE <=? pixel s then
    let s := set_line (line s + 1) s in
    let s := set_pixel 0 s in
    let s := set_col 0 s in
    if (0 <? line s) && (line s mod 8 =? 0) then set_row (row s + 1) s else s
  else s.

(** One iteration of [for cyc in range(num_cycles)].  The local variable
    [frame_ended] is carried from one iteration to the next: it is set once
    and never reset inside the loop. *)
Definition run_cycle (st : PPU * bool) : option (PPU * bool) :=
  let '(s, frame_ended) := st in
  s ← (if (line s <=? 239) && (0 <? Z.land (ppu_mask s) RENDERING_ENABLED_MASK)
       then visible_line_dot s else Some s);
  '(s, ended_now) ← scanline_events s;
  let frame_ended := frame_ended || ended_now in
  let s := advance_counters s in
  Some (if frame_ended then _new_frame s else s, frame_ended).

Fixpoint run_cycles_loop (n : nat) (st : PPU * bool) : option (PPU * bool) :=
  match n with
  | O => Some st
  | S n' => st' ← run_cycle st; run_cycles_loop n' st'
  end.

(** [run_cycles(num_cycles)]: the value returned ([frame_ended]) and the
    state left behind.  [range] of a non-positive number is empty. *)
Definition run_cycles (num_cycles : Z) (s : PPU) : option (bool * PPU) :=
  '(s', frame_ended) ← run_cycles_loop (Z.to_nat num_cycles) (s, false);
  Some (frame_ended, s').

End Engine.

Arguments PPU : clear implicits.

(** ** A flat video memory

    A stand-in for the cartridge-backed view, used to run the engine on
    concrete inputs: 64 KiB of bytes without mirroring, with the usual
    NES layout (nametables at 0x2000, 0x400 bytes each, attributes at offset
    0x3C0, palette RAM at 0x3F00). *)

Definition flat_vram : Type := Z -> Z.

#[export] Instance flat_vram_view : VRAMView flat_vram := {|
  vram_read := fun m a => Z.land (m a) 0xFF;
  vram_write := fun m a v => fun a' => if a' =? a then v else m a';
  PALETTE_START := 0x3F00;
  NAMETABLE_START := 0x2000;
  NAMETABLE_LENGTH_BYTES := 0x400;
  ATTRIBUTE_TABLE_OFFSET := 0x3C0
|}.

Definition empty_vram : flat_vram := fun _ => 0.

(** The engine at reset over an empty flat memory. *)
Definition reset_state : PPU flat_vram := init empty_vram.

(** ** Driving the engine from outside

    The engine is mutated only through the register port and the tick port;
    a run of the system is a list of such calls. *)

Inductive action : Type :=
| Run (num_cycles : Z)
| Read (reg : register)
| Write (reg : register) (value : Z).

(** ** Watching the vblank flag

    What an observer of [in_vblank] sees: each change of the flag, with the
    place where it happened, and each frame boundary reported by
    [run_cycles]. *)

Inductive cause : Type :=
| AtDot (line pixel : Z)
| OnRead (reg : register)
| OnWrite (reg : register).

Inductive vblank_event : Type :=
| VblankSet (c : cause) (nmis : Z) (nmi_enabled : bool)
| VblankCleared (c : cause)
| FrameBoundary.

Section Observation.

Context {V : Type} `{VRAMView V}.

(** The flag compared before and after one step caused by [c]; a set is
    reported with the number of NMIs raised during the step and with bit 7
    of CTRL as it was when the step began. *)
Definition observe (c : cause) (s s' : PPU V) : list vblank_event :=
  if negb (in_vblank s) && in_vblank s' then
    [VblankSet c (nmi_raised s' - nmi_raised s) (Z.testbit (ppu_ctrl s) 7)]
  else if in_vblank s && negb (in_vblank s') then [VblankCleared c]
  else [].

(** The loop of [run_cycles], watched dot by dot. *)
Fixpoint watch_cycles (n : nat) (st : PPU V * bool)
  : option (PPU V * bool * list vblank_event) :=
  match n with
  | O => Some (st, [])
  | S n' =>
      st' ← run_cycle st;
      '(st'', evs) ← watch_cycles n' st';
      Some (st'', observe (AtDot (line (fst st)) (pixel (fst st))) (fst st) (fst st')
                  ++ evs)
  end.

(** One call from outside, with what the observer sees during it. *)
Definition watch_action (a : action) (s : PPU V) : option (PPU V * list vblank_event) :=
  match a with
  | Run n =>
      '(s', frame_ended, evs) ← watch_cycles (Z.to_nat n) (s, false);
      Some (s', evs ++ (if frame_ended : bool then [FrameBoundary] else []))
  | Read r =>
      '(_, s') ← read_register r s;
      Some (s', observe (OnRead r) s s')
  | Write r v =>
      s' ← write_register r v s;
      Some (s', observe (OnWrite r) s s')
  end.

Fixpoint watch (tr : list action) (s : PPU V) : option (PPU V * list vblank_event) :=
  match tr with
  | [] => Some (s, [])
  | a :: tr' =>
      '(s', evs) ← watch_action a s;
      '(s'', evs') ← watch tr' s';
      Some (s'', evs ++ evs')
  end.

(** The same run without the observer. *)
Definition do_action (a : action) (s : PPU V) : option (PPU V) :=
  match a with
  | Run n => snd <$> run_cycles n s
  | Read r => snd <$> read_register r s
  | Write r v => write_register r v s
  end.

Fixpoint exec (tr : list action) (s : PPU V) : option (PPU V) :=
  match tr with
  | [] => Some s
  | a :: tr' => s' ← do_action a s; exec tr' s'
  end.

End Observation.

(** The discipline a frame must follow: the flag is set once, at line 241
    dot 1, raising one NMI exactly when CTRL bit 7 is set; it is then cleared
    once, at line 261 dot 1 or by a read of STATUS; then the frame ends. *)
Inductive phase : Type := BeforeVblank | InVblank | AfterVblank.

Definition vblank_step (ph : phase) (e : vblank_event) : option phase :=
  match ph, e with
  | BeforeVblank, VblankSet (AtDot l p) nmis nmi_enabled =>
      if (l =? 241) && (p =? 1) && (nmis =? Z.b2z nmi_enabled)
      then Some InVblank else None
  | InVblank, VblankCleared (AtDot l p) =>
      if (l =? 261) && (p =? 1) then Some AfterVblank else None
  | InVblank, VblankCleared (OnRead PPU_STATUS) => Some AfterVblank
  | AfterVblank, FrameBoundary => Some BeforeVblank
  | _, _ => None
  end.

Fixpoint vblank_discipline (ph : phase) (evs : list vblank_event) : option phase :=
  match evs with
  | [] => Some ph
  | e :: evs' => ph' ← vblank_step ph e; vblank_discipline ph' evs'
  end.

(** ** Footprints

    Which attributes a helper may change is stated by erasing them: two
    states with equal erasures differ at most in the erased attributes. *)

Section Footprints.

Context {V : Type} `{VRAMView V}.

(** [decode_palette]: the memo table. *)
Definition erase_cache (s : PPU V) : PPU V := set__palette_cache [] s.

(** The background fetch: the memo table and the background latches. *)
Definition erase_bkg (s : PPU V) : PPU V :=
  set__palette [] (set__pattern_lo [] (set__pattern_hi [] (erase_cache s))).

(** The sprite fetch: the memo table and the sprite latches. *)
Definition erase_sprites (s : PPU V) : PPU V :=
  set__sprite_pattern [] (set__sprite_bkg_priority [] (erase_cache s)).

(** Sprite evaluation: also the captured sprites and the overflow flag. *)
Definition erase_eval (s : PPU V) : PPU V :=
  set__active_sprites None (set_sprite_overflow false (erase_sprites s)).

(** The sprite overlay: the memo table and the sprite-zero flag. *)
Definition erase_overlay (s : PPU V) : PPU V :=
  set_sprite_zero_hit false (erase_cache s).

(** Everything the rendering of one dot may change. *)
Definition erase_render (s : PPU V) : PPU V :=
  set_screen [] (set__bkg_px None (erase_overlay (erase_eval (erase_bkg s)))).

End Footprints.

(** ** The place of a state in the frame *)

Section Clock.

Context {V : Type} `{VRAMView V}.

(** The attributes that place a state in the frame and carry the vblank
    signalling. *)
Definition clock (s : PPU V) : Z * Z * Z * Z * bool * Z :=
  (line s, pixel s, frames_since_reset s, ppu_ctrl s, in_vblank s, nmi_raised s).

(** Where the frame stands with respect to its vertical blank, read off
    the flag and the dot counter. *)
Definition phase_of (s : PPU V) : phase :=
  if in_vblank s then InVblank
  else if (line s <? 241) || ((line s =? 241) && (pixel s <=? 1))
       then BeforeVblank
       else AfterVblank.

(** Inside a [run_cycles] call that has already seen the end of the frame,
    the boundary has not been reported yet. *)
Definition loop_phase (st : PPU V * bool) : phase :=
  if snd st then AfterVblank else phase_of (fst st).

(** The dot counter stays inside the frame, and the flag is up only between
    line 241 dot 2 and line 261 dot 1. *)
Definition clock_ok (s : PPU V) : Prop :=
  0 <= line s <= 261
  /\ 0 <= pixel s <= 340
  /\ (line s = 261 -> pixel s <= 340 - frames_since_reset s mod 2)
  /\ (in_vblank s = true ->
      (line s = 241 /\ 2 <= pixel s) \/ 242 <= line s <= 260
      \/ (line s = 261 /\ pixel s <= 1)).

Definition loop_ok (st : PPU V * bool) : Prop :=
  clock_ok (fst st)
  /\ (snd st = true -> line (fst st) = 0 /\ pixel (fst st) = 0).

End Clock.

(** ** Sprite evaluation, as the specification words it *)

Section Evaluation.

Context {V : Type} `{VRAMView V}.

(** The 64 OAM entries in the order they are scanned. *)
Definition scan_order (held : Z) : list Z :=
  map (fun n => (held + n * 4) mod OAM_SIZE_BYTES) (py_range 64).

(** Sprite height: 16 when CTRL bit 5 is set, else 8. *)
Definition sprite_height (ctrl : Z) : Z := if Z.testbit ctrl 5 then 16 else 8.

(** A sprite is active on [line] iff [sprite_y <= line < sprite_y + height]. *)
Definition sprite_covers (oam_bytes : list Z) (line height addr : Z) : bool :=
  match py_index oam_bytes addr with
  | Some sprite_y => (sprite_y <=? line) && (line <? sprite_y + height)
  | None => false
  end.

(** All sprites active on [line], in first-found order. *)
Definition active_on (s : PPU V) (line : Z) : list Z :=
  List.filter (sprite_covers (oam s) line (sprite_height (ppu_ctrl s)))
              (scan_order (_oam_addr_held s)).

(** The shape of the memories the sprite fetch indexes: what [__init__]
    allocates and every later assignment keeps. *)
Definition cache_ok (c : list (list (option palette))) : Prop :=
  length c = 2%nat
  /\ Forall (fun cache_row =>
               length cache_row = 4%nat
               /\ Forall (fun e => match e with
                                   | Some p => length p = 4%nat
                                   | None => True
                                   end) cache_row) c.

Definition latches_ok (s : PPU V) : Prop :=
  length (oam s) = 256%nat
  /\ length (_sprite_pattern s) = 8%nat
  /\ Forall (fun pattern_row => length pattern_row = 8%nat) (_sprite_pattern s)
  /\ length (_sprite_bkg_priority s) = 8%nat
  /\ cache_ok (_palette_cache s).

End Evaluation.

(** ** Concrete engines used in the examples below *)

(** An OAM holding one sprite at address 0, the other 63 parked at y = 255. *)
Definition oam_one_sprite (y tile attribs x : Z) : list Z :=
  [y; tile; attribs; x] ++ replicate 252 0xFF.

(** 8x16 sprites with CTRL bit 3 clear; sprite 0 sits on line 0 and names
    tile 0x01, whose bit 0 asks for the pattern table at 0x1000.  The two
    tables differ in their first byte. *)
Definition engine_8x16 : PPU flat_vram :=
  set_ppu_ctrl 0x20
    (set_oam (oam_one_sprite 0 0x01 0 0)
       (set_vram (fun a => if a =? 0x1000 then 0xFF else 0) reset_state)).

(** Nine sprites covering line 50 (y = 45, 8 pixels high), the engine
    standing at dot 257 of line 49 with rendering enabled. *)
Definition oam_nine_sprites : list Z :=
  concat (replicate 9 [45; 0; 0; 0]) ++ replicate 220 0xFF.

Definition engine_nine_sprites : PPU flat_vram :=
  set_line 49 (set_pixel 257 (set_ppu_mask 0x18 (set_oam oam_nine_sprites reset_state))).

(** ** Sprite-zero hit, as the specification words it *)

Section SpriteZero.

Context {V : Type} `{VRAMView V}.

(** Captured sprite [i] covers the current dot with an opaque pixel. *)
Definition sprite_opaque_at (s : PPU V) (active : list Z) (i : nat) : bool :=
  match active !! i with
  | Some sprite_addr =>
      match py_index (oam s) (sprite_addr + 3) with
      | Some sprite_x =>
          (sprite_x <=? pixel s - 1) && (pixel s - 1 <? sprite_x + 8)
          && match _sprite_pattern s !! i with
             | Some pattern_row =>
                 match py_index pattern_row (pixel s - 1 - sprite_x) with
                 | Some (Some _) => true
                 | _ => false
                 end
             | None => false
             end
      | None => false
      end
  | None => false
  end.

(** Captured sprite [i] comes from OAM address 0. *)
Definition from_oam_zero (active : list Z) (i : nat) : bool :=
  match active !! i with
  | Some sprite_addr => sprite_addr =? 0
  | None => false
  end.

(** Some captured sprite from OAM address 0 is opaque at the current dot. *)
Definition sprite_zero_shows (s : PPU V) : bool :=
  match _active_sprites s with
  | Some active =>
      existsb (fun i => sprite_opaque_at s active i && from_oam_zero active i)
              (seq 0 (length active))
  | None => false
  end.

(** The OAM address of the top opaque sprite at the current dot: the
    lowest-index captured sprite that is opaque here. *)
Definition top_sprite_addr (s : PPU V) : option Z :=
  active ← _active_sprites s;
  i ← List.find (sprite_opaque_at s active) (seq 0 (length active));
  active !! i.

(** Sprites are rendered and not hidden by the left-8 sprite mask. *)
Definition sprites_shown (s : PPU V) : bool :=
  negb ((Z.land (ppu_mask s) RENDER_SPRITES_MASK =? 0)
        || ((pixel s - 1 <? 8) && bit_low (ppu_mask s) RENDER_LEFT8_SPRITES_BIT)).

(** The background pixel [run_cycles] computes at the current dot: the
    latches are advanced first on every eighth dot. *)
Definition bkg_pixel_at (s : PPU V) : option color :=
  s1 ← (if ((pixel s - 1) mod 8 =? 0) && (1 <? pixel s)
        then shift_and_fill (line s) (col s + 1) s else Some s);
  _get_bkg_pixel s1.

Definition bkg_opaque (s : PPU V) : bool :=
  match bkg_pixel_at s with
  | Some c => negb (color_eqb c transparent_color)
  | None => false
  end.

(** The dot is one at which the code raises the sprite-zero flag. *)
Definition sprite_zero_hit_here (s : PPU V) : bool :=
  (line s <=? 239) && (0 <? Z.land (ppu_mask s) RENDERING_ENABLED_MASK)
  && (0 <? pixel s) && (pixel s <=? 256)
  && sprites_shown s && sprite_zero_shows s && bkg_opaque s.

End SpriteZero.

(** Engines standing at dot 257 of line 49, rendering and both left-8
    columns enabled, over a memory whose background tile 0 and sprite tile 1
    are opaque.  The sprites sit on line 50. *)
Definition opaque_tiles : flat_vram := fun a => if a <? 24 then 0xFF else 0.

Definition engine_line_49 (held : Z) (oam_bytes : list Z) : PPU flat_vram :=
  set_line 49
    (set_pixel 257
       (set_ppu_mask 0x1E
          (set__oam_addr_held held
             (set_oam oam_bytes (set_vram opaque_tiles reset_state))))).

(** Sprite 0 and sprite 1 both at x = 100; evaluation starts at OAM address
    4, so sprite 1 is captured first and sprite 0 second. *)
Definition engine_sprite_zero_behind : PPU flat_vram :=
  engine_line_49 4 ([50; 1; 0; 100; 50; 1; 0; 100] ++ replicate 248 0xFF).

(** Sprite 0 alone, at the left edge and at the right edge of the screen. *)
Definition engine_sprite_zero_left : PPU flat_vram :=
  engine_line_49 0 (oam_one_sprite 50 1 0 0).

Definition engine_sprite_zero_right : PPU flat_vram :=
  engine_line_49 0 (oam_one_sprite 50 1 0 255).

(** A run into the first frame: NMI is enabled once the warm-up is over. *)
Definition first_frame_run : list action :=
  [Run 30000; Write PPU_CTRL 0x80].


(** ** Further vocabulary for the register and tick ports *)

(** The registers whose reads only return the I/O latch. *)
Definition write_only (r : register) : bool :=
  match r with
  | PPU_CTRL | PPU_MASK | OAM_ADDR | PPU_SCROLL | PPU_ADDR => true
  | PPU_STATUS | OAM_DATA | PPU_DATA => false
  end.

Section Shapes.

Context {V : Type} `{VRAMView V}.

(** What the register port relies on: a 256-byte OAM with its cursor inside
    it, two scroll bytes, and a write toggle that is 0 or 1. *)
Definition port_ok (s : PPU V) : Prop :=
  length (oam s) = 256%nat
  /\ 0 <= oam_addr s <= 255
  /\ length (ppu_scroll s) = 2%nat
  /\ (_ppu_byte_latch s = 0 \/ _ppu_byte_latch s = 1).

(** What the background fetch relies on: two latches of each kind, the
    pattern latches (bytearrays) holding bytes. *)
Definition bkg_latches_ok (s : PPU V) : Prop :=
  length (_palette s) = 2%nat
  /\ length (_pattern_lo s) = 2%nat
  /\ length (_pattern_hi s) = 2%nat
  /\ Forall (fun x => 0 <= x <= 255) (_pattern_lo s)
  /\ Forall (fun x => 0 <= x <= 255) (_pattern_hi s).

(** The shape [__init__] gives the engine. *)
Definition engine_ok (s : PPU V) : Prop :=
  port_ok s /\ latches_ok s /\ bkg_latches_ok s.

(** The dot counter as one number: dots since the start of the frame. *)
Definition frame_pos (s : PPU V) : Z := line s * PIXELS_PER_LINE + pixel s.

(** The number of dots of the frame a state is in: 262 lines of 341 dots,
    one dot less when [frames_since_reset] is odd. *)
Definition frame_length (s : PPU V) : Z :=
  262 * PIXELS_PER_LINE - frames_since_reset s mod 2.

(** What the chain of scanline tests may change besides what rendering
    changes: the vblank flag, the NMI line and the held OAM address. *)
Definition erase_events (s : PPU V) : PPU V :=
  set_in_vblank false
    (set_nmi_raised 0 (set__oam_addr_held 0 (erase_render s))).

(** Everything a tick may change: the above and the counters. *)
Definition erase_tick (s : PPU V) : PPU V :=
  set_line 0
    (set_pixel 0
       (set_row 0
          (set_col 0
             (set_cycles_since_reset 0
                (set_cycles_since_frame 0
                   (set_frames_since_reset 0 (erase_events s))))))).

(** The dots left in the frame a state is in, the current one included. *)
Definition dots_left (s : PPU V) : Z := frame_length s - frame_pos s.

End Shapes.

(** A pixel handed to the screen lies on the 256 x 240 picture and is not
    the transparency sentinel. *)
Definition pixel_ok (px : Z * Z * color) : Prop :=
  let '(x, y, c) := px in
  0 <= x <= 255 /\ 0 <= y <= 239 /\ color_eqb c transparent_color = false.

(** An engine eleven dots before the end of the first frame. *)
Definition engine_frame_end : PPU flat_vram :=
  set_line 261 (set_pixel 330 reset_state).

(** An engine at dot 1 of the pre-render line with both sprite flags up. *)
Definition engine_prerender_dot1 : PPU flat_vram :=
  set_line 261
    (set_pixel 1
       (set_sprite_overflow true (set_sprite_zero_hit true reset_state))).

(** A call that cannot switch rendering on and writes bytes only. *)
Definition quiet (a : action) : Prop :=
  match a with
  | Write r x =>
      0 <= x <= 255 /\ (r = PPU_MASK -> Z.land x RENDERING_ENABLED_MASK = 0)
  | _ => True
  end.

(** An engine at dot 65 of line 0 whose OAM cursor stands at 0x40. *)
Definition engine_line0_dot65 : PPU flat_vram :=
  set_pixel 65 (set_oam_addr 0x40 reset_state).

(** The colour [k] steps along the grey diagonal from [c], the path the
    search of [_get_non_palette_color] walks. *)
Definition diagonal (c : color) (k : Z) : color :=
  (c.1.1 + k, c.1.2 + k, c.2 + k).

(** ** What an observer of the vblank flag is to see, from the dot counter *)

(** The places of the two vblank dots in the frame, as dots since its
    start. *)
Definition VBLANK_SET_DOT : Z := 241 * PIXELS_PER_LINE + 1.
Definition VBLANK_CLEAR_DOT : Z := 261 * PIXELS_PER_LINE + 1.

(** A call of [n] dots begun at place [pos] of the frame runs the dot at
    place [p]. *)
Definition runs_dot (pos n p : Z) : bool := (pos <=? p) && (p <? pos + n).

(** What the specification lets an observer see during a call of [n] dots
    begun at place [pos] of a frame with [left] dots to go: the flag going
    up at line 241 dot 1, with one NMI exactly when bit 7 of CTRL is set;
    the flag going down at line 261 dot 1 when it is still up; the frame
    boundary when the call reaches the last dot of the frame. *)
Definition expected_ticks (pos left : Z) (flag_up nmi_enabled : bool) (n : Z)
  : list vblank_event :=
  (if runs_dot pos n VBLANK_SET_DOT
   then [VblankSet (AtDot 241 1) (Z.b2z nmi_enabled) nmi_enabled]
   else [])
  ++ (if runs_dot pos n VBLANK_CLEAR_DOT
         && (flag_up || runs_dot pos n VBLANK_SET_DOT)
      then [VblankCleared (AtDot 261 1)]
      else [])
  ++ (if left <=? n then [FrameBoundary] else []).

Section Expected.

Context {V : Type} `{VRAMView V}.

Definition tick_events (s : PPU V) (n : Z) : list vblank_event :=
  expected_ticks (frame_pos s) (dots_left s) (in_vblank s)
    (Z.testbit (ppu_ctrl s) 7) n.

(** What the specification lets an observer see during one call: of the
    register accesses only a read of STATUS shows, and only when the flag is
    up. *)
Definition action_events (s : PPU V) (a : action) : list vblank_event :=
  match a with
  | Run n => tick_events s n
  | Read PPU_STATUS =>
      if in_vblank s then [VblankCleared (OnRead PPU_STATUS)] else []
  | Read _ | Write _ _ => []
  end.

End Expected.

(** * Properties *)

(** ** Bit arithmetic used by the register port *)

Lemma land_add_disjoint (a b : Z) : Z.land a b = 0 -> a + b = Z.lor a b.
Proof.
  intros Hd. rewrite Z.add_nocarry_lxor by exact Hd. apply Z.lxor_lor, Hd.
Qed.

Lemma land_pow2_cases (a i : Z) :
  0 <= i -> Z.land a (2 ^ i) = if Z.testbit a i then 2 ^ i else 0.
Proof.
  intros Hi. apply Z.bits_inj'. intros k Hk. rewrite Z.land_spec.
  destruct (Z.eq_dec k i) as [-> | Hne].
  - destruct (Z.testbit a i) eqn:Hb.
    + rewrite Z.pow2_bits_true by lia. reflexivity.
    + rewrite Z.bits_0. reflexivity.
  - rewrite Z.pow2_bits_false by lia. rewrite andb_false_r.
    destruct (Z.testbit a i).
    + symmetry. apply Z.pow2_bits_false. lia.
    + symmetry. apply Z.bits_0.
Qed.

(** [bit_high] reads the bit it names. *)
Lemma bit_high_testbit (a i : Z) : 0 <= i -> bit_high a i = Z.testbit a i.
Proof.
  intros Hi. unfold bit_high. rewrite Z.shiftl_1_l, land_pow2_cases by lia.
  destruct (Z.testbit a i).
  - apply Z.ltb_lt. apply Z.pow_pos_nonneg; lia.
  - reflexivity.
Qed.

(** A mask test [x & 2^i == 0] is the negation of bit [i]. *)
Lemma land_pow2_eqb_0 (a i : Z) :
  0 <= i -> (Z.land a (2 ^ i) =? 0) = negb (Z.testbit a i).
Proof.
  intros Hi. rewrite land_pow2_cases by lia.
  destruct (Z.testbit a i); [| reflexivity].
  apply Z.eqb_neq. pose proof (Z.pow_pos_nonneg 2 i). lia.
Qed.

Lemma byte_land_FF (v : Z) : 0 <= v <= 255 -> Z.land v 0xFF = v.
Proof.
  intros Hv. change 0xFF with (Z.ones 8). rewrite Z.land_ones by lia.
  apply Z.mod_small. change (2 ^ 8) with 256. lia.
Qed.

(** ** Reading STATUS *)

Section StatusRead.

Context {V : Type} `{VRAMView V}.

(** The three flags occupy bits 7..5 of [ppu_status]; the latch noise that
    the read adds never reaches them, so the sum is a bitwise or. *)
Lemma status_value_lor (s : PPU V) :
  ppu_status s + Z.land 0x00011111 (_io_latch s)
  = Z.lor (ppu_status s) (Z.land 0x00011111 (_io_latch s)).
Proof.
  apply land_add_disjoint. rewrite Z.land_assoc. unfold ppu_status.
  destruct (in_vblank s), (sprite_zero_hit s), (sprite_overflow s);
    cbn; apply Z.land_0_l.
Qed.

(** What a read of STATUS does, field by field. *)
Lemma read_status_eq (s : PPU V) :
  read_register PPU_STATUS s
  = Some (ppu_status s + Z.land 0x00011111 (_io_latch s),
          set__io_latch (ppu_status s + Z.land 0x00011111 (_io_latch s))
            (set_in_vblank false (set__ppu_byte_latch 0 s))).
Proof. reflexivity. Qed.

(** The parts of the STATUS byte that the code gets right: bits 7, 6 and 5
    are the three flags, and the read leaves [in_vblank] false and the
    shared write toggle at 0. *)
Lemma read_status_flags (s : PPU V) :
  exists v s',
    read_register PPU_STATUS s = Some (v, s')
    /\ Z.testbit v 7 = in_vblank s
    /\ Z.testbit v 6 = sprite_zero_hit s
    /\ Z.testbit v 5 = sprite_overflow s
    /\ in_vblank s' = false
    /\ _ppu_byte_latch s' = 0.
Proof.
  eexists _, _. split; [apply read_status_eq |].
  rewrite status_value_lor, !Z.lor_spec, !Z.land_spec. unfold ppu_status.
  destruct (in_vblank s), (sprite_zero_hit s), (sprite_overflow s);
    cbn; repeat split; reflexivity.
Qed.

(** The low five bits of the byte read are the latch masked with 0x11: of
    the latch's low five bits only bits 0 and 4 come through. *)
Lemma read_status_low_bits (s : PPU V) :
  exists v s',
    read_register PPU_STATUS s = Some (v, s')
    /\ Z.land v 0x1F = Z.land (_io_latch s) 0x11.
Proof.
  eexists _, _. split; [apply read_status_eq |].
  rewrite status_value_lor, Z.land_lor_distr_l.
  rewrite <- (Z.land_assoc 0x00011111), (Z.land_comm (_io_latch s)).
  rewrite (Z.land_assoc 0x00011111). change (Z.land 0x00011111 0x1F) with 0x11.
  rewrite (Z.land_comm 0x11).
  replace (Z.land (ppu_status s) 0x1F) with 0; [apply Z.lor_0_l |].
  unfold ppu_status.
  destruct (in_vblank s), (sprite_zero_hit s), (sprite_overflow s); reflexivity.
Qed.

(** C10.  A read of STATUS changes only [in_vblank], the shared write toggle
    [_ppu_byte_latch] and [_io_latch]: every other field of the engine,
    among them the sprite flags, CTRL, MASK, the OAM address and contents,
    the scroll bytes, the VRAM address, the data buffer and VRAM, is the
    same after the read as before it. *)
Theorem read_status_only_touches_vblank_toggle_latch (s : PPU V) :
  exists v s',
    read_register PPU_STATUS s = Some (v, s')
    /\ sprite_zero_hit s' = sprite_zero_hit s
    /\ sprite_overflow s' = sprite_overflow s
    /\ ppu_ctrl s' = ppu_ctrl s
    /\ ppu_mask s' = ppu_mask s
    /\ oam_addr s' = oam_addr s
    /\ oam s' = oam s
    /\ ppu_scroll s' = ppu_scroll s
    /\ ppu_addr s' = ppu_addr s
    /\ _ppu_data_buffer s' = _ppu_data_buffer s
    /\ vram s' = vram s
    /\ s' = set__io_latch (_io_latch s')
              (set_in_vblank (in_vblank s')
                 (set__ppu_byte_latch (_ppu_byte_latch s') s)).
Proof.
  eexists _, _. split; [apply read_status_eq |].
  repeat split; reflexivity.
Qed.

End StatusRead.

(** C2.  The byte read from STATUS does not carry the low five bits of the
    I/O latch: the source masks the latch with the hexadecimal constant
    [0x00011111], whose low byte is 0x11.  After a write of 0x1F (to MASK,
    which fills the latch) STATUS reads as 0x11, while the low five bits of
    the latch are 0x1F. *)
Theorem read_status_drops_latch_bits :
  exists s v s',
    write_register PPU_MASK 0x1F reset_state = Some s
    /\ _io_latch s = 0x1F
    /\ read_register PPU_STATUS s = Some (v, s')
    /\ Z.land v 0x1F = 0x11
    /\ Z.land (_io_latch s) 0x1F = 0x1F.
Proof.
  eexists _, _, _. split; [reflexivity |].
  split; [reflexivity |]. split; [reflexivity |]. split; reflexivity.
Qed.

(** ** Reading DATA *)

Lemma increment_step (ctrl : Z) :
  (if Z.land ctrl VRAM_INCREMENT_MASK =? 0 then 1 else 32)
  = if Z.testbit ctrl 2 then 32 else 1.
Proof.
  change VRAM_INCREMENT_MASK with (2 ^ 2). rewrite land_pow2_eqb_0 by lia.
  destruct (Z.testbit ctrl 2); reflexivity.
Qed.

(** C3.  A read of DATA below the palette region returns the buffered byte
    and refills the buffer from VRAM at [ppu_addr]; in the palette region it
    returns the VRAM byte at [ppu_addr] and refills the buffer from
    [ppu_addr - 0x1000]; either way [ppu_addr] then grows by 1 when CTRL
    bit 2 is clear and by 32 when it is set. *)
Theorem read_data_buffered {V : Type} `{VRAMView V} (s : PPU V) :
  (ppu_addr s < PALETTE_START ->
   exists s', read_register PPU_DATA s = Some (_ppu_data_buffer s, s')
     /\ _ppu_data_buffer s' = vram_read (vram s) (ppu_addr s)
     /\ ppu_addr s' = ppu_addr s + (if Z.testbit (ppu_ctrl s) 2 then 32 else 1))
  /\
  (PALETTE_START <= ppu_addr s ->
   exists s', read_register PPU_DATA s = Some (vram_read (vram s) (ppu_addr s), s')
     /\ _ppu_data_buffer s' = vram_read (vram s) (ppu_addr s - 0x1000)
     /\ ppu_addr s' = ppu_addr s + (if Z.testbit (ppu_ctrl s) 2 then 32 else 1)).
Proof.
  split; intros Hregion; unfold read_register.
  - replace (ppu_addr s <? PALETTE_START) with true
      by (symmetry; apply Z.ltb_lt; exact Hregion).
    eexists. split; [reflexivity |]. split; [reflexivity |].
    cbn. rewrite increment_step. reflexivity.
  - replace (ppu_addr s <? PALETTE_START) with false
      by (symmetry; apply Z.ltb_ge; exact Hregion).
    eexists. split; [reflexivity |]. split; [reflexivity |].
    cbn. rewrite increment_step. reflexivity.
Qed.

(** [read_data_buffered] at reset (below the palette) and at 0x3F00 with
    CTRL bit 2 set. *)
Lemma read_data_buffered_witness :
  (exists s', read_register PPU_DATA reset_state = Some (0, s')
     /\ _ppu_data_buffer s' = 0 /\ ppu_addr s' = 1)
  /\
  (exists s', read_register PPU_DATA
                (set_ppu_ctrl 0x04 (set_ppu_addr 0x3F00 reset_state)) = Some (0, s')
     /\ _ppu_data_buffer s' = 0 /\ ppu_addr s' = 0x3F20).
Proof.
  split.
  - refine (proj1 (read_data_buffered reset_state) _). vm_compute. reflexivity.
  - refine (proj2 (read_data_buffered
                     (set_ppu_ctrl 0x04 (set_ppu_addr 0x3F00 reset_state))) _).
    vm_compute. discriminate.
Defined.

(** ** Writing ADDR *)

(** C5 as stated fails: a high-byte write (toggle 0) of 3 at reset leaves
    the nametable selection alone, both in CTRL and in the latch [_tN] that
    the background fetch consults, while the low two bits of the value
    written are 3. *)
Lemma addr_high_write_keeps_nametable :
  exists s',
    _ppu_byte_latch reset_state = 0
    /\ write_register PPU_ADDR 3 reset_state = Some s'
    /\ Z.land (ppu_ctrl s') NAMETABLE_MASK = 0
    /\ _tN s' = 0
    /\ Z.land 3 NAMETABLE_MASK = 3.
Proof.
  eexists. split; [reflexivity |]. split; [reflexivity |].
  split; [reflexivity |]. split; reflexivity.
Qed.

Lemma addr_high_lor (a v : Z) :
  0 <= v -> Z.land a 0x00FF + Z.shiftl v 8 = Z.lor (Z.land a 0x00FF) (Z.shiftl v 8).
Proof.
  intros Hv. apply land_add_disjoint. apply Z.bits_inj'. intros k Hk.
  rewrite !Z.land_spec, Z.bits_0. change 0x00FF with (Z.ones 8).
  destruct (Z.lt_ge_cases k 8) as [Hlt | Hge].
  - rewrite Z.shiftl_spec_low by lia. apply andb_false_r.
  - rewrite Z.ones_spec_high by lia. rewrite andb_false_r. reflexivity.
Qed.

Lemma addr_low_lor (a v : Z) :
  0 <= v <= 255 -> Z.land a 0xFF00 + v = Z.lor (Z.land a 0xFF00) v.
Proof.
  intros Hv. apply land_add_disjoint.
  rewrite <- (byte_land_FF v Hv) at 1.
  rewrite <- Z.land_assoc, (Z.land_comm v), (Z.land_assoc 0xFF00).
  change (Z.land 0xFF00 0xFF) with 0. rewrite Z.land_0_l. apply Z.land_0_r.
Qed.

(** C5, amended.  A write of the byte [v] to ADDR with the toggle at 0 sets
    [ppu_addr] to [(ppu_addr & 0x00FF) | (v << 8)] and leaves CTRL and the
    nametable latch [_tN] as they were; with the toggle at 1 it sets
    [ppu_addr] to [(ppu_addr & 0xFF00) | v], leaves CTRL as it was and loads
    [_tN] with bits 3..2 of [v]; every ADDR write flips the toggle. *)
Theorem write_addr_paired {V : Type} `{VRAMView V} (s : PPU V) (v : Z) :
  0 <= v <= 255 ->
  (_ppu_byte_latch s = 0 ->
   exists s', write_register PPU_ADDR v s = Some s'
     /\ ppu_addr s' = Z.lor (Z.land (ppu_addr s) 0x00FF) (Z.shiftl v 8)
     /\ ppu_ctrl s' = ppu_ctrl s
     /\ _tN s' = _tN s
     /\ _ppu_byte_latch s' = 1)
  /\
  (_ppu_byte_latch s = 1 ->
   exists s', write_register PPU_ADDR v s = Some s'
     /\ ppu_addr s' = Z.lor (Z.land (ppu_addr s) 0xFF00) v
     /\ ppu_ctrl s' = ppu_ctrl s
     /\ _tN s' = Z.land (Z.shiftr v 2) 0x03
     /\ _ppu_byte_latch s' = 0).
Proof.
  intros Hv. split; intros Hlatch; unfold write_register; cbn; rewrite Hlatch; cbn.
  - eexists. split; [reflexivity |]. cbn. rewrite Hlatch, addr_high_lor by lia.
    repeat split; reflexivity.
  - eexists. split; [reflexivity |]. cbn. rewrite Hlatch, addr_low_lor by lia.
    rewrite Z.shiftr_land. repeat split; reflexivity.
Qed.

(** [write_addr_paired] on a high write of 0x21 and a low write of 0x0C. *)
Lemma write_addr_paired_witness :
  (exists s', write_register PPU_ADDR 0x21 reset_state = Some s'
     /\ ppu_addr s' = 0x2100 /\ ppu_ctrl s' = 0 /\ _tN s' = 0
     /\ _ppu_byte_latch s' = 1)
  /\
  (exists s', write_register PPU_ADDR 0x0C
                (set__ppu_byte_latch 1 (set_ppu_addr 0x2100 reset_state)) = Some s'
     /\ ppu_addr s' = 0x210C /\ ppu_ctrl s' = 0 /\ _tN s' = 3
     /\ _ppu_byte_latch s' = 0).
Proof.
  split.
  - refine (proj1 (write_addr_paired reset_state 0x21 _) _); [lia | reflexivity].
  - refine (proj2 (write_addr_paired
                     (set__ppu_byte_latch 1 (set_ppu_addr 0x2100 reset_state))
                     0x0C _) _); [lia | reflexivity].
Defined.

(** ** Growth of the VRAM address *)

(** C9.  [ppu_addr] leaves the 16-bit range: [_increment_vram_address] adds
    1 or 32 without masking.  With the address set to 0xFFFF by two ADDR
    writes, one DATA read (or one DATA write) leaves it at 0x10000. *)
Theorem data_access_overflows_ppu_addr :
  exists s s1 s2,
    exec [Write PPU_ADDR 0xFF; Write PPU_ADDR 0xFF] reset_state = Some s
    /\ ppu_addr s = 0xFFFF
    /\ exec [Read PPU_DATA] s = Some s1 /\ ppu_addr s1 = 0x10000
    /\ exec [Write PPU_DATA 0] s = Some s2 /\ ppu_addr s2 = 0x10000
    /\ 0xFFFF < 0x10000.
Proof.
  eexists _, _, _. split; [vm_compute; reflexivity |]. split; [reflexivity |].
  split; [vm_compute; reflexivity |]. split; [reflexivity |].
  split; [vm_compute; reflexivity |]. split; [reflexivity | lia].
Qed.

(** ** The 8x16 sprite fetch *)

(** In 8x16 mode bit 0 of the OAM tile byte is masked off and then never
    consulted: the address fetched is the same with the bit set or clear. *)
Lemma sprite_8x16_ignores_tile_bit0 (ctrl : Z) (flip_v : bool) (tile_byte sl : Z) :
  sprite_pattern_addr ctrl true flip_v tile_byte sl
  = sprite_pattern_addr ctrl true flip_v (Z.land tile_byte 0xFE) sl.
Proof.
  unfold sprite_pattern_addr, sprite_tile_line. cbn [negb].
  rewrite <- (Z.land_assoc tile_byte 0xFE 0xFE). reflexivity.
Qed.

(** What the 8x16 fetch does get right: the 15-based vertical flip, the
    tile index with bit 0 cleared, and the step to the next tile with 8
    taken off the line for the lower half. *)
Lemma sprite_tile_line_8x16 (flip_v : bool) (tile_byte sl : Z) :
  let line := if flip_v then 15 - sl else sl in
  sprite_tile_line true flip_v tile_byte sl
  = if 8 <=? line then (Z.land tile_byte 0xFE + 1, line - 8)
    else (Z.land tile_byte 0xFE, line).
Proof. unfold sprite_tile_line. destruct flip_v; reflexivity. Qed.

(** C6.  With 8x16 sprites the pattern table is still chosen by CTRL bit 3,
    not by bit 0 of the tile index.  For tile byte 0x01 and CTRL = 0x20 the
    fetch goes to 0x0000, not 0x1000; for tile byte 0x00 and CTRL = 0x28 it
    goes to 0x1000.  Run on [engine_8x16], the evaluation for line 0 loads
    sprite 0 with a fully transparent row, the pattern byte at 0x0000, and
    not with the eight opaque pixels stored at 0x1000. *)
Theorem sprite_8x16_table_from_ctrl :
  sprite_pattern_addr 0x20 true false 0x01 0 = 0x0000
  /\ sprite_pattern_addr 0x28 true false 0x00 0 = 0x1000
  /\ vram_read (vram engine_8x16) 0x0000 = 0x00
  /\ vram_read (vram engine_8x16) 0x1000 = 0xFF
  /\ exists s',
       _prefetch_active_sprites 0 engine_8x16 = Some s'
       /\ _active_sprites s' = Some [0]
       /\ _sprite_pattern s' !! 0%nat = Some (replicate 8 None).
Proof.
  split; [reflexivity |]. split; [reflexivity |].
  split; [reflexivity |]. split; [reflexivity |].
  eexists. split; [vm_compute; reflexivity |].
  split; vm_compute; reflexivity.
Qed.

(** ** The warm-up gate on CTRL *)

(** The gate compares [cycles_since_reset], which [run_cycles] advances once
    per PPU dot, with 29658. *)
Lemma write_ctrl_ignored {V : Type} `{VRAMView V} (s : PPU V) (v : Z) :
  cycles_since_reset s < 29658 ->
  write_register PPU_CTRL v s = Some (set__io_latch (Z.land v 0xFF) s).
Proof.
  intros Hc. unfold write_register. cbn.
  replace (cycles_since_reset s <? 29658) with true
    by (symmetry; apply Z.ltb_lt; exact Hc).
  reflexivity.
Qed.

Lemma write_ctrl_stored {V : Type} `{VRAMView V} (s : PPU V) (v : Z) :
  29658 <= cycles_since_reset s ->
  exists s', write_register PPU_CTRL v s = Some s'
    /\ ppu_ctrl s' = Z.land v 0xFF /\ _io_latch s' = Z.land v 0xFF.
Proof.
  intros Hc. unfold write_register. cbn.
  replace (cycles_since_reset s <? 29658) with false
    by (symmetry; apply Z.ltb_ge; exact Hc).
  eexists. split; [reflexivity |].
  destruct (in_vblank s && (0 <? Z.land v VBLANK_MASK)
            && (Z.land (ppu_ctrl s) VBLANK_MASK =? 0)); split; reflexivity.
Qed.

(** C4.  The warm-up window of the code is 29658 PPU dots, a third of the
    29658 CPU cycles of the claim.  After 29658 dots, that is 9886 CPU
    cycles after reset, a write of 0x80 to CTRL is stored. *)
Theorem ctrl_write_stored_after_9886_cpu_cycles :
  exists s s',
    exec [Run 29658] reset_state = Some s
    /\ cycles_since_reset s = 3 * 9886
    /\ 9886 < 29658
    /\ ppu_ctrl s = 0
    /\ exec [Write PPU_CTRL 0x80] s = Some s'
    /\ ppu_ctrl s' = 0x80.
Proof.
  eexists _, _. split; [vm_compute; reflexivity |].
  split; [reflexivity |]. split; [lia |]. split; [reflexivity |].
  split; vm_compute; reflexivity.
Qed.

(** ** Footprints of the rendering helpers *)

Ltac crack :=
  repeat match goal with
  | H : Some _ = Some _ |- _ => injection H as H
  | H : None = Some _ |- _ => discriminate H
  | H : (_ ≫= _) = Some _ |- _ =>
      let x := fresh "x" in
      let Hx := fresh "Hx" in
      apply bind_Some in H; destruct H as (x & Hx & H)
  | H : (let '(_, _) := ?x in _) = Some _ |- _ => destruct x eqn:?
  | H : (let '(_, _) := ?x in _) _ = Some _ |- _ => destruct x eqn:?
  | H : (if ?b then _ else _) = Some _ |- _ => destruct b eqn:?
  | H : match ?x with _ => _ end = Some _ |- _ => destruct x eqn:?
  end.

(** [via er H]: close a footprint goal for the eraser [er] through the
    footprint [H] of a callee. *)
Ltac via er Hp :=
  apply (f_equal er) in Hp; etransitivity; [exact Hp |].

Section FootprintLemmas.

Context {V : Type} `{VRAMView V}.

Lemma decode_palette_frame id b (s s' : PPU V) p :
  decode_palette id b s = Some (p, s') -> erase_cache s' = erase_cache s.
Proof.
  unfold decode_palette. intros Hd. crack; subst; reflexivity.
Qed.

Lemma shift_bkg_latches_frame (s s' : PPU V) :
  shift_bkg_latches s = Some s' -> erase_bkg s' = erase_bkg s.
Proof.
  unfold shift_bkg_latches. intros Hd. crack. subst. reflexivity.
Qed.

Lemma fill_bkg_latches_frame l c (s s' : PPU V) :
  fill_bkg_latches l c s = Some s' -> erase_bkg s' = erase_bkg s.
Proof.
  unfold fill_bkg_latches. intros Hd. crack. subst.
  match goal with Hp : decode_palette _ _ _ = Some _ |- _ =>
    apply decode_palette_frame in Hp; via (@erase_bkg V) Hp end.
  reflexivity.
Qed.

Lemma shift_and_fill_frame l c (s s' : PPU V) :
  shift_and_fill l c s = Some s' -> erase_bkg s' = erase_bkg s.
Proof.
  unfold shift_and_fill. intros Hd. crack.
  etransitivity; [eapply fill_bkg_latches_frame; eassumption |].
  eapply shift_bkg_latches_frame; eassumption.
Qed.

Lemma fill_sprite_latches_frame addrs : forall i sl d (s s' : PPU V),
  _fill_sprite_latches i addrs sl d s = Some s' ->
  erase_sprites s' = erase_sprites s.
Proof.
  induction addrs as [| a addrs IH]; intros i sl d s s' Hd; cbn in Hd.
  - crack. subst. reflexivity.
  - crack. all: apply IH in Hd. all: etransitivity; [exact Hd |].
    all: match goal with Hp : decode_palette _ _ _ = Some _ |- _ =>
           apply decode_palette_frame in Hp; via (@erase_sprites V) Hp end.
    all: reflexivity.
Qed.

Lemma prefetch_frame l (s s' : PPU V) :
  _prefetch_active_sprites l s = Some s' -> erase_eval s' = erase_eval s.
Proof.
  unfold _prefetch_active_sprites. intros Hd. crack.
  all: match goal with Hp : _fill_sprite_latches _ _ _ _ _ = Some _ |- _ =>
         apply fill_sprite_latches_frame in Hp; via (@erase_eval V) Hp end.
  all: match goal with Hp : (if ?b then _ else _) = (_, _, _) |- _ =>
         destruct b; injection Hp as <- <- <- end.
  all: reflexivity.
Qed.

Lemma overlay_frame c c' (s s' : PPU V) :
  _overlay_sprites c s = Some (c', s') -> erase_overlay s' = erase_overlay s.
Proof.
  unfold _overlay_sprites. intros Hd. crack; subst; try reflexivity.
  all: try match goal with Hp : decode_palette _ _ _ = Some _ |- _ =>
         apply decode_palette_frame in Hp; via (@erase_overlay V) Hp end.
  all: match goal with |- context [if ?b then _ else _] => destruct b end.
  all: reflexivity.
Qed.

Lemma erase_render_bkg (s : PPU V) : erase_render (erase_bkg s) = erase_render s.
Proof. reflexivity. Qed.

Lemma erase_render_overlay (s : PPU V) :
  erase_render (erase_overlay s) = erase_render s.
Proof. reflexivity. Qed.

Lemma erase_render_eval (s : PPU V) : erase_render (erase_eval s) = erase_render s.
Proof. reflexivity. Qed.

Lemma erase_render_screen x y c (s : PPU V) :
  erase_render (screen_write_at x y c s) = erase_render s.
Proof. reflexivity. Qed.

Lemma erase_render_bkg_px o (s : PPU V) :
  erase_render (set__bkg_px o s) = erase_render s.
Proof. reflexivity. Qed.

Lemma visible_line_dot_frame (s s' : PPU V) :
  visible_line_dot s = Some s' -> erase_render s' = erase_render s.
Proof.
  unfold visible_line_dot. intros Hd. crack; subst.
  all: repeat match goal with
         | Hp : shift_and_fill _ _ _ = Some _ |- _ =>
             apply shift_and_fill_frame, (f_equal (@erase_render V)) in Hp;
             rewrite !erase_render_bkg in Hp
         | Hp : _overlay_sprites _ _ = Some _ |- _ =>
             apply overlay_frame, (f_equal (@erase_render V)) in Hp;
             rewrite !erase_render_overlay in Hp
         | Hp : _prefetch_active_sprites _ _ = Some _ |- _ =>
             apply prefetch_frame, (f_equal (@erase_render V)) in Hp;
             rewrite !erase_render_eval in Hp
         end.
  all: repeat match goal with
         | |- context [if ?b then _ else _] => destruct b
         end.
  all: rewrite ?erase_render_screen, ?erase_render_bkg_px; congruence.
Qed.

End FootprintLemmas.

(** ** The dot counter and the vblank flag *)

Ltac zbool :=
  repeat match goal with
  | H : _ && _ = true |- _ => apply andb_true_iff in H; destruct H
  | H : _ || _ = false |- _ => apply orb_false_iff in H; destruct H
  | H : _ && _ = false |- _ => apply andb_false_iff in H
  | H : _ || _ = true |- _ => apply orb_true_iff in H
  | H : (_ =? _) = true |- _ => apply Z.eqb_eq in H
  | H : (_ =? _) = false |- _ => apply Z.eqb_neq in H
  | H : (_ <? _) = true |- _ => apply Z.ltb_lt in H
  | H : (_ <? _) = false |- _ => apply Z.ltb_ge in H
  | H : (_ <=? _) = true |- _ => apply Z.leb_le in H
  | H : (_ <=? _) = false |- _ => apply Z.leb_gt in H
  end.

Ltac zcases :=
  repeat (match goal with
          | |- context [?a =? ?b] => destruct (Z.eqb_spec a b)
          | |- context [?a <? ?b] => destruct (Z.ltb_spec a b)
          | |- context [?a <=? ?b] => destruct (Z.leb_spec a b)
          end; cbn [andb orb negb]).

Section ClockLemmas.

Context {V : Type} `{VRAMView V}.

Lemma clock_erase_render (s : PPU V) : clock (erase_render s) = clock s.
Proof. reflexivity. Qed.

Lemma clock_of_render (s s' : PPU V) :
  erase_render s' = erase_render s -> clock s' = clock s.
Proof.
  intros He. rewrite <- (clock_erase_render s'), He. apply clock_erase_render.
Qed.

Lemma clock_of_eval (s s' : PPU V) : erase_eval s' = erase_eval s -> clock s' = clock s.
Proof. intros He. apply clock_of_render. apply (f_equal erase_render) in He. exact He. Qed.

Lemma clock_of_bkg (s s' : PPU V) : erase_bkg s' = erase_bkg s -> clock s' = clock s.
Proof. intros He. apply clock_of_render. apply (f_equal erase_render) in He. exact He. Qed.

(** What the chain of scanline tests does to the clock. *)
Lemma scanline_events_clock (s s' : PPU V) (ended_now : bool) :
  scanline_events s = Some (s', ended_now) ->
  line s' = line s /\ pixel s' = pixel s
  /\ frames_since_reset s' = frames_since_reset s
  /\ ppu_ctrl s' = ppu_ctrl s
  /\ in_vblank s' = (if (line s =? 241) && (pixel s =? 1) then true
                     else if (line s =? 261) && (pixel s =? 1) then false
                     else in_vblank s)
  /\ nmi_raised s' = nmi_raised s
                     + (if (line s =? 241) && (pixel s =? 1)
                           && (0 <? Z.land (ppu_ctrl s) VBLANK_MASK)
                        then 1 else 0)
  /\ ended_now = (line s =? 261)
                 && (pixel s =? 340 - frames_since_reset s mod 2).
Proof.
  unfold scanline_events, PIXELS_PER_LINE. intros Hd.
  pose proof (Z.mod_pos_bound (frames_since_reset s) 2 ltac:(lia)) as Hm.
  crack; subst.
  all: repeat match goal with
         | Hp : shift_and_fill _ _ _ = Some _ |- _ =>
             apply shift_and_fill_frame, clock_of_bkg in Hp;
             injection Hp as ? ? ? ? ? ?
         | Hp : _prefetch_active_sprites _ _ = Some _ |- _ =>
             apply prefetch_frame, clock_of_eval in Hp;
             injection Hp as ? ? ? ? ? ?
         end.
  all: zbool; cbn.
  all: repeat split; try congruence.
  all: zcases; cbn; try lia; try congruence.
Qed.

Lemma advance_counters_clock (s : PPU V) :
  ppu_ctrl (advance_counters s) = ppu_ctrl s
  /\ in_vblank (advance_counters s) = in_vblank s
  /\ nmi_raised (advance_counters s) = nmi_raised s
  /\ frames_since_reset (advance_counters s) = frames_since_reset s
  /\ (if 341 <=? pixel s + 1
      then line (advance_counters s) = line s + 1 /\ pixel (advance_counters s) = 0
      else line (advance_counters s) = line s
           /\ pixel (advance_counters s) = pixel s + 1).
Proof.
  unfold advance_counters, PIXELS_PER_LINE. cbn.
  repeat (match goal with
          | |- context [if ?b then _ else _] => destruct b eqn:?
          end; cbn in *);
    try congruence; repeat split; reflexivity.
Qed.

(** What one iteration of the loop does to the clock. *)
Lemma run_cycle_clock (s s' : PPU V) (fe fe' : bool) :
  run_cycle (s, fe) = Some (s', fe') ->
  ppu_ctrl s' = ppu_ctrl s
  /\ in_vblank s' = (if (line s =? 241) && (pixel s =? 1) then true
                     else if (line s =? 261) && (pixel s =? 1) then false
                     else in_vblank s)
  /\ nmi_raised s' = nmi_raised s
                     + (if (line s =? 241) && (pixel s =? 1)
                           && (0 <? Z.land (ppu_ctrl s) VBLANK_MASK)
                        then 1 else 0)
  /\ fe' = fe || ((line s =? 261)
                  && (pixel s =? 340 - frames_since_reset s mod 2))
  /\ (if fe'
      then line s' = 0 /\ pixel s' = 0
           /\ frames_since_reset s' = frames_since_reset s + 1
      else frames_since_reset s' = frames_since_reset s
           /\ (if 341 <=? pixel s + 1
               then line s' = line s + 1 /\ pixel s' = 0
               else line s' = line s /\ pixel s' = pixel s + 1)).
Proof.
  unfold run_cycle. intros Hd.
  apply bind_Some in Hd. destruct Hd as (s1 & Hvis & Hd).
  apply bind_Some in Hd. destruct Hd as ([s2 ended_now] & Hev & Hd).
  injection Hd as Hs' Hfe'.
  assert (Hc1 : clock s1 = clock s).
  { destruct ((line s <=? 239) && (0 <? Z.land (ppu_mask s) RENDERING_ENABLED_MASK)).
    - apply clock_of_render, visible_line_dot_frame, Hvis.
    - injection Hvis as <-. reflexivity. }
  injection Hc1 as Hl1 Hp1 Hf1 Hctl1 Hvb1 Hnmi1.
  apply scanline_events_clock in Hev.
  destruct Hev as (Hl2 & Hp2 & Hf2 & Hctl2 & Hvb2 & Hnmi2 & Hend).
  rewrite Hl1, Hp1, ?Hf1, ?Hctl1, ?Hvb1, ?Hnmi1 in *.
  destruct (advance_counters_clock s2) as (Hctl3 & Hvb3 & Hnmi3 & Hf3 & Hpos3).
  rewrite Hp2 in Hpos3. subst fe' ended_now.
  destruct (fe || _) eqn:Hfe; subst s'; cbn.
  - repeat split; congruence.
  - repeat split; try congruence.
    destruct (341 <=? pixel s + 1); destruct Hpos3; split; congruence.
Qed.

End ClockLemmas.

(** ** The vblank discipline *)

Section Discipline.

Context {V : Type} `{VRAMView V}.

(** One dot keeps the clock inside the frame and moves the observer along
    the discipline. *)
Lemma run_cycle_discipline (s s' : PPU V) (fe fe' : bool) :
  loop_ok (s, fe) ->
  run_cycle (s, fe) = Some (s', fe') ->
  loop_ok (s', fe')
  /\ vblank_discipline (loop_phase (s, fe))
       (observe (AtDot (line s) (pixel s)) s s')
     = Some (loop_phase (s', fe')).
Proof.
  intros [Hok Hsticky] Hrun. cbn [fst snd] in *.
  apply run_cycle_clock in Hrun.
  destruct Hrun as (Hctl & Hvb & Hnmi & Hfe' & Hpos).
  change (0 <? Z.land (ppu_ctrl s) VBLANK_MASK)
    with (bit_high (ppu_ctrl s) 7) in Hnmi.
  rewrite bit_high_testbit in Hnmi by lia.
  destruct Hok as (Hl & Hp & H261 & Hup).
  pose proof (Z.mod_pos_bound (frames_since_reset s) 2 ltac:(lia)) as Hm.
  pose proof (Z.mod_pos_bound (frames_since_reset s') 2 ltac:(lia)) as Hm'.
  unfold loop_ok, clock_ok, loop_phase, phase_of, observe. cbn [fst snd].
  rewrite Hvb, Hnmi.
  replace (nmi_raised s + (if (line s =? 241) && (pixel s =? 1)
                                && Z.testbit (ppu_ctrl s) 7 then 1 else 0)
           - nmi_raised s)
    with (if (line s =? 241) && (pixel s =? 1) && Z.testbit (ppu_ctrl s) 7
          then 1 else 0) by lia.
  destruct fe; cbn [orb] in Hfe'; subst fe'.
  - destruct (Hsticky eq_refl) as [Hl0 Hp0]. destruct Hpos as (Hl' & Hp' & Hf').
    rewrite Hl', Hp', Hl0, Hp0. cbn.
    destruct (in_vblank s) eqn:Hv; [specialize (Hup eq_refl); lia |].
    cbn. repeat split; try lia; discriminate.
  - destruct ((line s =? 261) && (pixel s =? 340 - frames_since_reset s mod 2))
      eqn:Hend.
    + destruct Hpos as (Hl' & Hp' & Hf'). rewrite Hl', Hp'. zbool.
      destruct (in_vblank s) eqn:Hv; [specialize (Hup eq_refl); lia |].
      zcases; try lia. cbn. repeat split; try lia; discriminate.
    + destruct Hpos as (Hf' & Hpos). rewrite Hf' in *.
      destruct (341 <=? pixel s + 1) eqn:Hwrap; destruct Hpos as [Hl' Hp'];
        rewrite Hl', Hp'; zbool.
      all: destruct (in_vblank s) eqn:Hv;
        [specialize (Hup eq_refl) | clear Hup].
      all: destruct (Z.testbit (ppu_ctrl s) 7).
      all: zcases; cbn; try lia.
      all: repeat split; try lia; try discriminate; try reflexivity.
      all: intros; try lia.
      all: zcases; cbn; try reflexivity; lia.
Qed.

Lemma vblank_discipline_app (ph : phase) (evs1 evs2 : list vblank_event) :
  vblank_discipline ph (evs1 ++ evs2)
  = ph' ← vblank_discipline ph evs1; vblank_discipline ph' evs2.
Proof.
  revert ph. induction evs1 as [| e evs1 IH]; intros ph; cbn; [reflexivity |].
  destruct (vblank_step ph e) as [ph' |]; cbn; [apply IH | reflexivity].
Qed.

Lemma watch_cycles_discipline (n : nat) :
  forall (st st' : PPU V * bool) (evs : list vblank_event),
    loop_ok st ->
    watch_cycles n st = Some (st', evs) ->
    loop_ok st' /\ vblank_discipline (loop_phase st) evs = Some (loop_phase st').
Proof.
  induction n as [| n IH]; intros st st' evs Hok Hw; cbn in Hw.
  - injection Hw as <- <-. split; [exact Hok | reflexivity].
  - apply bind_Some in Hw. destruct Hw as (st1 & Hstep & Hw).
    apply bind_Some in Hw. destruct Hw as ([st2 evs2] & Hrest & Hw).
    injection Hw as <- <-.
    destruct st as [s fe], st1 as [s1 fe1]. cbn [fst] in *.
    destruct (run_cycle_discipline s s1 fe fe1 Hok Hstep) as [Hok1 Hd1].
    destruct (IH _ _ _ Hok1 Hrest) as [Hok2 Hd2].
    split; [exact Hok2 |].
    rewrite vblank_discipline_app, Hd1. exact Hd2.
Qed.

(** The register port does not move the clock; of all register accesses
    only a read of STATUS touches the flag, and it clears it. *)
Lemma read_register_clock (r : register) (s s' : PPU V) (v : Z) :
  read_register r s = Some (v, s') ->
  line s' = line s /\ pixel s' = pixel s
  /\ frames_since_reset s' = frames_since_reset s
  /\ in_vblank s' = match r with PPU_STATUS => false | _ => in_vblank s end.
Proof.
  destruct r; cbn; intros Hr; crack; subst; cbn.
  all: try match goal with
           | Hp : (if ?b then _ else _) = (_, _) |- _ =>
               destruct b; injection Hp as <- <-
           end.
  all: repeat split; reflexivity.
Qed.

Lemma write_register_clock (r : register) (v : Z) (s s' : PPU V) :
  write_register r v s = Some s' ->
  line s' = line s /\ pixel s' = pixel s
  /\ frames_since_reset s' = frames_since_reset s
  /\ in_vblank s' = in_vblank s.
Proof.
  destruct r; cbn; intros Hw; crack; subst; cbn;
    repeat match goal with
           | |- context [if ?b then _ else _] => destruct b
           end; repeat split; reflexivity.
Qed.

Lemma watch_action_discipline (a : action) (s s' : PPU V) (evs : list vblank_event) :
  clock_ok s ->
  watch_action a s = Some (s', evs) ->
  clock_ok s' /\ vblank_discipline (phase_of s) evs = Some (phase_of s').
Proof.
  intros Hok Hw. destruct a as [n | r | r v]; cbn in Hw.
  - apply bind_Some in Hw. destruct Hw as ([[s1 fe1] evs1] & Hloop & Hw).
    injection Hw as <- <-.
    assert (Hok0 : loop_ok (s, false)) by (split; [exact Hok | discriminate]).
    destruct (watch_cycles_discipline _ _ _ _ Hok0 Hloop) as [[Hok1 Hst1] Hd].
    cbn [fst snd] in *. split; [exact Hok1 |].
    change (loop_phase (s, false)) with (phase_of s) in Hd.
    rewrite vblank_discipline_app, Hd. unfold loop_phase. cbn [fst snd].
    destruct fe1; cbn; [| reflexivity].
    destruct (Hst1 eq_refl) as [Hl0 Hp0].
    unfold phase_of.
    destruct (in_vblank s1) eqn:Hv.
    + destruct Hok1 as (_ & _ & _ & Hup). specialize (Hup Hv). lia.
    + rewrite Hl0. reflexivity.
  - apply bind_Some in Hw. destruct Hw as ([v s1] & Hr & Hw).
    injection Hw as <- <-.
    apply read_register_clock in Hr. destruct Hr as (Hl & Hp & Hf & Hv).
    destruct Hok as (Hl0 & Hp0 & H261 & Hup).
    unfold clock_ok, phase_of, observe. rewrite Hl, Hp, Hf, Hv.
    destruct r; destruct (in_vblank s) eqn:Hvs; cbn;
      try specialize (Hup eq_refl);
      (split; [repeat split; try lia; try discriminate; try (intros _; exact Hup)
              | try reflexivity]).
    all: zcases; try reflexivity; lia.
  - apply bind_Some in Hw. destruct Hw as (s1 & Hr & Hw).
    injection Hw as <- <-.
    apply write_register_clock in Hr. destruct Hr as (Hl & Hp & Hf & Hv).
    destruct Hok as (Hl0 & Hp0 & H261 & Hup).
    unfold clock_ok, phase_of, observe. rewrite Hl, Hp, Hf, Hv.
    destruct (in_vblank s) eqn:Hvs; cbn;
      (split; [repeat split; try lia; try discriminate; try exact Hup
              | reflexivity]).
Qed.

Lemma watch_discipline (tr : list action) :
  forall (s s' : PPU V) (evs : list vblank_event),
    clock_ok s ->
    watch tr s = Some (s', evs) ->
    clock_ok s' /\ vblank_discipline (phase_of s) evs = Some (phase_of s').
Proof.
  induction tr as [| a tr IH]; intros s s' evs Hok Hw; cbn in Hw.
  - injection Hw as <- <-. split; [exact Hok | reflexivity].
  - apply bind_Some in Hw. destruct Hw as ([s1 evs1] & Ha & Hw).
    apply bind_Some in Hw. destruct Hw as ([s2 evs2] & Hrest & Hw).
    injection Hw as <- <-.
    destruct (watch_action_discipline _ _ _ _ Hok Ha) as [Hok1 Hd1].
    destruct (IH _ _ _ Hok1 Hrest) as [Hok2 Hd2].
    split; [exact Hok2 |]. rewrite vblank_discipline_app, Hd1. exact Hd2.
Qed.

(** The observer does not disturb the run. *)
Lemma watch_cycles_run (n : nat) :
  forall (st st' : PPU V * bool),
    run_cycles_loop n st = Some st' ->
    exists evs, watch_cycles n st = Some (st', evs).
Proof.
  induction n as [| n IH]; intros st st' Hr; cbn in *.
  - injection Hr as <-. eexists. reflexivity.
  - apply bind_Some in Hr. destruct Hr as (st1 & Hstep & Hr).
    destruct (IH _ _ Hr) as [evs Hw]. rewrite Hstep. cbn. rewrite Hw. cbn.
    eexists. reflexivity.
Qed.

Lemma watch_action_run (a : action) (s s' : PPU V) :
  do_action a s = Some s' -> exists evs, watch_action a s = Some (s', evs).
Proof.
  destruct a as [n | r | r v]; cbn; intros Hd.
  - unfold run_cycles in Hd. apply fmap_Some in Hd.
    destruct Hd as ([b s1] & Hd & ->).
    apply bind_Some in Hd. destruct Hd as ([s2 fe] & Hloop & Hd).
    injection Hd as <- <-.
    destruct (watch_cycles_run _ _ _ Hloop) as [evs Hw]. rewrite Hw. cbn.
    eexists. reflexivity.
  - apply fmap_Some in Hd. destruct Hd as ([v s1] & Hd & ->). rewrite Hd. cbn.
    eexists. reflexivity.
  - rewrite Hd. cbn. eexists. reflexivity.
Qed.

Lemma watch_run (tr : list action) :
  forall (s s' : PPU V),
    exec tr s = Some s' -> exists evs, watch tr s = Some (s', evs).
Proof.
  induction tr as [| a tr IH]; intros s s' He; cbn in *.
  - injection He as <-. eexists. reflexivity.
  - apply bind_Some in He. destruct He as (s1 & Ha & He).
    destruct (watch_action_run _ _ _ Ha) as [evs1 Hw1].
    destruct (IH _ _ He) as [evs2 Hw2].
    rewrite Hw1. cbn. rewrite Hw2. cbn. eexists. reflexivity.
Qed.

Lemma clock_ok_init (v : V) : clock_ok (init v).
Proof.
  unfold clock_ok. cbn. repeat split; try lia; discriminate.
Qed.

End Discipline.

(** Settle every comparison of the goal that arithmetic decides. *)
Ltac settle :=
  repeat match goal with
  | |- context [?a <=? ?b] =>
      first [ replace (a <=? b) with true by (symmetry; apply Z.leb_le; lia)
            | replace (a <=? b) with false by (symmetry; apply Z.leb_gt; lia) ]
  | |- context [?a <? ?b] =>
      first [ replace (a <? b) with true by (symmetry; apply Z.ltb_lt; lia)
            | replace (a <? b) with false by (symmetry; apply Z.ltb_ge; lia) ]
  | |- context [?a =? ?b] =>
      first [ replace (a =? b) with true by (symmetry; apply Z.eqb_eq; lia)
            | replace (a =? b) with false by (symmetry; apply Z.eqb_neq; lia) ]
  end.

Lemma runs_dot_none (pos n p : Z) : n <= 0 -> runs_dot pos n p = false.
Proof.
  intros Hn. unfold runs_dot.
  destruct (Z.leb_spec pos p), (Z.ltb_spec p (pos + n));
    first [reflexivity | lia].
Qed.

(** One dot more: what the dot at [pos] shows, then what the rest of the
    call shows, is what the whole call is to show. *)
Lemma expected_ticks_step (pos left n : Z) (flag_up nmi_enabled : bool) :
  0 <= n -> 1 < left ->
  (flag_up = true -> VBLANK_SET_DOT < pos) ->
  (if pos =? VBLANK_SET_DOT
   then [VblankSet (AtDot 241 1) (Z.b2z nmi_enabled) nmi_enabled]
   else if (pos =? VBLANK_CLEAR_DOT) && flag_up
        then [VblankCleared (AtDot 261 1)] else [])
  ++ expected_ticks (pos + 1) (left - 1)
       (if pos =? VBLANK_SET_DOT then true
        else if pos =? VBLANK_CLEAR_DOT then false else flag_up)
       nmi_enabled n
  = expected_ticks pos left flag_up nmi_enabled (n + 1).
Proof.
  intros Hn Hleft Hflag.
  assert (Hlt : VBLANK_SET_DOT < VBLANK_CLEAR_DOT) by reflexivity.
  unfold expected_ticks, runs_dot.
  replace (left - 1 <=? n) with (left <=? n + 1)
    by (destruct (Z.leb_spec left (n + 1)), (Z.leb_spec (left - 1) n);
        first [reflexivity | lia]).
  generalize dependent VBLANK_CLEAR_DOT. generalize dependent VBLANK_SET_DOT.
  intros pset Hflag pclr Hlt.
  replace (pos + 1 + n) with (pos + (n + 1)) by lia.
  destruct (Z.lt_trichotomy pos pset) as [Hp | [Hp | Hp]].
  - assert (Hv : flag_up = false)
      by (destruct flag_up; [specialize (Hflag eq_refl); lia | reflexivity]).
    subst flag_up. settle. cbn [andb orb app]. reflexivity.
  - assert (Hv : flag_up = false)
      by (destruct flag_up; [specialize (Hflag eq_refl); lia | reflexivity]).
    subst flag_up pos. settle. cbn [andb orb app].
    destruct (pclr <? pset + (n + 1)); reflexivity.
  - destruct (Z.lt_trichotomy pos pclr) as [Hc | [Hc | Hc]].
    + settle. cbn [andb orb app]. rewrite !orb_false_r. reflexivity.
    + subst pos. settle. cbn [andb orb app]. rewrite !orb_false_r.
      destruct flag_up; reflexivity.
    + settle. cbn [andb orb app]. reflexivity.
Qed.

Section Events.

Context {V : Type} `{VRAMView V}.

Lemma frame_pos_dots (s : PPU V) :
  0 <= pixel s <= 340 ->
  (line s =? 241) && (pixel s =? 1) = (frame_pos s =? VBLANK_SET_DOT)
  /\ (line s =? 261) && (pixel s =? 1) = (frame_pos s =? VBLANK_CLEAR_DOT).
Proof.
  intros Hp. unfold frame_pos, VBLANK_SET_DOT, VBLANK_CLEAR_DOT, PIXELS_PER_LINE.
  split; zcases; first [lia | reflexivity].
Qed.

(** The events of the loop of [run_cycles], from the place of the state in
    the frame.  Once the end of the frame has been seen inside the loop,
    every iteration runs line 0 dot 0 and shows nothing. *)
Lemma watch_cycles_events (n : nat) :
  forall (s s' : PPU V) (fe fe' : bool) (evs : list vblank_event),
    loop_ok (s, fe) ->
    watch_cycles n (s, fe) = Some (s', fe', evs) ->
    if fe then evs = [] /\ fe' = true
    else evs ++ (if fe' then [FrameBoundary] else [])
         = tick_events s (Z.of_nat n).
Proof.
  induction n as [| n IH]; intros s s' fe fe' evs Hok Hw.
  - cbn in Hw. injection Hw as <- <- <-.
    destruct Hok as [(Hl & Hp & H261 & Hup) Hst]. cbn [fst snd] in *.
    pose proof (Z.mod_pos_bound (frames_since_reset s) 2 ltac:(lia)) as Hm.
    destruct fe; [split; reflexivity |].
    unfold tick_events, expected_ticks. change (Z.of_nat 0) with 0.
    rewrite !runs_dot_none by lia.
    unfold dots_left, frame_length, frame_pos, PIXELS_PER_LINE.
    settle. reflexivity.
  - cbn [watch_cycles] in Hw.
    apply bind_Some in Hw. destruct Hw as ([s1 fe1] & Hstep & Hw).
    apply bind_Some in Hw. destruct Hw as ([[s2 fe2] evs2] & Hrest & Hw).
    injection Hw as <- <- <-. cbn [fst] in *.
    destruct (run_cycle_discipline s s1 fe fe1 Hok Hstep) as [Hok1 _].
    specialize (IH _ _ _ _ _ Hok1 Hrest).
    apply run_cycle_clock in Hstep.
    destruct Hstep as (Hctl & Hvb & Hnmi & Hfe1 & Hpos).
    change (0 <? Z.land (ppu_ctrl s) VBLANK_MASK)
      with (bit_high (ppu_ctrl s) 7) in Hnmi.
    rewrite bit_high_testbit in Hnmi by lia.
    destruct Hok as [(Hl & Hp & H261 & Hup) Hst]. cbn [fst snd] in *.
    pose proof (Z.mod_pos_bound (frames_since_reset s) 2 ltac:(lia)) as Hm.
    destruct (frame_pos_dots s Hp) as [H241 H261'].
    destruct fe.
    + destruct (Hst eq_refl) as [Hl0 Hp0].
      cbn in Hfe1. subst fe1. destruct IH as [-> ->].
      split; [| reflexivity].
      unfold observe. rewrite Hvb, Hl0, Hp0. cbn.
      destruct (in_vblank s); reflexivity.
    + cbn [orb] in Hfe1.
      assert (Hflag : in_vblank s = true -> VBLANK_SET_DOT < frame_pos s).
      { intros Hv. specialize (Hup Hv).
        unfold frame_pos, VBLANK_SET_DOT, PIXELS_PER_LINE. lia. }
      assert (Hobs :
        observe (AtDot (line s) (pixel s)) s s1
        = if frame_pos s =? VBLANK_SET_DOT
          then [VblankSet (AtDot 241 1) (Z.b2z (Z.testbit (ppu_ctrl s) 7))
                  (Z.testbit (ppu_ctrl s) 7)]
          else if (frame_pos s =? VBLANK_CLEAR_DOT) && in_vblank s
               then [VblankCleared (AtDot 261 1)] else []).
      { unfold observe. rewrite Hvb, Hnmi, H241, H261'.
        destruct (Z.eqb_spec (frame_pos s) VBLANK_SET_DOT) as [E1 | E1].
        - assert (Hv : in_vblank s = false)
            by (destruct (in_vblank s);
                [specialize (Hflag eq_refl); lia | reflexivity]).
          rewrite Hv. cbn [negb andb].
          assert (Hat : line s = 241 /\ pixel s = 1).
          { revert E1. unfold frame_pos, VBLANK_SET_DOT, PIXELS_PER_LINE. lia. }
          destruct Hat as [-> ->].
          destruct (Z.testbit (ppu_ctrl s) 7); cbn [Z.b2z];
            f_equal; f_equal; lia.
        - destruct (Z.eqb_spec (frame_pos s) VBLANK_CLEAR_DOT) as [E2 | E2].
          + assert (Hat : line s = 261 /\ pixel s = 1).
            { revert E2.
              unfold frame_pos, VBLANK_CLEAR_DOT, PIXELS_PER_LINE. lia. }
            destruct Hat as [-> ->].
            destruct (in_vblank s); reflexivity.
          + destruct (in_vblank s); reflexivity. }
      rewrite Hobs.
      destruct fe1.
      * destruct IH as [-> ->]. symmetry in Hfe1. zbool.
        assert (Hlast : frame_pos s = frame_length s - 1)
          by (unfold frame_pos, frame_length, PIXELS_PER_LINE; lia).
        unfold tick_events, expected_ticks, runs_dot, dots_left.
        rewrite Hlast. rewrite Nat2Z.inj_succ.
        pose proof (Nat2Z.is_nonneg n) as Hn.
        unfold frame_length, VBLANK_SET_DOT, VBLANK_CLEAR_DOT, PIXELS_PER_LINE.
        settle. cbn [andb orb app]. reflexivity.
      * destruct Hpos as (Hf1 & Hpos). symmetry in Hfe1.
        assert (Hnext : frame_pos s1 = frame_pos s + 1).
        { unfold frame_pos, PIXELS_PER_LINE.
          destruct (Z.leb_spec 341 (pixel s + 1)); destruct Hpos; lia. }
        assert (Hleft : 1 < dots_left s).
        { unfold dots_left, frame_pos, frame_length, PIXELS_PER_LINE.
          zbool. destruct Hfe1 as [Hne | Hne]; zbool; lia. }
        assert (Hleft1 : dots_left s1 = dots_left s - 1).
        { unfold dots_left, frame_length. rewrite Hnext, Hf1. lia. }
        rewrite <- app_assoc, IH.
        unfold tick_events. rewrite Hnext, Hleft1, Hctl, Hvb, H241, H261'.
        rewrite Nat2Z.inj_succ. unfold Z.succ.
        apply expected_ticks_step; [lia | exact Hleft | exact Hflag].
Qed.

Lemma tick_events_to_nat (s : PPU V) (n : Z) :
  clock_ok s -> tick_events s (Z.of_nat (Z.to_nat n)) = tick_events s n.
Proof.
  intros (Hl & Hp & H261 & _).
  pose proof (Z.mod_pos_bound (frames_since_reset s) 2 ltac:(lia)) as Hm.
  destruct (Z.le_gt_cases 0 n) as [Hn | Hn]; [rewrite Z2Nat.id by lia; reflexivity |].
  replace (Z.to_nat n) with 0%nat by lia.
  unfold tick_events, expected_ticks. change (Z.of_nat 0) with 0.
  rewrite !runs_dot_none by lia.
  unfold dots_left, frame_length, frame_pos, PIXELS_PER_LINE.
  settle. reflexivity.
Qed.

(** One call from outside shows exactly what the specification lets it
    show. *)
Lemma watch_action_events (a : action) (s s' : PPU V) :
  clock_ok s ->
  do_action a s = Some s' ->
  watch_action a s = Some (s', action_events s a).
Proof.
  intros Hok Hd.
  destruct (watch_action_run _ _ _ Hd) as [evs Hw]. rewrite Hw.
  f_equal. f_equal. clear Hd.
  destruct a as [n | r | r x]; cbn [watch_action action_events] in *.
  - apply bind_Some in Hw. destruct Hw as ([[s1 fe1] evs1] & Hloop & Hw).
    injection Hw as <- <-.
    assert (Hok0 : loop_ok (s, false)) by (split; [exact Hok | discriminate]).
    pose proof (watch_cycles_events _ _ _ _ _ _ Hok0 Hloop) as He.
    cbn in He. rewrite He. apply tick_events_to_nat. exact Hok.
  - apply bind_Some in Hw. destruct Hw as ([x s1] & Hr & Hw).
    injection Hw as <- <-.
    apply read_register_clock in Hr. destruct Hr as (_ & _ & _ & Hv).
    unfold observe. rewrite Hv.
    destruct r, (in_vblank s); reflexivity.
  - apply bind_Some in Hw. destruct Hw as (s1 & Hr & Hw).
    injection Hw as <- <-.
    apply write_register_clock in Hr. destruct Hr as (_ & _ & _ & Hv).
    unfold observe. rewrite Hv. destruct (in_vblank s); reflexivity.
Qed.

End Events.

(** C1.  A frame is the span between two calls of [run_cycles] that return
    True (a call that overruns the end of the frame spends its remaining
    iterations at line 0 dot 0, each of them starting a new frame in
    [frames_since_reset], so that no call crosses more than one frame
    boundary).  Along every run of the engine from reset, ticks interleaved
    with register reads and writes:
    - what an observer of [in_vblank] has seen follows the frame discipline:
      in each frame the flag goes up exactly once, at line 241 dot 1, with
      one NMI raised at that dot exactly when bit 7 of CTRL is set then; it
      goes down exactly once, at line 261 dot 1 or by a read of STATUS
      before that; only then is the frame boundary reported;
    - the next call shows exactly what the place of the engine in the frame
      dictates: a [run_cycles] call that runs the dot at line 241 dot 1 sets
      the flag there and raises one NMI iff bit 7 of CTRL is set, one that
      runs the dot at line 261 dot 1 with the flag still up clears it
      there, one that reaches the last dot of the frame reports the
      boundary; a read of STATUS clears a raised flag; nothing else shows. *)
Theorem vblank_once_per_frame {V : Type} `{VRAMView V}
    (v : V) (tr : list action) (s : PPU V) :
  exec tr (init v) = Some s ->
  (exists evs,
      watch tr (init v) = Some (s, evs)
      /\ vblank_discipline BeforeVblank evs = Some (phase_of s))
  /\ (forall (a : action) (s' : PPU V),
         do_action a s = Some s' ->
         watch_action a s = Some (s', action_events s a)).
Proof.
  intros He. destruct (watch_run _ _ _ He) as [evs Hw].
  destruct (watch_discipline _ _ _ _ (clock_ok_init v) Hw) as [Hok Hd].
  split.
  - exists evs. split; [exact Hw | exact Hd].
  - intros a s' Ha. exact (watch_action_events a s s' Hok Ha).
Qed.

(** [vblank_once_per_frame] on the first frame: after [first_frame_run] the
    call that runs the rest of the frame sees the flag go up at line 241
    dot 1 with one NMI, go down at line 261 dot 1, and the frame end. *)
Lemma vblank_once_per_frame_witness :
  exists s s' evs,
    exec first_frame_run reset_state = Some s
    /\ watch first_frame_run reset_state = Some (s, evs)
    /\ vblank_discipline BeforeVblank evs = Some (phase_of s)
    /\ do_action (Run 59342) s = Some s'
    /\ watch_action (Run 59342) s
       = Some (s', [VblankSet (AtDot 241 1) 1 true;
                    VblankCleared (AtDot 261 1); FrameBoundary]).
Proof.
  assert (Hrun : exists s,
             exec first_frame_run reset_state = Some s
             /\ action_events s (Run 59342)
                = [VblankSet (AtDot 241 1) 1 true;
                   VblankCleared (AtDot 261 1); FrameBoundary]
             /\ exists s', do_action (Run 59342) s = Some s').
  { eexists. split; [vm_compute; reflexivity |].
    split; [vm_compute; reflexivity |]. eexists. vm_compute. reflexivity. }
  destruct Hrun as (s & He & Hev & s' & Hd).
  destruct (vblank_once_per_frame empty_vram first_frame_run s He)
    as ((evs & Hw & Hdisc) & Hnext).
  exists s, s', evs. split; [exact He |]. split; [exact Hw |].
  split; [exact Hdisc |]. split; [exact Hd |].
  rewrite <- Hev. exact (Hnext (Run 59342) s' Hd).
Defined.

(** ** Sprite evaluation *)

Lemma py_index_lookup {A : Type} (l : list A) (i : Z) :
  0 <= i -> py_index l i = l !! Z.to_nat i.
Proof.
  intros Hi. unfold py_index.
  replace (0 <=? i) with true by (symmetry; apply Z.leb_le; exact Hi).
  reflexivity.
Qed.

Lemma py_index_is_Some {A : Type} (l : list A) (i : Z) :
  0 <= i < Z.of_nat (length l) -> exists x, py_index l i = Some x.
Proof.
  intros Hi. rewrite py_index_lookup by lia.
  apply lookup_lt_is_Some. lia.
Qed.

Lemma list_set_is_Some {A : Type} (l : list A) (i : nat) (x : A) :
  (i < length l)%nat -> list_set l i x = Some (<[i := x]> l).
Proof.
  intros Hi. unfold list_set.
  replace (i <? length l)%nat with true by (symmetry; apply Nat.ltb_lt; exact Hi).
  reflexivity.
Qed.

Lemma sprite_height_mask (ctrl : Z) :
  (if 0 <? Z.land ctrl SPRITE_SIZE_MASK then 16 else 8) = sprite_height ctrl.
Proof.
  change (0 <? Z.land ctrl SPRITE_SIZE_MASK) with (bit_high ctrl 5).
  rewrite bit_high_testbit by lia. reflexivity.
Qed.

(** The scanning loop finds the first nine active sprites, in order. *)
Lemma scan_sprites_filter (oam_bytes : list Z) (held line h : Z) :
  length oam_bytes = 256%nat ->
  forall (ns : list Z) (act sl : list Z),
    (length act < 9)%nat ->
    length sl = length act ->
    exists sl',
      scan_sprites oam_bytes held line h ns act sl
      = Some (take 9 (act ++ List.filter (sprite_covers oam_bytes line h)
                                 (map (fun n => (held + n * 4) mod OAM_SIZE_BYTES) ns)),
              sl')
      /\ length sl'
         = length (take 9 (act ++ List.filter (sprite_covers oam_bytes line h)
                                    (map (fun n => (held + n * 4) mod OAM_SIZE_BYTES) ns))).
Proof.
  intros Hlen. induction ns as [| n ns IH]; intros act sl Hact Hsl.
  - cbn. rewrite app_nil_r, take_ge by lia. exists sl. split; [reflexivity | exact Hsl].
  - cbn [scan_sprites map List.filter].
    set (addr := (held + n * 4) mod OAM_SIZE_BYTES).
    assert (Haddr : 0 <= addr < 256) by (apply Z.mod_pos_bound; reflexivity).
    destruct (py_index_is_Some oam_bytes addr ltac:(lia)) as [y Hy].
    assert (Hc : sprite_covers oam_bytes line h addr
                 = (y <=? line) && (line <? y + h))
      by (unfold sprite_covers; rewrite Hy; reflexivity).
    rewrite Hy, Hc. cbn [mbind option_bind].
    destruct ((y <=? line) && (line <? y + h)) eqn:Hcov.
    + set (found := List.filter _ _).
      rewrite (cons_middle addr act found), (app_assoc act [addr] found).
      destruct (9 <=? length (act ++ [addr]))%nat eqn:Hfull.
      * apply Nat.leb_le in Hfull. rewrite length_app in Hfull. cbn in Hfull.
        exists (sl ++ [line - y]).
        assert (H9 : 9%nat = length (act ++ [addr]))
          by (rewrite length_app; cbn; lia).
        rewrite (take_app_length' _ _ _ H9).
        split; [reflexivity |]. rewrite !length_app. cbn. lia.
      * apply Nat.leb_gt in Hfull.
        apply IH; [exact Hfull |]. rewrite !length_app. cbn. lia.
    + apply IH; assumption.
Qed.

Section EvaluationLemmas.

Context {V : Type} `{VRAMView V}.

(** On a well-shaped memo table [decode_palette] succeeds, with four
    colours, and leaves the table well shaped. *)
Lemma decode_palette_ok (id : Z) (b : bool) (s : PPU V) :
  cache_ok (_palette_cache s) ->
  0 <= id <= 3 ->
  exists p s',
    decode_palette id b s = Some (p, s')
    /\ length p = 4%nat
    /\ cache_ok (_palette_cache s')
    /\ erase_cache s' = erase_cache s.
Proof.
  intros [Hlen Hrows] Hid. unfold decode_palette. cbv zeta.
  set (bank := if b then 1%nat else 0%nat).
  assert (Hbank : (bank < length (_palette_cache s))%nat)
    by (subst bank; destruct b; lia).
  match goal with
  | |- context [?l !! bank] => destruct (l !! bank) as [cache_row |] eqn:Hrow
  end; [| apply lookup_ge_None in Hrow; lia].
  cbn [mbind option_bind].
  destruct (Forall_lookup_1 _ _ _ _ Hrows Hrow) as [Hrlen Hents].
  destruct (py_index_is_Some cache_row id ltac:(lia)) as [ent Hent].
  rewrite Hent. cbn [mbind option_bind].
  assert (Hfresh :
    forall p, length p = 4%nat ->
      exists p' s',
        (cache_row' ← list_set cache_row (Z.to_nat id) (Some p);
         Some (p, set__palette_cache (<[bank := cache_row']> (_palette_cache s)) s))
        = Some (p', s')
        /\ length p' = 4%nat
        /\ cache_ok (_palette_cache s')
        /\ erase_cache s' = erase_cache s).
  { intros p Hp. rewrite list_set_is_Some by lia. cbn [mbind option_bind].
    eexists _, _. split; [reflexivity |]. split; [exact Hp |].
    split; [| reflexivity]. cbn. split.
    - rewrite length_insert. exact Hlen.
    - apply Forall_insert; [exact Hrows |]. split.
      + rewrite length_insert. exact Hrlen.
      + apply Forall_insert; [exact Hents | exact Hp]. }
  destruct ent as [[| c p] |]; try (apply Hfresh; reflexivity).
  eexists _, _. split; [reflexivity |].
  rewrite py_index_lookup in Hent by lia.
  pose proof (Forall_lookup_1 _ _ _ _ Hents Hent) as Hp.
  split; [exact Hp |]. split; [split; assumption | reflexivity].
Qed.

Lemma fill_sprite_row_ok (pal : palette) (lo hi : Z) (flip_h : bool) :
  length pal = 4%nat ->
  forall (xs : list Z) (pattern_row : list (option color)),
    Forall (fun x => 0 <= x <= 7) xs ->
    length pattern_row = 8%nat ->
    exists pattern_row',
      fill_sprite_row pal lo hi flip_h xs pattern_row = Some pattern_row'
      /\ length pattern_row' = 8%nat.
Proof.
  intros Hpal. induction xs as [| x xs IH]; intros pattern_row Hxs Hrow.
  - exists pattern_row. split; [reflexivity | exact Hrow].
  - inversion Hxs as [| x0 xs0 Hx Hxs']. subst x0 xs0. cbn [fill_sprite_row].
    set (c := Z.b2z (bit_high hi x) * 2 + Z.b2z (bit_high lo x)).
    assert (Hc : 0 <= c <= 3)
      by (subst c; destruct (bit_high hi x), (bit_high lo x); cbn; lia).
    assert (Hpx : exists px,
               (if c =? 0 then Some None else Some <$> py_index pal c) = Some px).
    { destruct (c =? 0); [eexists; reflexivity |].
      destruct (py_index_is_Some pal c ltac:(lia)) as [rgb Hrgb].
      rewrite Hrgb. eexists. reflexivity. }
    destruct Hpx as [px ->]. cbn [mbind option_bind].
    rewrite (list_set_is_Some pattern_row _ px) by (destruct flip_h; lia).
    cbn [mbind option_bind]. apply IH; [exact Hxs' |].
    rewrite length_insert. exact Hrow.
Qed.

Lemma py_range_bounds (n : nat) :
  Forall (fun x => 0 <= x <= Z.of_nat n - 1) (py_range n).
Proof.
  unfold py_range. apply Forall_forall. intros x Hx.
  apply in_map_iff in Hx. destruct Hx as (k & <- & Hk).
  apply in_seq in Hk. lia.
Qed.

(** On well-shaped latches the sprite fetch succeeds for up to eight
    sprites and keeps the shape. *)
Lemma fill_sprite_latches_ok (addrs : list Z) :
  forall (i : nat) (sl : list Z) (d : bool) (s : PPU V),
    latches_ok s ->
    (i + length addrs <= 8)%nat ->
    (i + length addrs <= length sl)%nat ->
    exists s',
      _fill_sprite_latches i addrs sl d s = Some s' /\ latches_ok s'.
Proof.
  induction addrs as [| address addrs IH]; intros i sl d s Hok Hi Hsl.
  - exists s. split; [reflexivity | exact Hok].
  - cbn [length] in Hi, Hsl. cbn [_fill_sprite_latches].
    destruct Hok as (Hoam & Hsp & Hrows & Hpr & Hcache).
    assert (Hbyte : forall a, 0 <= Z.land a 0xFF < Z.of_nat (length (oam s))).
    { intros a. rewrite Hoam. change 0xFF with (Z.ones 8).
      rewrite Z.land_ones by lia. apply Z.mod_pos_bound. reflexivity. }
    destruct (py_index_is_Some (oam s) _ (Hbyte (address + 2))) as [attribs Hat].
    rewrite Hat. cbn [mbind option_bind].
    assert (Hix : 0 <= Z.land attribs 0x03 <= 3).
    { change (Z.land attribs 0x03) with (Z.land attribs (Z.ones 2)).
      rewrite Z.land_ones by lia. change (2 ^ 2) with 4.
      pose proof (Z.mod_pos_bound attribs 4 ltac:(reflexivity)). lia. }
    destruct (decode_palette_ok _ true s Hcache Hix)
      as (pal & s1 & Hdec & Hpal & Hcache1 & Hfr).
    rewrite Hdec. cbn [mbind option_bind].
    assert (Hoam1 : oam s1 = oam s) by (apply (f_equal oam) in Hfr; exact Hfr).
    assert (Hsp1 : _sprite_pattern s1 = _sprite_pattern s)
      by (apply (f_equal _sprite_pattern) in Hfr; exact Hfr).
    assert (Hpr1 : _sprite_bkg_priority s1 = _sprite_bkg_priority s)
      by (apply (f_equal _sprite_bkg_priority) in Hfr; exact Hfr).
    rewrite list_set_is_Some by (rewrite Hpr1; lia).
    cbn [mbind option_bind]. cbn [oam set__sprite_bkg_priority ppu_ctrl vram
                                 _sprite_pattern].
    rewrite Hoam1.
    destruct (py_index_is_Some (oam s) _ (Hbyte (address + 1))) as [tile Htile].
    rewrite Htile. cbn [mbind option_bind].
    destruct (lookup_lt_is_Some_2 sl i ltac:(lia)) as [l Hl].
    rewrite Hl. cbn [mbind option_bind].
    rewrite Hsp1.
    destruct (lookup_lt_is_Some_2 (_sprite_pattern s) i ltac:(lia)) as [prow Hprow].
    rewrite Hprow. cbn [mbind option_bind].
    pose proof (Forall_lookup_1 _ _ _ _ Hrows Hprow) as Hprlen.
    destruct (fill_sprite_row_ok pal
                (vram_read (vram s1)
                   (sprite_pattern_addr (ppu_ctrl s1) d (bit_high attribs 7) tile l))
                (vram_read (vram s1)
                   (sprite_pattern_addr (ppu_ctrl s1) d (bit_high attribs 7) tile l
                    + 8))
                (bit_high attribs 6) Hpal (py_range 8) prow
                (py_range_bounds 8) Hprlen)
      as (prow' & Hfill & Hprlen').
    rewrite Hfill. cbn [mbind option_bind].
    apply IH; [| lia | lia].
    repeat split; cbn.
    + rewrite Hoam1. exact Hoam.
    + rewrite length_insert. exact Hsp.
    + apply Forall_insert; [exact Hrows | exact Hprlen'].
    + rewrite length_insert, Hpr1. exact Hpr.
    + apply Hcache1.
    + apply Hcache1.
Qed.

(** From the outcome of the scan to the outcome of the evaluation. *)
Lemma prefetch_from_scan (l : Z) (s : PPU V) (found sl : list Z) :
  latches_ok s ->
  scan_sprites (oam s) (_oam_addr_held s) l
    (if 0 <? Z.land (ppu_ctrl s) SPRITE_SIZE_MASK then 16 else 8)
    (py_range 64) [] [] = Some (take 9 found, sl) ->
  length sl = length (take 9 found) ->
  exists s',
    _prefetch_active_sprites l s = Some s'
    /\ _active_sprites s' = Some (take 8 found)
    /\ sprite_overflow s' = sprite_overflow s || (9 <=? length found)%nat
    /\ erase_eval s' = erase_eval s
    /\ latches_ok s'.
Proof.
  intros Hok Hscan Hsl. unfold _prefetch_active_sprites. cbv zeta.
  rewrite Hscan. cbn [mbind option_bind].
  assert (Hcases :
    exists s0 act sl0,
      (if (8 <? length (take 9 found))%nat
       then (set_sprite_overflow true s, take 8 (take 9 found), take 8 sl)
       else (s, take 9 found, sl)) = (s0, act, sl0)
      /\ act = take 8 found
      /\ (length act <= 8)%nat /\ (length act <= length sl0)%nat
      /\ latches_ok s0
      /\ erase_eval s0 = erase_eval s
      /\ sprite_overflow s0 = sprite_overflow s || (9 <=? length found)%nat).
  { rewrite length_take in Hsl.
    destruct (8 <? length (take 9 found))%nat eqn:Hfull.
    - apply Nat.ltb_lt in Hfull. rewrite length_take in Hfull.
      eexists _, _, _. split; [reflexivity |].
      rewrite take_take. change (8 `min` 9)%nat with 8%nat.
      split; [reflexivity |]. rewrite !length_take.
      split; [lia |]. split; [lia |]. split; [exact Hok |].
      split; [reflexivity |].
      replace (9 <=? length found)%nat with true
        by (symmetry; apply Nat.leb_le; lia).
      rewrite orb_true_r. reflexivity.
    - apply Nat.ltb_ge in Hfull. rewrite length_take in Hfull.
      assert (Hshort : (length found <= 8)%nat) by lia.
      eexists _, _, _. split; [reflexivity |].
      rewrite !take_ge by lia.
      split; [reflexivity |]. split; [lia |]. split; [lia |].
      split; [exact Hok |]. split; [reflexivity |].
      replace (9 <=? length found)%nat with false
        by (symmetry; apply Nat.leb_gt; lia).
      rewrite orb_false_r. reflexivity. }
  destruct Hcases as (s0 & act & sl0 & -> & Hact & Hle & Hsl0 & Hok0 & Hfr0 & Hov0).
  assert (Hle0 : (0 + length act <= 8)%nat) by lia.
  assert (Hsl1 : (0 + length act <= length sl0)%nat) by lia.
  pose proof (fill_sprite_latches_ok act 0 sl0
                (0 <? Z.land (ppu_ctrl s) SPRITE_SIZE_MASK)
                (set__active_sprites (Some act) s0) Hok0 Hle0 Hsl1)
    as (s' & Hfill & Hok').
  exists s'. split; [exact Hfill |].
  pose proof (fill_sprite_latches_frame _ _ _ _ _ _ Hfill) as Hfr.
  rewrite <- Hact.
  split; [apply (f_equal _active_sprites) in Hfr; exact Hfr |].
  split; [apply (f_equal sprite_overflow) in Hfr; cbn in Hfr; congruence |].
  split; [| exact Hok'].
  apply (f_equal erase_eval) in Hfr. etransitivity; [exact Hfr |]. exact Hfr0.
Qed.

(** [_prefetch_active_sprites line]: the first eight sprites active on
    [line] are captured in scan order, and the overflow flag is raised when
    there is a ninth. *)
Lemma prefetch_active_sprites_spec (l : Z) (s : PPU V) :
  latches_ok s ->
  exists s',
    _prefetch_active_sprites l s = Some s'
    /\ _active_sprites s' = Some (take 8 (active_on s l))
    /\ sprite_overflow s'
       = sprite_overflow s || (9 <=? length (active_on s l))%nat
    /\ erase_eval s' = erase_eval s
    /\ latches_ok s'.
Proof.
  intros Hok.
  assert (H0 : (@length Z [] < 9)%nat) by (cbn; lia).
  pose proof (scan_sprites_filter (oam s) (_oam_addr_held s) l
                (sprite_height (ppu_ctrl s)) (proj1 Hok) (py_range 64) [] []
                H0 eq_refl) as (sl & Hscan & Hsl).
  rewrite (app_nil_l (List.filter _ _)) in Hscan, Hsl.
  rewrite <- sprite_height_mask in Hscan at 1.
  exact (prefetch_from_scan l s (active_on s l) sl Hok Hscan Hsl).
Qed.

(** The dot at pixel 257 of a visible line, rendering enabled: the sprite
    evaluation for the next line, then the counters. *)
Lemma visible_line_dot_257 (s : PPU V) :
  pixel s = 257 ->
  visible_line_dot s = _prefetch_active_sprites (line s + 1) s.
Proof. intros Hpix. unfold visible_line_dot. rewrite Hpix. reflexivity. Qed.

Lemma scanline_events_idle (s : PPU V) :
  0 <= line s <= 239 -> pixel s = 257 -> scanline_events s = Some (s, false).
Proof.
  intros Hl Hpix. unfold scanline_events. rewrite Hpix.
  rewrite andb_false_r.
  rewrite (proj2 (Z.eqb_neq (line s) 240)) by lia.
  rewrite (proj2 (Z.eqb_neq (line s) 241)) by lia.
  rewrite (proj2 (Z.leb_le (line s) 260)) by lia.
  reflexivity.
Qed.

Lemma advance_counters_sprites (s : PPU V) :
  _active_sprites (advance_counters s) = _active_sprites s
  /\ sprite_overflow (advance_counters s) = sprite_overflow s
  /\ sprite_zero_hit (advance_counters s) = sprite_zero_hit s.
Proof.
  unfold advance_counters. cbn.
  repeat match goal with
         | |- context [if ?b then _ else _] => destruct b
         end; repeat split; reflexivity.
Qed.

Lemma run_cycles_dot_257 (s s1 : PPU V) :
  0 <= line s <= 239 ->
  pixel s = 257 ->
  0 < Z.land (ppu_mask s) RENDERING_ENABLED_MASK ->
  _prefetch_active_sprites (line s + 1) s = Some s1 ->
  run_cycles 1 s = Some (false, advance_counters s1).
Proof.
  intros Hl Hpix Hrender Hpre.
  pose proof (prefetch_frame _ _ _ Hpre) as Hfr.
  apply clock_of_eval in Hfr. injection Hfr as Hl1 Hp1 _ _ _ _.
  assert (Hidle : scanline_events s1 = Some (s1, false))
    by (apply scanline_events_idle; [rewrite Hl1; exact Hl | congruence]).
  unfold run_cycles. change (Z.to_nat 1) with 1%nat.
  unfold run_cycles_loop, run_cycle.
  replace ((line s <=? 239) && (0 <? Z.land (ppu_mask s) RENDERING_ENABLED_MASK))
    with true
    by (symmetry; apply andb_true_iff; split;
        [apply Z.leb_le; lia | apply Z.ltb_lt; lia]).
  rewrite (visible_line_dot_257 s Hpix), Hpre. cbn [mbind option_bind].
  rewrite Hidle. reflexivity.
Qed.

End EvaluationLemmas.

(** C8.  At dot 257 of a visible line [L], with rendering enabled, the
    engine scans the 64 OAM entries in order from [_oam_addr_held], captures
    in first-found order the sprites with [sprite_y <= L+1 < sprite_y +
    height] (height 16 when CTRL bit 5 is set, else 8), at most eight of
    them, and raises [sprite_overflow] when there is a ninth. *)
Theorem sprite_evaluation_at_dot_257 {V : Type} `{VRAMView V} (s : PPU V) (L : Z) :
  latches_ok s ->
  line s = L ->
  0 <= L <= 239 ->
  pixel s = 257 ->
  0 < Z.land (ppu_mask s) RENDERING_ENABLED_MASK ->
  exists s',
    run_cycles 1 s = Some (false, s')
    /\ _active_sprites s' = Some (take 8 (active_on s (L + 1)))
    /\ (length (take 8 (active_on s (L + 1))) <= 8)%nat
    /\ sprite_overflow s'
       = sprite_overflow s || (9 <=? length (active_on s (L + 1)))%nat.
Proof.
  intros Hok Hline HL Hpix Hrender. subst L.
  destruct (prefetch_active_sprites_spec (line s + 1) s Hok)
    as (s1 & Hpre & Hact & Hov & _ & _).
  exists (advance_counters s1).
  destruct (advance_counters_sprites s1) as (Ha & Ho & _).
  split.
  - exact (run_cycles_dot_257 s s1 HL Hpix Hrender Hpre).
  - rewrite Ha, Ho. split; [exact Hact |]. split; [| exact Hov].
    rewrite length_take. lia.
Qed.


(** [sprite_evaluation_at_dot_257] on nine sprites covering line 50: eight
    are captured and the overflow flag is raised. *)
Lemma sprite_evaluation_at_dot_257_witness :
  latches_ok engine_nine_sprites
  /\ exists s',
       run_cycles 1 engine_nine_sprites = Some (false, s')
       /\ _active_sprites s' = Some [0; 4; 8; 12; 16; 20; 24; 28]
       /\ sprite_overflow s' = true.
Proof.
  assert (Hok : latches_ok engine_nine_sprites).
  { unfold latches_ok, cache_ok. cbn.
    repeat split; try reflexivity; repeat constructor. }
  split; [exact Hok |].
  assert (Hl : 0 <= 49 <= 239) by lia.
  assert (Hr : 0 < Z.land (ppu_mask engine_nine_sprites) RENDERING_ENABLED_MASK)
    by reflexivity.
  destruct (sprite_evaluation_at_dot_257 engine_nine_sprites 49
              Hok eq_refl Hl eq_refl Hr) as (s' & Hrun & Hact & _ & Hov).
  exists s'. split; [exact Hrun |].
  replace (active_on engine_nine_sprites (49 + 1))
    with [0; 4; 8; 12; 16; 20; 24; 28; 32] in Hact, Hov
    by (vm_compute; reflexivity).
  split; [exact Hact | exact Hov].
Defined.

(** ** Sprite-zero hit *)

Section SpriteZeroLemmas.

Context {V : Type} `{VRAMView V}.

(** The overlay loop raises [s0_visible] exactly when one of the sprites it
    visits is opaque at the dot and comes from OAM address 0. *)
Lemma overlay_loop_s0 (s : PPU V) (active : list Z) (idxs : list nat) :
  forall acc acc',
    overlay_loop s active idxs acc = Some acc' ->
    snd acc'
    = snd acc
      || existsb (fun i => sprite_opaque_at s active i && from_oam_zero active i)
                 idxs.
Proof.
  induction idxs as [| i idxs IH]; intros acc acc' Hl; cbn in Hl.
  - injection Hl as <-. cbn. symmetry. apply orb_false_r.
  - apply bind_Some in Hl. destruct Hl as (sprite_addr & Haddr & Hl).
    apply bind_Some in Hl. destruct Hl as (sprite_x & Hx & Hl).
    apply bind_Some in Hl. destruct Hl as (acc1 & Hacc & Hl).
    apply IH in Hl. rewrite Hl. cbn [existsb].
    unfold sprite_opaque_at, from_oam_zero. rewrite Haddr, Hx.
    rewrite orb_assoc. f_equal.
    destruct ((sprite_x <=? pixel s - 1) && (pixel s - 1 <? sprite_x + 8)).
    + apply bind_Some in Hacc. destruct Hacc as (pattern_row & Hrow & Hacc).
      apply bind_Some in Hacc. destruct Hacc as (c & Hc & Hacc).
      rewrite Hrow, Hc. destruct acc as [[c0 t0] b0].
      destruct c as [rgb |]; injection Hacc as <-; cbn.
      * reflexivity.
      * symmetry. apply orb_false_r.
    + injection Hacc as <-. cbn. symmetry. apply orb_false_r.
Qed.

Lemma existsb_rev {A : Type} (f : A -> bool) (l : list A) :
  existsb f (rev l) = existsb f l.
Proof.
  induction l as [| x l IH]; [reflexivity |].
  cbn. rewrite existsb_app, IH. cbn. rewrite orb_false_r. apply orb_comm.
Qed.

(** What the overlay does to the sprite-zero flag. *)
Lemma overlay_sprites_hit (c c' : color) (s s' : PPU V) :
  _overlay_sprites c s = Some (c', s') ->
  sprite_zero_hit s'
  = sprite_zero_hit s
    || (sprites_shown s && sprite_zero_shows s
        && negb (color_eqb c transparent_color)).
Proof.
  unfold _overlay_sprites, sprites_shown, sprite_zero_shows. intros Ho.
  destruct ((Z.land (ppu_mask s) RENDER_SPRITES_MASK =? 0)
            || (pixel s - 1 <? 8) && bit_low (ppu_mask s) RENDER_LEFT8_SPRITES_BIT).
  - injection Ho as _ <-. cbn. symmetry. apply orb_false_r.
  - apply bind_Some in Ho. destruct Ho as (active & Hact & Ho).
    apply bind_Some in Ho. destruct Ho as ([[sc top] s0] & Hloop & Ho).
    apply overlay_loop_s0 in Hloop. cbn [snd orb] in Hloop.
    rewrite existsb_rev in Hloop. rewrite Hact, <- Hloop. cbn [negb andb orb].
    apply bind_Some in Ho. destruct Ho as (c_out & _ & Ho).
    set (s1 := if s0 && negb (color_eqb c transparent_color)
               then set_sprite_zero_hit true s else s) in *.
    assert (Hs1 : sprite_zero_hit s1
                  = sprite_zero_hit s || s0 && negb (color_eqb c transparent_color)).
    { subst s1. destruct (s0 && negb (color_eqb c transparent_color)); cbn.
      - symmetry. apply orb_true_r.
      - symmetry. apply orb_false_r. }
    rewrite <- Hs1.
    destruct (negb (color_eqb c_out transparent_color)).
    + injection Ho as _ <-. reflexivity.
    + apply bind_Some in Ho. destruct Ho as ([p s2] & Hdec & Ho).
      apply bind_Some in Ho. destruct Ho as (c2 & _ & Ho).
      injection Ho as _ <-.
      apply decode_palette_frame, (f_equal sprite_zero_hit) in Hdec. exact Hdec.
Qed.

(** The background fetch leaves alone everything the sprite test reads. *)
Lemma sprite_test_of_bkg (s s' : PPU V) :
  erase_bkg s' = erase_bkg s ->
  sprite_zero_hit s' = sprite_zero_hit s
  /\ sprites_shown s' = sprites_shown s
  /\ sprite_zero_shows s' = sprite_zero_shows s.
Proof.
  intros He.
  pose proof (f_equal sprite_zero_hit He) as Hh.
  pose proof (f_equal sprites_shown He) as Hs.
  pose proof (f_equal sprite_zero_shows He) as Hz.
  split; [exact Hh |]. split; [exact Hs | exact Hz].
Qed.

(** What the rendering of one dot of a visible line does to the flag. *)
Lemma visible_line_dot_hit (s s' : PPU V) :
  visible_line_dot s = Some s' ->
  sprite_zero_hit s'
  = sprite_zero_hit s
    || ((0 <? pixel s) && (pixel s <=? 256)
        && sprites_shown s && sprite_zero_shows s && bkg_opaque s).
Proof.
  unfold visible_line_dot. intros Hv.
  destruct ((0 <? pixel s) && (pixel s <=? 256)) eqn:Hdot.
  - apply bind_Some in Hv. destruct Hv as (s1 & Hs1 & Hv).
    apply bind_Some in Hv. destruct Hv as (bkg_pixel & Hbkg & Hv).
    apply bind_Some in Hv. destruct Hv as ([final_pixel s2] & Hover & Hv).
    injection Hv as <-.
    assert (Hfr : erase_bkg s1 = erase_bkg s).
    { destruct (((pixel s - 1) mod 8 =? 0) && (1 <? pixel s)).
      - apply shift_and_fill_frame in Hs1. exact Hs1.
      - injection Hs1 as <-. reflexivity. }
    destruct (sprite_test_of_bkg _ _ Hfr) as (Hh & Hshown & Hzero).
    unfold bkg_opaque, bkg_pixel_at. rewrite Hs1. cbn [mbind option_bind].
    rewrite Hbkg. cbn [andb].
    apply overlay_sprites_hit in Hover.
    rewrite Hh, Hshown, Hzero in Hover. rewrite <- Hover.
    destruct (negb (color_eqb final_pixel transparent_color)); reflexivity.
  - cbn [andb]. rewrite orb_false_r.
    destruct (pixel s =? 257).
    + apply prefetch_frame, (f_equal sprite_zero_hit) in Hv. exact Hv.
    + destruct ((321 <=? pixel s) && (pixel s <=? 336)).
      * destruct (pixel s mod 8 =? 1).
        -- apply shift_and_fill_frame, (f_equal sprite_zero_hit) in Hv. exact Hv.
        -- injection Hv as <-. reflexivity.
      * injection Hv as <-. reflexivity.
Qed.

(** The scanline tests clear the flag at line 261 dot 1 and nowhere else. *)
Lemma scanline_events_hit (s s' : PPU V) (ended_now : bool) :
  scanline_events s = Some (s', ended_now) ->
  sprite_zero_hit s'
  = if (line s =? 261) && (pixel s =? 1) then false else sprite_zero_hit s.
Proof.
  unfold scanline_events. intros Hd. crack; subst.
  all: repeat match goal with
         | Hp : shift_and_fill _ _ _ = Some _ |- _ =>
             apply shift_and_fill_frame, (f_equal sprite_zero_hit) in Hp;
             cbn in Hp
         | Hp : _prefetch_active_sprites _ _ = Some _ |- _ =>
             apply prefetch_frame, (f_equal sprite_zero_hit) in Hp;
             cbn in Hp
         end.
  all: zbool; cbn.
  all: zcases; cbn; try lia; try congruence.
Qed.

End SpriteZeroLemmas.

Section SpriteZeroMasks.

Context {V : Type} `{VRAMView V}.

(** An opaque background pixel needs the background to be rendered (MASK
    bit 3) and, in the first eight columns, shown there (MASK bit 1). *)
Lemma bkg_opaque_masks (s : PPU V) :
  bkg_opaque s = true ->
  Z.testbit (ppu_mask s) 3 = true
  /\ (pixel s - 1 < 8 -> Z.testbit (ppu_mask s) 1 = true).
Proof.
  unfold bkg_opaque, bkg_pixel_at.
  destruct (if ((pixel s - 1) mod 8 =? 0) && (1 <? pixel s)
            then shift_and_fill (line s) (col s + 1) s else Some s)
    as [s1 |] eqn:Hsf; [| discriminate].
  cbn [mbind option_bind].
  assert (Hsame : ppu_mask s1 = ppu_mask s /\ pixel s1 = pixel s).
  { destruct (((pixel s - 1) mod 8 =? 0) && (1 <? pixel s)).
    - apply shift_and_fill_frame in Hsf.
      split; [exact (f_equal ppu_mask Hsf) | exact (f_equal pixel Hsf)].
    - injection Hsf as <-. split; reflexivity. }
  destruct Hsame as [Hm Hp]. unfold _get_bkg_pixel. rewrite Hm, Hp.
  change RENDER_BACKGROUND_MASK with (2 ^ 3).
  rewrite land_pow2_eqb_0 by lia.
  unfold bit_low, RENDER_LEFT8_BKG_BIT. rewrite Z.shiftl_1_l.
  rewrite land_pow2_eqb_0 by lia.
  destruct (Z.testbit (ppu_mask s) 3); [| discriminate].
  cbn [negb orb]. intros Hop. split; [reflexivity |]. intros Hleft.
  replace (pixel s - 1 <? 8) with true in Hop
    by (symmetry; apply Z.ltb_lt; exact Hleft).
  destruct (Z.testbit (ppu_mask s) 1); [reflexivity | discriminate Hop].
Qed.

(** No register access changes the sprite flags; a read of STATUS returns
    them and leaves them up. *)
Lemma register_access_sprite_flags (r : register) (v : Z) (s t : PPU V) :
  read_register r s = Some (v, t) \/ write_register r v s = Some t ->
  sprite_overflow t = sprite_overflow s
  /\ sprite_zero_hit t = sprite_zero_hit s.
Proof.
  intros [Hr | Hw].
  - revert Hr. destruct r; cbn; intros Hr; crack; subst; cbn.
    all: try match goal with
             | Hp : (if ?b then _ else _) = (_, _) |- _ =>
                 destruct b; injection Hp as <- <-
             end.
    all: split; reflexivity.
  - revert Hw. destruct r; cbn; intros Hw; crack; subst; cbn.
    all: repeat match goal with
                | |- context [if ?b then _ else _] => destruct b
                end.
    all: split; reflexivity.
Qed.

Lemma run_cycle_sprite_zero_hit (s s' : PPU V) (frame_ended frame_ended' : bool) :
  run_cycle (s, frame_ended) = Some (s', frame_ended') ->
  sprite_zero_hit s'
  = if (line s =? 261) && (pixel s =? 1) then false
    else sprite_zero_hit s || sprite_zero_hit_here s.
Proof.
  unfold run_cycle. intros Hd.
  apply bind_Some in Hd. destruct Hd as (s1 & Hvis & Hd).
  apply bind_Some in Hd. destruct Hd as ([s2 ended_now] & Hev & Hd).
  injection Hd as Hs' _.
  assert (Hlast : sprite_zero_hit s' = sprite_zero_hit s2).
  { destruct (advance_counters_sprites s2) as (_ & _ & Hadv).
    subst s'. destruct (frame_ended || ended_now); cbn; exact Hadv. }
  apply scanline_events_hit in Hev.
  assert (Hvisible :
    line s1 = line s /\ pixel s1 = pixel s
    /\ sprite_zero_hit s1 = sprite_zero_hit s || sprite_zero_hit_here s).
  { unfold sprite_zero_hit_here.
    destruct ((line s <=? 239)
              && (0 <? Z.land (ppu_mask s) RENDERING_ENABLED_MASK)) eqn:Hon.
    - pose proof (visible_line_dot_frame _ _ Hvis) as Hfr.
      apply clock_of_render in Hfr. injection Hfr as Hl Hp _ _ _ _.
      split; [exact Hl |]. split; [exact Hp |].
      apply visible_line_dot_hit in Hvis. rewrite Hvis.
      cbn [andb]. reflexivity.
    - injection Hvis as <-. cbn [andb]. rewrite orb_false_r.
      repeat split; reflexivity. }
  destruct Hvisible as (Hl & Hp & Hhit).
  rewrite Hlast, Hev, Hl, Hp, Hhit. reflexivity.
Qed.

End SpriteZeroMasks.

(** C7, amended.  One dot sets [sprite_zero_hit] exactly when it is one of
    the dots 1..256 of a visible line with rendering enabled, sprites are
    rendered and not hidden by the left-8 sprite mask, some captured sprite
    from OAM address 0 is opaque at the dot (the top one or not), and the
    background pixel at the dot is opaque.  An opaque background pixel needs
    MASK bit 3 and, in the first eight columns, MASK bit 1: the left-8
    background mask prevents a hit there.  The flag then stays up until the
    dot at line 261, pixel 1, which clears it: no other dot lowers it and no
    register access, a read of STATUS included, changes it. *)
Theorem sprite_zero_hit_dot {V : Type} `{VRAMView V} (s : PPU V) :
  (forall (s' : PPU V) (frame_ended frame_ended' : bool),
      run_cycle (s, frame_ended) = Some (s', frame_ended') ->
      sprite_zero_hit s'
      = if (line s =? 261) && (pixel s =? 1) then false
        else sprite_zero_hit s || sprite_zero_hit_here s)
  /\ (bkg_opaque s = true ->
      Z.testbit (ppu_mask s) 3 = true
      /\ (pixel s - 1 < 8 -> Z.testbit (ppu_mask s) 1 = true))
  /\ (forall (r : register) (v : Z) (t : PPU V),
         read_register r s = Some (v, t) \/ write_register r v s = Some t ->
         sprite_zero_hit t = sprite_zero_hit s).
Proof.
  split; [| split].
  - intros s' fe fe' Hd. exact (run_cycle_sprite_zero_hit s s' fe fe' Hd).
  - exact (bkg_opaque_masks s).
  - intros r v t Ha. exact (proj2 (register_access_sprite_flags r v s t Ha)).
Qed.

(** [sprite_zero_hit_dot] on the dot at line 50, pixel 101, where sprite 0
    meets an opaque background, and on a read of STATUS after it. *)
Lemma sprite_zero_hit_dot_witness :
  exists s s' st t,
    run_cycles 185 engine_sprite_zero_behind = Some (false, s)
    /\ run_cycle (s, false) = Some (s', false)
    /\ sprite_zero_hit s = false
    /\ sprite_zero_hit_here s = true
    /\ sprite_zero_hit s' = true
    /\ Z.testbit (ppu_mask s) 3 = true
    /\ read_register PPU_STATUS s' = Some (st, t)
    /\ sprite_zero_hit t = true.
Proof.
  assert (Hrun : exists s,
             run_cycles 185 engine_sprite_zero_behind = Some (false, s)
             /\ (line s =? 261) && (pixel s =? 1) = false
             /\ sprite_zero_hit s = false
             /\ sprite_zero_hit_here s = true
             /\ bkg_opaque s = true
             /\ exists s', run_cycle (s, false) = Some (s', false)).
  { eexists. split; [vm_compute; reflexivity |].
    split; [vm_compute; reflexivity |]. split; [vm_compute; reflexivity |].
    split; [vm_compute; reflexivity |]. split; [vm_compute; reflexivity |].
    eexists. vm_compute. reflexivity. }
  destruct Hrun as (s & Hrun & Hpos & Hbefore & Hhere & Hbkg & s' & Hdot).
  destruct (sprite_zero_hit_dot s) as (Htick & Hmask & _).
  assert (Hafter : sprite_zero_hit s' = true).
  { rewrite (Htick s' false false Hdot), Hpos, Hbefore, Hhere. reflexivity. }
  destruct (read_register PPU_STATUS s') as [[st t] |] eqn:Hread;
    [| discriminate Hread].
  exists s, s', st, t. split; [exact Hrun |]. split; [exact Hdot |].
  split; [exact Hbefore |]. split; [exact Hhere |]. split; [exact Hafter |].
  split; [exact (proj1 (Hmask Hbkg)) |]. split; [exact Hread |].
  destruct (sprite_zero_hit_dot s') as (_ & _ & Hport).
  rewrite (Hport PPU_STATUS st t (or_introl Hread)). exact Hafter.
Defined.

(** C7 as stated fails.  (1) With evaluation started at OAM address 4,
    sprite 1 is captured ahead of sprite 0; where both are opaque the top
    sprite comes from OAM address 4, and the flag is raised all the same.
    (2) The flag is raised at dot 1, that is at x = 0, when both left-8
    columns are shown.  (3) The flag is raised at dot 256, that is at
    x = 255. *)
Lemma sprite_zero_hit_not_as_stated :
  (exists s s',
     run_cycles 185 engine_sprite_zero_behind = Some (false, s)
     /\ run_cycles 1 s = Some (false, s')
     /\ line s = 50 /\ pixel s = 101
     /\ top_sprite_addr s = Some 4
     /\ sprite_zero_hit s = false /\ sprite_zero_hit s' = true)
  /\ (exists s s',
        run_cycles 85 engine_sprite_zero_left = Some (false, s)
        /\ run_cycles 1 s = Some (false, s')
        /\ line s = 50 /\ pixel s = 1
        /\ sprite_zero_hit s = false /\ sprite_zero_hit s' = true)
  /\ (exists s s',
        run_cycles 340 engine_sprite_zero_right = Some (false, s)
        /\ run_cycles 1 s = Some (false, s')
        /\ line s = 50 /\ pixel s = 256
        /\ sprite_zero_hit s = false /\ sprite_zero_hit s' = true).
Proof.
  split; [| split].
  - eexists _, _. split; [vm_compute; reflexivity |].
    split; [vm_compute; reflexivity |].
    repeat split; vm_compute; reflexivity.
  - eexists _, _. split; [vm_compute; reflexivity |].
    split; [vm_compute; reflexivity |].
    repeat split; vm_compute; reflexivity.
  - eexists _, _. split; [vm_compute; reflexivity |].
    split; [vm_compute; reflexivity |].
    repeat split; vm_compute; reflexivity.
Qed.

(** ** Supplements *)

(** ADDR writes of a byte keep the address within 16 bits, whatever it was
    before: only the increment on DATA accesses lets it grow. *)
Lemma write_addr_16bit {V : Type} `{VRAMView V} (s s' : PPU V) (v : Z) :
  0 <= v <= 255 ->
  write_register PPU_ADDR v s = Some s' ->
  0 <= ppu_addr s' <= 0xFFFF.
Proof.
  intros Hv Hw. unfold write_register in Hw. cbn in Hw.
  destruct (_ppu_byte_latch s =? 0); injection Hw as <-; cbn.
  - change 0x00FF with (Z.ones 8). rewrite Z.land_ones by lia.
    pose proof (Z.mod_pos_bound (ppu_addr s) (2 ^ 8) ltac:(reflexivity)) as Hm.
    rewrite Z.shiftl_mul_pow2 by lia. change (2 ^ 8) with 256 in *. lia.
  - set (x := Z.land (ppu_addr s) 0xFF00).
    assert (Hx : x mod 2 ^ 16 = x).
    { rewrite <- Z.land_ones by lia. subst x. rewrite <- Z.land_assoc.
      reflexivity. }
    assert (Hd : Z.land x v = 0).
    { subst x. rewrite <- (byte_land_FF v Hv) at 1.
      rewrite <- Z.land_assoc, (Z.land_comm v), (Z.land_assoc 0xFF00).
      change (Z.land 0xFF00 0xFF) with 0. rewrite Z.land_0_l. apply Z.land_0_r. }
    pose proof (Z.add_nocarry_mod_lt_pow2 x v 16 ltac:(lia) Hd) as Hlt.
    rewrite Hx, (Z.mod_small v) in Hlt by (change (2 ^ 16) with 65536; lia).
    assert (Hnn : 0 <= x) by (subst x; apply Z.land_nonneg; right; lia).
    change (2 ^ 16) with 65536 in Hlt. lia.
Qed.

(** On the pre-render line the same evaluation runs at dot 257, rendering
    enabled or not, for line 0 of the next frame. *)
Lemma sprite_evaluation_on_prerender_line {V : Type} `{VRAMView V} (s : PPU V) :
  latches_ok s ->
  line s = 261 ->
  pixel s = 257 ->
  exists s',
    run_cycles 1 s = Some (false, s')
    /\ _active_sprites s' = Some (take 8 (active_on s 0))
    /\ sprite_overflow s'
       = sprite_overflow s || (9 <=? length (active_on s 0))%nat.
Proof.
  intros Hok Hline Hpix.
  destruct (prefetch_active_sprites_spec 0 s Hok)
    as (s1 & Hpre & Hact & Hov & _ & _).
  exists (advance_counters s1).
  destruct (advance_counters_sprites s1) as (Ha & Ho & _).
  rewrite Ha, Ho. split; [| split; [exact Hact | exact Hov]].
  unfold run_cycles. change (Z.to_nat 1) with 1%nat.
  unfold run_cycles_loop, run_cycle. rewrite Hline. cbn [Z.leb Z.compare andb
    Pos.compare Pos.compare_cont]. cbn [mbind option_bind].
  unfold scanline_events. rewrite Hline, Hpix.
  cbn [Z.eqb Z.leb Z.compare andb Pos.eqb Pos.compare Pos.compare_cont].
  rewrite Hpre. reflexivity.
Qed.

(** The colour [__init__] finds for transparency with the default palette. *)
Lemma transparent_color_found :
  _get_non_palette_color 1 (1, 1, 1) = Some transparent_color.
Proof. reflexivity. Qed.

(** * Further properties *)

(** ** nes/bitwise.py *)

Lemma shiftl_1_testbit (bit i : Z) :
  0 <= bit -> 0 <= i -> Z.testbit (Z.shiftl 1 bit) i = (i =? bit).
Proof.
  intros Hb Hi. rewrite Z.shiftl_1_l.
  destruct (Z.eqb_spec i bit) as [-> | Hne].
  - apply Z.pow2_bits_true. lia.
  - apply Z.pow2_bits_false. lia.
Qed.

(** X1.  [set_bit] raises the bit it names and no other; [clear_bit] lowers it
    and no other; [bit_high] and [bit_low] read it back. *)
Theorem set_clear_bit_laws (target bit : Z) :
  0 <= bit ->
  bit_high (set_bit target bit) bit = true
  /\ bit_low (clear_bit target bit) bit = true
  /\ bit_low target bit = negb (bit_high target bit)
  /\ (forall i, 0 <= i -> i <> bit ->
        Z.testbit (set_bit target bit) i = Z.testbit target i
        /\ Z.testbit (clear_bit target bit) i = Z.testbit target i).
Proof.
  intros Hb. repeat split.
  - rewrite bit_high_testbit by lia. unfold set_bit.
    rewrite Z.lor_spec, shiftl_1_testbit, Z.eqb_refl by lia. apply orb_true_r.
  - unfold bit_low, clear_bit. rewrite Z.shiftl_1_l.
    rewrite land_pow2_eqb_0 by lia.
    rewrite Z.land_spec, Z.lnot_spec, Z.pow2_bits_true by lia.
    rewrite andb_false_r. reflexivity.
  - unfold bit_low. rewrite bit_high_testbit, Z.shiftl_1_l by lia.
    apply land_pow2_eqb_0. lia.
  - unfold set_bit. rewrite Z.lor_spec, shiftl_1_testbit by lia.
    replace (i =? bit) with false by (symmetry; apply Z.eqb_neq; lia).
    apply orb_false_r.
  - unfold clear_bit. rewrite Z.land_spec, Z.lnot_spec, shiftl_1_testbit by lia.
    replace (i =? bit) with false by (symmetry; apply Z.eqb_neq; lia).
    apply andb_true_r.
Qed.

Lemma set_clear_bit_laws_witness :
  bit_high (set_bit 0 6) 6 = true /\ bit_low (clear_bit 64 6) 6 = true.
Proof.
  destruct (set_clear_bit_laws 0 6 ltac:(lia)) as (Hs & _).
  destruct (set_clear_bit_laws 64 6 ltac:(lia)) as (_ & Hc & _).
  split; [exact Hs | exact Hc].
Defined.

(** X2.  A byte is its upper nibble times 16 plus its lower nibble, and both
    nibbles lie in 0..15. *)
Theorem nibbles_recompose (value : Z) :
  0 <= value <= 255 ->
  value = upper_nibble value * 16 + lower_nibble value
  /\ 0 <= upper_nibble value <= 15
  /\ 0 <= lower_nibble value <= 15.
Proof.
  intros Hv. unfold upper_nibble, lower_nibble.
  change (Z.land value 0x0F) with (Z.land value (Z.ones 4)).
  rewrite Z.land_ones by lia.
  assert (Hup : Z.shiftr (Z.land value 0xF0) 4 = value / 16).
  { rewrite Z.shiftr_land. change (Z.shiftr 0xF0 4) with (Z.ones 4).
    rewrite Z.land_ones, Z.shiftr_div_pow2 by lia.
    change (2 ^ 4) with 16. apply Z.mod_small.
    split; [apply Z.div_pos; lia | apply Z.div_lt_upper_bound; lia]. }
  rewrite Hup. change (2 ^ 4) with 16.
  pose proof (Z.div_mod value 16 ltac:(lia)) as Hdm.
  pose proof (Z.mod_pos_bound value 16 ltac:(lia)) as Hm.
  assert (0 <= value / 16 <= 15)
    by (split; [apply Z.div_pos; lia
               | apply Z.lt_succ_r, Z.div_lt_upper_bound; lia]).
  lia.
Qed.

Lemma nibbles_recompose_witness :
  0xA7 = upper_nibble 0xA7 * 16 + lower_nibble 0xA7.
Proof. exact (proj1 (nibbles_recompose 0xA7 ltac:(lia))). Defined.

(** X3.  [replace_high_byte] does not replace anything: because [+] binds
    tighter than [&] it masks [v] with [0x00FF + (hi_byte << 8)], so it keeps
    the low byte of [v] and never produces a bit that [v] lacks. *)
Theorem replace_high_byte_only_masks (v hi_byte : Z) :
  0 <= hi_byte ->
  Z.land (replace_high_byte v hi_byte) 0xFF = Z.land v 0xFF
  /\ Z.land (replace_high_byte v hi_byte) v = replace_high_byte v hi_byte
  /\ replace_high_byte v 0 = Z.land v 0xFF.
Proof.
  intros Hh. unfold replace_high_byte.
  assert (Hsum : 0x00FF + Z.shiftl hi_byte 8 = Z.lor 0x00FF (Z.shiftl hi_byte 8)).
  { apply land_add_disjoint. apply Z.bits_inj'. intros k Hk.
    rewrite Z.land_spec, Z.bits_0. change 0x00FF with (Z.ones 8).
    destruct (Z.lt_ge_cases k 8).
    - rewrite Z.shiftl_spec_low by lia. apply andb_false_r.
    - rewrite Z.ones_spec_high by lia. reflexivity. }
  split; [| split].
  - rewrite Hsum, <- Z.land_assoc, Z.land_lor_distr_l.
    change (Z.land 0x00FF 0xFF) with 0xFF.
    rewrite (Z.land_comm (Z.shiftl hi_byte 8)).
    replace (Z.land 0xFF (Z.shiftl hi_byte 8)) with 0; [reflexivity |].
    symmetry. apply Z.bits_inj'. intros k Hk.
    rewrite Z.land_spec, Z.bits_0. change 0xFF with (Z.ones 8).
    destruct (Z.lt_ge_cases k 8).
    + rewrite Z.shiftl_spec_low by lia. apply andb_false_r.
    + rewrite Z.ones_spec_high by lia. reflexivity.
  - rewrite (Z.land_comm v), <- Z.land_assoc, Z.land_diag. reflexivity.
  - reflexivity.
Qed.

Lemma replace_high_byte_only_masks_witness :
  Z.land (replace_high_byte 0x1234 0xAB) 0xFF = Z.land 0x1234 0xFF
  /\ replace_high_byte 0x1234 0xAB = 0x0234.
Proof.
  split; [| reflexivity].
  exact (proj1 (replace_high_byte_only_masks 0x1234 0xAB ltac:(lia))).
Defined.

(** ** The register port *)

Lemma bytearray_set_in_range (b : list Z) (i x : Z) :
  0 <= x <= 255 -> 0 <= i < Z.of_nat (length b) ->
  bytearray_set b i x = Some (<[Z.to_nat i := x]> b).
Proof.
  intros Hx Hi. unfold bytearray_set.
  replace ((0 <=? x) && (x <=? 255)) with true
    by (symmetry; apply andb_true_iff; split; apply Z.leb_le; lia).
  replace ((0 <=? i) && (i <? Z.of_nat (length b))) with true
    by (symmetry; apply andb_true_iff; split;
        [apply Z.leb_le | apply Z.ltb_lt]; lia).
  reflexivity.
Qed.

Lemma byte_coarse (x : Z) :
  0 <= x <= 255 -> Z.shiftr (Z.land x 0xF8) 3 = x / 8.
Proof.
  intros Hx. rewrite Z.shiftr_land. change (Z.shiftr 0xF8 3) with (Z.ones 5).
  rewrite Z.land_ones, Z.shiftr_div_pow2 by lia.
  change (2 ^ 3) with 8. change (2 ^ 5) with 32. apply Z.mod_small.
  split; [apply Z.div_pos; lia | apply Z.div_lt_upper_bound; lia].
Qed.

(** Two ADDR writes, high byte then low byte, leave exactly the 16-bit
    address they spell, whatever the address was before. *)
Lemma addr_pair_value (a hi lo : Z) :
  0 <= hi <= 255 ->
  Z.land (Z.land a 0x00FF + Z.shiftl hi 8) 0xFF00 + lo = hi * 256 + lo.
Proof.
  intros Hhi. f_equal. rewrite addr_high_lor by lia.
  replace (hi * 256) with (Z.shiftl hi 8)
    by (rewrite Z.shiftl_mul_pow2 by lia; reflexivity).
  apply Z.bits_inj'. intros k Hk.
  rewrite Z.land_spec, Z.lor_spec, Z.land_spec.
  change 0x00FF with (Z.ones 8). change 0xFF00 with (Z.shiftl (Z.ones 8) 8).
  destruct (Z.lt_ge_cases k 8) as [Hlo | Hge8].
  - rewrite !Z.shiftl_spec_low by lia. apply andb_false_r.
  - rewrite (Z.ones_spec_high 8 k) by lia. rewrite andb_false_r, orb_false_l.
    rewrite !Z.shiftl_spec by lia.
    destruct (Z.lt_ge_cases k 16) as [Hlt16 | Hge16].
    + rewrite Z.ones_spec_low by lia. apply andb_true_r.
    + rewrite Z.ones_spec_high by lia. rewrite andb_false_r.
      symmetry. rewrite <- (byte_land_FF hi Hhi), Z.land_spec.
      change 0xFF with (Z.ones 8). rewrite Z.ones_spec_high by lia.
      apply andb_false_r.
Qed.

Section PortLemmas.

Context {V : Type} `{VRAMView V}.

Lemma write_sets_io_latch (r : register) (v : Z) (s s' : PPU V) :
  write_register r v s = Some s' -> _io_latch s' = Z.land v 0xFF.
Proof.
  destruct r; cbn; intros Hw; crack; subst; cbn;
    repeat match goal with
           | |- context [if ?b then _ else _] => destruct b
           end; reflexivity.
Qed.

End PortLemmas.

(** X4.  After a write of [v] to any register, a read of any write-only
    register returns the low 8 bits of [v] and changes nothing. *)
Theorem write_then_read_write_only {V : Type} `{VRAMView V}
    (r r' : register) (v : Z) (s s' : PPU V) :
  write_register r v s = Some s' ->
  write_only r' = true ->
  read_register r' s' = Some (Z.land v 0xFF, s').
Proof.
  intros Hw Hr'. apply write_sets_io_latch in Hw.
  destruct r'; try discriminate Hr'; cbn; rewrite Hw; reflexivity.
Qed.

Lemma write_then_read_write_only_witness :
  exists s',
    write_register PPU_STATUS 0x1A5 reset_state = Some s'
    /\ read_register PPU_SCROLL s' = Some (0xA5, s').
Proof.
  eexists. split; [reflexivity |].
  refine (write_then_read_write_only PPU_STATUS PPU_SCROLL 0x1A5 reset_state _ _ _);
    reflexivity.
Defined.

(** X5.  A byte written through OAMDATA is stored at the OAM cursor, which
    then moves on by one modulo 256; read back through OAMDATA at that address
    it comes out again, and the read leaves the cursor where it is. *)
Theorem oam_data_round_trip {V : Type} `{VRAMView V} (s : PPU V) (v : Z) :
  length (oam s) = 256%nat ->
  0 <= oam_addr s <= 255 ->
  0 <= v <= 255 ->
  exists s1 s2 s3,
    write_register OAM_DATA v s = Some s1
    /\ oam_addr s1 = (oam_addr s + 1) mod 256
    /\ write_register OAM_ADDR (oam_addr s) s1 = Some s2
    /\ read_register OAM_DATA s2 = Some (v, s3)
    /\ oam_addr s3 = oam_addr s.
Proof.
  intros Hlen Ha Hv. unfold write_register at 1. cbn.
  rewrite bytearray_set_in_range by lia. cbn.
  eexists _, _, _. split; [reflexivity |]. cbn.
  split.
  { change 255 with (Z.ones 8). rewrite Z.land_ones by lia. reflexivity. }
  split; [reflexivity |]. cbn.
  rewrite (byte_land_FF (oam_addr s)) by lia.
  rewrite py_index_lookup by lia.
  rewrite list_lookup_insert_eq by lia. cbn.
  split; reflexivity.
Qed.

Lemma oam_data_round_trip_witness :
  exists s1 s2 s3,
    write_register OAM_DATA 0x42 (set_oam_addr 255 reset_state) = Some s1
    /\ oam_addr s1 = 0
    /\ write_register OAM_ADDR 255 s1 = Some s2
    /\ read_register OAM_DATA s2 = Some (0x42, s3)
    /\ oam_addr s3 = 255.
Proof.
  refine (oam_data_round_trip (set_oam_addr 255 reset_state) 0x42 _ _ _);
    [reflexivity | cbn; lia | lia].
Defined.

Lemma scroll_write_x {V : Type} `{VRAMView V} (s : PPU V) (x : Z) :
  length (ppu_scroll s) = 2%nat -> _ppu_byte_latch s = 0 -> 0 <= x <= 255 ->
  write_register PPU_SCROLL x s
  = Some (set__ppu_byte_latch 1
            (set__tX (x / 8)
               (set_ppu_scroll (<[0%nat := x]> (ppu_scroll s))
                  (set__io_latch (Z.land x 0xFF) s)))).
Proof.
  intros Hlen Hlatch Hx. unfold write_register. cbn. rewrite Hlatch.
  rewrite (bytearray_set_in_range (ppu_scroll s) 0 x) by lia.
  cbn. rewrite Hlatch. cbn. rewrite byte_coarse by lia. reflexivity.
Qed.

Lemma scroll_write_y {V : Type} `{VRAMView V} (s : PPU V) (y : Z) :
  length (ppu_scroll s) = 2%nat -> _ppu_byte_latch s = 1 -> 0 <= y <= 255 ->
  write_register PPU_SCROLL y s
  = Some (set__ppu_byte_latch 0
            (set__tY (y / 8)
               (set_ppu_scroll (<[1%nat := y]> (ppu_scroll s))
                  (set__io_latch (Z.land y 0xFF) s)))).
Proof.
  intros Hlen Hlatch Hy. unfold write_register. cbn. rewrite Hlatch.
  rewrite (bytearray_set_in_range (ppu_scroll s) 1 y) by lia.
  cbn. rewrite Hlatch. cbn. rewrite byte_coarse by lia. reflexivity.
Qed.

(** X6.  Two SCROLL writes from a cleared toggle store the x byte, then the y
    byte, set the coarse scroll to their upper five bits and bring the toggle
    back to 0. A read of STATUS between two SCROLL writes makes the second one
    an x write again. *)
Theorem scroll_writes_pair {V : Type} `{VRAMView V} (s : PPU V) (x y x2 : Z) :
  length (ppu_scroll s) = 2%nat ->
  _ppu_byte_latch s = 0 ->
  0 <= x <= 255 -> 0 <= y <= 255 -> 0 <= x2 <= 255 ->
  exists s1,
    write_register PPU_SCROLL x s = Some s1
    /\ (exists s2,
          write_register PPU_SCROLL y s1 = Some s2
          /\ ppu_scroll s2 = <[1%nat := y]> (<[0%nat := x]> (ppu_scroll s))
          /\ _tX s2 = x / 8 /\ _tY s2 = y / 8
          /\ _ppu_byte_latch s2 = 0)
    /\ (exists st s1' s2',
          read_register PPU_STATUS s1 = Some (st, s1')
          /\ write_register PPU_SCROLL x2 s1' = Some s2'
          /\ ppu_scroll s2' = <[0%nat := x2]> (<[0%nat := x]> (ppu_scroll s))
          /\ _ppu_byte_latch s2' = 1).
Proof.
  intros Hlen Hlatch Hx Hy Hx2.
  eexists. split; [apply scroll_write_x; assumption |]. split.
  - eexists. split.
    + apply scroll_write_y; [cbn; rewrite length_insert; exact Hlen
                            | reflexivity | exact Hy].
    + repeat split; reflexivity.
  - eexists _, _, _. split; [reflexivity |]. split.
    + apply scroll_write_x; [cbn; rewrite length_insert; exact Hlen
                            | reflexivity | exact Hx2].
    + split; reflexivity.
Qed.

Lemma scroll_writes_pair_witness :
  exists s1,
    write_register PPU_SCROLL 0x48 reset_state = Some s1
    /\ (exists s2,
          write_register PPU_SCROLL 0x10 s1 = Some s2
          /\ ppu_scroll s2 = [0x48; 0x10]
          /\ _tX s2 = 0x48 / 8 /\ _tY s2 = 0x10 / 8
          /\ _ppu_byte_latch s2 = 0)
    /\ (exists st s1' s2',
          read_register PPU_STATUS s1 = Some (st, s1')
          /\ write_register PPU_SCROLL 0x7 s1' = Some s2'
          /\ ppu_scroll s2' = [0x7; 0]
          /\ _ppu_byte_latch s2' = 1).
Proof.
  refine (scroll_writes_pair reset_state 0x48 0x10 0x7 _ _ _ _ _);
    try reflexivity; lia.
Defined.

Section DataPort.

Context {V : Type} `{VRAMView V}.

(** The two ADDR writes spell the address and touch neither VRAM, CTRL nor
    the read buffer. *)
Lemma addr_pair_sets (s : PPU V) (hi lo : Z) :
  _ppu_byte_latch s = 0 -> 0 <= hi <= 255 ->
  exists s2,
    exec [Write PPU_ADDR hi; Write PPU_ADDR lo] s = Some s2
    /\ ppu_addr s2 = hi * 256 + lo
    /\ _ppu_byte_latch s2 = 0
    /\ vram s2 = vram s /\ ppu_ctrl s2 = ppu_ctrl s
    /\ _ppu_data_buffer s2 = _ppu_data_buffer s.
Proof.
  intros Hlatch Hhi. cbn [exec do_action]. unfold write_register at 1.
  cbn. rewrite Hlatch. cbn.
  eexists. split; [reflexivity |]. cbn. rewrite Hlatch. cbn.
  split; [apply addr_pair_value; exact Hhi |]. repeat split; reflexivity.
Qed.

Lemma write_data_stores (s : PPU V) (v : Z) :
  exists s',
    write_register PPU_DATA v s = Some s'
    /\ vram s' = vram_write (vram s) (ppu_addr s) v
    /\ _ppu_byte_latch s' = _ppu_byte_latch s
    /\ ppu_ctrl s' = ppu_ctrl s
    /\ _ppu_data_buffer s' = _ppu_data_buffer s
    /\ ppu_addr s'
       = ppu_addr s + (if Z.testbit (ppu_ctrl s) 2 then 32 else 1).
Proof.
  unfold write_register. eexists. split; [reflexivity |].
  destruct (PALETTE_START <=? _); cbn -[Z.land Z.testbit];
    repeat split; try reflexivity; apply (f_equal (Z.add _));
    apply increment_step.
Qed.

Lemma read_data_below (s : PPU V) :
  ppu_addr s < PALETTE_START ->
  exists s',
    read_register PPU_DATA s = Some (_ppu_data_buffer s, s')
    /\ _ppu_data_buffer s' = vram_read (vram s) (ppu_addr s)
    /\ vram s' = vram s /\ ppu_ctrl s' = ppu_ctrl s
    /\ ppu_addr s'
       = ppu_addr s + (if Z.testbit (ppu_ctrl s) 2 then 32 else 1).
Proof.
  intros Hlow. unfold read_register.
  replace (ppu_addr s <? PALETTE_START) with true
    by (symmetry; apply Z.ltb_lt; exact Hlow).
  eexists. split; [reflexivity |]. cbn -[Z.land Z.testbit].
  repeat split; try reflexivity. apply (f_equal (Z.add _)).
  apply increment_step.
Qed.

End DataPort.

(** X7.  The buffered round trip. Over a memory that gives back the byte last
    written to an address, the sequence ADDR(hi), ADDR(lo), DATA(v) followed
    by ADDR(hi), ADDR(lo) and two DATA reads yields the stale buffer on the
    first read and [v] on the second, provided the address and the one after
    it (by the CTRL step) lie below the palette region. *)
Theorem data_write_then_buffered_read {V : Type} `{VRAMView V}
    (s : PPU V) (hi lo v : Z) :
  (forall m a x, 0 <= x <= 255 -> vram_read (vram_write m a x) a = x) ->
  _ppu_byte_latch s = 0 ->
  0 <= hi <= 255 -> 0 <= lo <= 255 -> 0 <= v <= 255 ->
  hi * 256 + lo + (if Z.testbit (ppu_ctrl s) 2 then 32 else 1) < PALETTE_START ->
  exists s5 s6 s7,
    exec [Write PPU_ADDR hi; Write PPU_ADDR lo; Write PPU_DATA v;
          Write PPU_ADDR hi; Write PPU_ADDR lo] s = Some s5
    /\ read_register PPU_DATA s5 = Some (_ppu_data_buffer s, s6)
    /\ read_register PPU_DATA s6 = Some (v, s7).
Proof.
  intros Hview Hlatch Hhi Hlo Hv Hbelow.
  destruct (addr_pair_sets s hi lo Hlatch Hhi)
    as (s2 & He2 & Ha2 & Hl2 & Hm2 & Hc2 & Hb2).
  destruct (write_data_stores s2 v) as (s3 & Hw3 & Hm3 & Hl3 & Hc3 & Hb3 & _).
  assert (Hlatch3 : _ppu_byte_latch s3 = 0) by congruence.
  destruct (addr_pair_sets s3 hi lo Hlatch3 Hhi)
    as (s5 & He5 & Ha5 & Hl5 & Hm5 & Hc5 & Hb5).
  assert (Hstep : 0 < (if Z.testbit (ppu_ctrl s) 2 then 32 else 1))
    by (destruct (Z.testbit (ppu_ctrl s) 2); lia).
  assert (Hctrl5 : ppu_ctrl s5 = ppu_ctrl s) by congruence.
  assert (Hlow5 : ppu_addr s5 < PALETTE_START) by lia.
  destruct (read_data_below s5 Hlow5) as (s6 & Hr6 & Hb6 & Hm6 & Hc6 & Ha6).
  assert (Hlow6 : ppu_addr s6 < PALETTE_START)
    by (rewrite Ha6, Hctrl5, Ha5; exact Hbelow).
  destruct (read_data_below s6 Hlow6) as (s7 & Hr7 & _).
  exists s5, s6, s7. split; [| split].
  - cbn [exec do_action] in *.
    apply bind_Some in He2. destruct He2 as (s1 & Hs1 & He2). rewrite Hs1.
    cbn [mbind option_bind] in *.
    apply bind_Some in He2. destruct He2 as (s2' & Hs2 & He2).
    injection He2 as ->. rewrite Hs2. cbn [mbind option_bind].
    rewrite Hw3. cbn [mbind option_bind]. exact He5.
  - rewrite Hr6. congruence.
  - rewrite Hr7. f_equal. f_equal.
    rewrite Hb6, Hm5, Hm3, Ha5, Ha2. apply Hview. exact Hv.
Qed.

Lemma data_write_then_buffered_read_witness :
  exists s5 s6 s7,
    exec [Write PPU_ADDR 0x20; Write PPU_ADDR 0x00; Write PPU_DATA 0xAA;
          Write PPU_ADDR 0x20; Write PPU_ADDR 0x00] reset_state = Some s5
    /\ read_register PPU_DATA s5 = Some (0, s6)
    /\ read_register PPU_DATA s6 = Some (0xAA, s7).
Proof.
  refine (data_write_then_buffered_read reset_state 0x20 0x00 0xAA _ _ _ _ _ _);
    try reflexivity; try lia.
  intros m a x Hx. cbn. rewrite Z.eqb_refl. apply byte_land_FF. exact Hx.
Defined.

(** X8.  A write to CTRL raises an NMI exactly when the warm-up is over, the
    engine is in vblank, the byte written has bit 7 set and CTRL had bit 7
    clear; it then raises exactly one. *)
Theorem ctrl_write_nmi_edge {V : Type} `{VRAMView V} (s : PPU V) (v : Z) :
  exists s',
    write_register PPU_CTRL v s = Some s'
    /\ nmi_raised s'
       = nmi_raised s
         + (if (29658 <=? cycles_since_reset s) && in_vblank s
               && Z.testbit v 7 && negb (Z.testbit (ppu_ctrl s) 7)
            then 1 else 0).
Proof.
  rewrite (Z.leb_antisym (cycles_since_reset s) 29658).
  assert (Hedge : in_vblank s && (0 <? Z.land v VBLANK_MASK)
                  && (Z.land (ppu_ctrl s) VBLANK_MASK =? 0)
                  = in_vblank s && Z.testbit v 7
                    && negb (Z.testbit (ppu_ctrl s) 7)).
  { change (0 <? Z.land v VBLANK_MASK) with (bit_high v 7).
    rewrite bit_high_testbit by lia.
    change VBLANK_MASK with (2 ^ 7). rewrite land_pow2_eqb_0 by lia.
    reflexivity. }
  unfold write_register.
  change (cycles_since_reset (set__io_latch (Z.land v 255) s))
    with (cycles_since_reset s).
  change (in_vblank (set__io_latch (Z.land v 255) s)) with (in_vblank s).
  change (ppu_ctrl (set__io_latch (Z.land v 255) s)) with (ppu_ctrl s).
  rewrite Hedge. clear Hedge.
  destruct (cycles_since_reset s <? 29658); cbn [negb andb].
  - eexists. split; [reflexivity |]. cbn. lia.
  - eexists. split; [reflexivity |].
    destruct (in_vblank s && Z.testbit v 7 && negb (Z.testbit (ppu_ctrl s) 7));
      cbn; lia.
Qed.

(** X9.  Nothing else at the register port raises an NMI or writes memory:
    reads leave VRAM, OAM and the NMI line alone; of the writes only DATA
    changes VRAM, only OAMDATA changes OAM and only CTRL can raise an NMI. *)
Theorem register_port_footprint {V : Type} `{VRAMView V}
    (r : register) (v : Z) (s s' : PPU V) :
  (read_register r s = Some (v, s') ->
   vram s' = vram s /\ oam s' = oam s /\ nmi_raised s' = nmi_raised s)
  /\ (write_register r v s = Some s' ->
      (r <> PPU_DATA -> vram s' = vram s)
      /\ (r <> OAM_DATA -> oam s' = oam s)
      /\ (r <> PPU_CTRL -> nmi_raised s' = nmi_raised s)).
Proof.
  split.
  - destruct r; cbn; intros Hr; crack; subst; cbn.
    all: try match goal with
             | Hp : (if ?b then _ else _) = (_, _) |- _ =>
                 destruct b; injection Hp as <- <-
             end.
    all: repeat split; reflexivity.
  - destruct r; cbn; intros Hw; crack; subst; cbn.
    all: repeat match goal with
                | |- context [if ?b then _ else _] => destruct b
                end.
    all: repeat split; intros; try reflexivity; congruence.
Qed.

Lemma register_port_footprint_witness :
  exists s',
    write_register PPU_ADDR 0x3F reset_state = Some s'
    /\ vram s' = vram reset_state /\ oam s' = oam reset_state
    /\ nmi_raised s' = 0.
Proof.
  eexists. split; [reflexivity |].
  destruct (proj2 (register_port_footprint PPU_ADDR 0x3F reset_state _) eq_refl)
    as (Hv & Ho & Hn).
  split; [apply Hv; discriminate |]. split; [apply Ho; discriminate |].
  apply Hn. discriminate.
Defined.

Lemma land_FF_byte (x : Z) : 0 <= Z.land x 0xFF <= 255.
Proof.
  replace (Z.land x 0xFF) with (x mod 2 ^ 8)
    by (symmetry; apply (Z.land_ones x 8); lia).
  pose proof (Z.mod_pos_bound x (2 ^ 8) ltac:(reflexivity)) as Hb.
  change (2 ^ 8) with 256 in *. lia.
Qed.

(** X10.  On an engine of the shape [__init__] gives it, the register port
    never raises for byte operands, and it keeps that shape. *)
Theorem register_port_total {V : Type} `{VRAMView V}
    (r : register) (v : Z) (s : PPU V) :
  port_ok s ->
  0 <= v <= 255 ->
  (exists x s', read_register r s = Some (x, s') /\ port_ok s')
  /\ (exists s', write_register r v s = Some s' /\ port_ok s').
Proof.
  intros (Hoam & Hcur & Hsc & Htog) Hv. split.
  - destruct r; cbn; try (eexists _, _; split; [reflexivity |];
                          repeat split; cbn; try assumption; try lia;
                          auto; fail).
    + destruct (py_index_is_Some (oam s) (oam_addr s) ltac:(lia)) as [x Hx].
      rewrite Hx. cbn. eexists _, _. split; [reflexivity |].
      repeat split; cbn; try assumption; lia.
    + destruct (ppu_addr s <? PALETTE_START); cbn;
        (eexists _, _; split; [reflexivity |];
         repeat split; cbn; try assumption; lia).
  - assert (Hbyte : 0 <= Z.land (oam_addr s + 1) 0xFF <= 255).
    { apply land_FF_byte. }
    destruct r; cbn.
    + destruct (cycles_since_reset s <? 29658);
        [| destruct (in_vblank s && _ && _)];
        (eexists; split; [reflexivity |];
         repeat split; cbn; try assumption; lia).
    + eexists; split; [reflexivity |]. repeat split; cbn; try assumption; lia.
    + eexists; split; [reflexivity |]. repeat split; cbn; try assumption; lia.
    + eexists; split; [reflexivity |]. rewrite byte_land_FF by lia.
      repeat split; cbn; try assumption; lia.
    + rewrite bytearray_set_in_range by lia. cbn.
      eexists; split; [reflexivity |].
      repeat split; cbn; try assumption; try lia.
      rewrite length_insert. exact Hoam.
    + destruct Htog as [Ht | Ht]; rewrite Ht;
        rewrite bytearray_set_in_range by lia; cbn; rewrite Ht; cbn;
        (eexists; split; [reflexivity |]);
        repeat split; cbn; try assumption; try lia;
        try (rewrite length_insert; exact Hsc); auto.
    + destruct Htog as [Ht | Ht]; rewrite Ht; cbn;
        (eexists; split; [reflexivity |]);
        repeat split; cbn; try assumption; try lia; rewrite Ht; auto.
    + destruct (PALETTE_START <=? _);
        (eexists; split; [reflexivity |]);
        repeat split; cbn; try assumption; lia.
Qed.

Lemma register_port_total_witness :
  (exists x s', read_register OAM_DATA reset_state = Some (x, s') /\ port_ok s')
  /\ (exists s', write_register OAM_DATA 7 reset_state = Some s' /\ port_ok s').
Proof.
  refine (register_port_total OAM_DATA 7 reset_state _ _); [| lia].
  unfold port_ok. cbn. repeat split; try reflexivity; lia.
Defined.

(** ** The tick port *)

Section TickLemmas.

Context {V : Type} `{VRAMView V}.

Lemma erase_events_render (s s' : PPU V) :
  erase_render s' = erase_render s -> erase_events s' = erase_events s.
Proof. intros He. unfold erase_events. rewrite He. reflexivity. Qed.

Lemma erase_tick_events (s s' : PPU V) :
  erase_events s' = erase_events s -> erase_tick s' = erase_tick s.
Proof. intros He. unfold erase_tick. rewrite He. reflexivity. Qed.

Lemma render_gate_frame (s s' : PPU V) :
  (if (line s <=? 239) && (0 <? Z.land (ppu_mask s) RENDERING_ENABLED_MASK)
   then visible_line_dot s else Some s) = Some s' ->
  erase_render s' = erase_render s.
Proof.
  destruct (_ && _); intros Hd.
  - apply visible_line_dot_frame, Hd.
  - injection Hd as <-. reflexivity.
Qed.

Lemma scanline_events_frame (s s' : PPU V) (ended_now : bool) :
  scanline_events s = Some (s', ended_now) ->
  erase_events s' = erase_events s.
Proof.
  unfold scanline_events. intros Hd. crack; subst.
  all: repeat match goal with
         | Hp : shift_and_fill _ _ _ = Some _ |- _ =>
             apply shift_and_fill_frame, (f_equal (@erase_render V)) in Hp;
             rewrite !erase_render_bkg in Hp; apply erase_events_render in Hp
         | Hp : _prefetch_active_sprites _ _ = Some _ |- _ =>
             apply prefetch_frame, (f_equal (@erase_render V)) in Hp;
             rewrite !erase_render_eval in Hp; apply erase_events_render in Hp
         end.
  all: repeat match goal with
         | |- context [if ?b then _ else _] => destruct b
         end.
  all: try reflexivity; assumption.
Qed.

Lemma advance_counters_frame (s : PPU V) :
  erase_tick (advance_counters s) = erase_tick s
  /\ cycles_since_reset (advance_counters s) = cycles_since_reset s + 1.
Proof.
  unfold advance_counters. cbn.
  repeat match goal with
         | |- context [if ?b then _ else _] => destruct b
         end; split; reflexivity.
Qed.

Lemma new_frame_frame (s : PPU V) :
  erase_tick (_new_frame s) = erase_tick s
  /\ cycles_since_reset (_new_frame s) = cycles_since_reset s.
Proof. split; reflexivity. Qed.

(** One dot changes nothing outside the tick footprint and counts one
    cycle since reset. *)
Lemma run_cycle_frame (s s' : PPU V) (fe fe' : bool) :
  run_cycle (s, fe) = Some (s', fe') ->
  erase_tick s' = erase_tick s
  /\ cycles_since_reset s' = cycles_since_reset s + 1.
Proof.
  unfold run_cycle. intros Hd.
  apply bind_Some in Hd. destruct Hd as (s1 & Hvis & Hd).
  apply bind_Some in Hd. destruct Hd as ([s2 ended_now] & Hev & Hd).
  injection Hd as Hs' Hfe'.
  apply render_gate_frame in Hvis.
  apply scanline_events_frame in Hev.
  destruct (advance_counters_frame s2) as [Hadv Hcyc].
  assert (Ht : erase_tick (advance_counters s2) = erase_tick s).
  { rewrite Hadv. etransitivity; [apply erase_tick_events, Hev |].
    apply erase_tick_events, erase_events_render, Hvis. }
  assert (Hc : cycles_since_reset (advance_counters s2)
               = cycles_since_reset s + 1).
  { rewrite Hcyc. f_equal.
    apply (f_equal cycles_since_reset) in Hev, Hvis. cbn in Hev, Hvis.
    congruence. }
  subst s'. destruct (fe || ended_now).
  - destruct (new_frame_frame (advance_counters s2)) as [Hn1 Hn2].
    split; [rewrite Hn1; exact Ht | rewrite Hn2; exact Hc].
  - split; [exact Ht | exact Hc].
Qed.

Lemma run_cycles_loop_frame (n : nat) :
  forall (st st' : PPU V * bool),
    run_cycles_loop n st = Some st' ->
    erase_tick (fst st') = erase_tick (fst st)
    /\ cycles_since_reset (fst st')
       = cycles_since_reset (fst st) + Z.of_nat n.
Proof.
  induction n as [| n IH]; intros st st' Hr.
  - injection Hr as <-. split; [reflexivity | cbn; lia].
  - cbn [run_cycles_loop] in Hr.
    apply bind_Some in Hr. destruct Hr as ([s1 fe1] & Hstep & Hr).
    destruct st as [s fe].
    apply run_cycle_frame in Hstep. destruct Hstep as [Ht1 Hc1].
    apply IH in Hr. destruct Hr as [Ht Hc]. cbn [fst] in *.
    split; [congruence | lia].
Qed.

Lemma run_cycles_unfold (n : Z) (s s' : PPU V) (b : bool) :
  run_cycles n s = Some (b, s') ->
  run_cycles_loop (Z.to_nat n) (s, false) = Some (s', b).
Proof.
  unfold run_cycles. intros Hr.
  apply bind_Some in Hr. destruct Hr as ([s1 fe] & Hloop & Hr).
  injection Hr as <- <-. exact Hloop.
Qed.

Lemma run_cycles_loop_ok (n : nat) :
  forall (st st' : PPU V * bool),
    loop_ok st -> run_cycles_loop n st = Some st' -> loop_ok st'.
Proof.
  induction n as [| n IH]; intros st st' Hok Hr.
  - injection Hr as <-. exact Hok.
  - cbn [run_cycles_loop] in Hr.
    apply bind_Some in Hr. destruct Hr as ([s1 fe1] & Hstep & Hr).
    destruct st as [s fe].
    destruct (run_cycle_discipline s s1 fe fe1 Hok Hstep) as [Hok1 _].
    exact (IH _ _ Hok1 Hr).
Qed.

(** Where a run of [n] dots leaves the dot counter.  Once the frame has
    ended inside the loop, every further iteration starts a new frame. *)
Lemma run_cycles_loop_position (n : nat) :
  forall (s s' : PPU V) (fe fe' : bool),
    loop_ok (s, fe) ->
    run_cycles_loop n (s, fe) = Some (s', fe') ->
    if fe then
      fe' = true
      /\ frames_since_reset s' = frames_since_reset s + Z.of_nat n
    else if Z.of_nat n <? dots_left s then
      fe' = false /\ frame_pos s' = frame_pos s + Z.of_nat n
      /\ frames_since_reset s' = frames_since_reset s
    else
      fe' = true
      /\ frames_since_reset s'
         = frames_since_reset s + (Z.of_nat n - dots_left s + 1).
Proof.
  induction n as [| n IH]; intros s s' fe fe' Hok Hr.
  - injection Hr as <- <-.
    destruct Hok as [(Hl & Hp & H261 & _) _]. cbn [fst] in *.
    pose proof (Z.mod_pos_bound (frames_since_reset s) 2 ltac:(lia)) as Hm.
    destruct fe; [split; [reflexivity | cbn; lia] |].
    unfold dots_left, frame_length, frame_pos, PIXELS_PER_LINE.
    destruct (Z.ltb_spec (Z.of_nat 0) (262 * 341 - frames_since_reset s mod 2
                                       - (line s * 341 + pixel s))).
    + repeat split; cbn; lia.
    + exfalso. cbn in *. lia.
  - cbn [run_cycles_loop] in Hr.
    apply bind_Some in Hr. destruct Hr as ([s1 fe1] & Hstep & Hr).
    destruct (run_cycle_discipline s s1 fe fe1 Hok Hstep) as [Hok1 _].
    specialize (IH _ _ _ _ Hok1 Hr).
    apply run_cycle_clock in Hstep.
    destruct Hstep as (_ & _ & _ & Hfe1 & Hpos).
    destruct Hok as [(Hl & Hp & H261 & _) _]. cbn [fst] in *.
    pose proof (Z.mod_pos_bound (frames_since_reset s) 2 ltac:(lia)) as Hm.
    destruct fe.
    + cbn in Hfe1. subst fe1. destruct Hpos as (_ & _ & Hf1).
      destruct IH as [-> IHf]. split; [reflexivity | lia].
    + cbn [orb] in Hfe1.
      unfold dots_left, frame_length, frame_pos, PIXELS_PER_LINE in *.
      destruct fe1.
      * destruct Hpos as (_ & _ & Hf1). destruct IH as [-> IHf].
        symmetry in Hfe1. zbool.
        destruct (Z.ltb_spec (Z.of_nat (S n))
                    (262 * 341 - frames_since_reset s mod 2
                     - (line s * 341 + pixel s))); [lia |].
        split; [reflexivity | lia].
      * destruct Hpos as (Hf1 & Hpos). rewrite Hf1 in IH.
        symmetry in Hfe1.
        assert (Hnext : line s1 * 341 + pixel s1 = line s * 341 + pixel s + 1).
        { destruct (Z.leb_spec 341 (pixel s + 1)); destruct Hpos; lia. }
        assert (Hnotlast : line s * 341 + pixel s
                           <> 261 * 341 + 340 - frames_since_reset s mod 2).
        { zbool. destruct Hfe1 as [Hne | Hne]; zbool; lia. }
        rewrite Hnext in IH.
        destruct (Z.ltb_spec (Z.of_nat n)
                    (262 * 341 - frames_since_reset s mod 2
                     - (line s * 341 + pixel s + 1)));
          destruct (Z.ltb_spec (Z.of_nat (S n))
                      (262 * 341 - frames_since_reset s mod 2
                       - (line s * 341 + pixel s))); try lia.
        -- destruct IH as (-> & IHp & IHf). repeat split; lia.
        -- destruct IH as (-> & IHf). split; [reflexivity | lia].
Qed.

End TickLemmas.

(** X11.  Along every run from reset the dot counter stays inside the frame
    (lines 0..261, dots 0..340, and on line 261 of an odd frame dots 0..339),
    and the vblank flag is up only between line 241 dot 2 and line 261 dot 1.
    *)
Theorem clock_stays_in_frame {V : Type} `{VRAMView V}
    (v : V) (tr : list action) (s : PPU V) :
  exec tr (init v) = Some s -> clock_ok s.
Proof.
  intros He. destruct (watch_run _ _ _ He) as [evs Hw].
  exact (proj1 (watch_discipline _ _ _ _ (clock_ok_init v) Hw)).
Qed.

Lemma clock_stays_in_frame_witness :
  exists s,
    exec [Run 341; Write PPU_CTRL 0x80; Read PPU_STATUS; Run 7] reset_state
      = Some s
    /\ clock_ok s.
Proof.
  assert (He : exists s,
             exec [Run 341; Write PPU_CTRL 0x80; Read PPU_STATUS; Run 7]
               reset_state = Some s).
  { eexists. vm_compute. reflexivity. }
  destruct He as [s He]. exists s. split; [exact He |].
  exact (clock_stays_in_frame empty_vram _ s He).
Defined.

(** X12.  Ticks are invisible at the register port: [run_cycles] changes
    neither VRAM, OAM, CTRL, MASK, the OAM cursor, the scroll bytes, the VRAM
    address, the write toggle, the read buffer nor the I/O latch. *)
Theorem ticks_leave_registers_alone {V : Type} `{VRAMView V}
    (n : Z) (s s' : PPU V) (b : bool) :
  run_cycles n s = Some (b, s') ->
  vram s' = vram s /\ oam s' = oam s
  /\ ppu_ctrl s' = ppu_ctrl s /\ ppu_mask s' = ppu_mask s
  /\ oam_addr s' = oam_addr s /\ ppu_scroll s' = ppu_scroll s
  /\ ppu_addr s' = ppu_addr s /\ _ppu_byte_latch s' = _ppu_byte_latch s
  /\ _ppu_data_buffer s' = _ppu_data_buffer s /\ _io_latch s' = _io_latch s
  /\ _tN s' = _tN s /\ _tX s' = _tX s /\ _tY s' = _tY s.
Proof.
  intros Hr. apply run_cycles_unfold, run_cycles_loop_frame in Hr.
  destruct Hr as [Ht _]. cbn [fst] in Ht.
  repeat split.
  - exact (f_equal vram Ht).
  - exact (f_equal oam Ht).
  - exact (f_equal ppu_ctrl Ht).
  - exact (f_equal ppu_mask Ht).
  - exact (f_equal oam_addr Ht).
  - exact (f_equal ppu_scroll Ht).
  - exact (f_equal ppu_addr Ht).
  - exact (f_equal _ppu_byte_latch Ht).
  - exact (f_equal _ppu_data_buffer Ht).
  - exact (f_equal _io_latch Ht).
  - exact (f_equal _tN Ht).
  - exact (f_equal _tX Ht).
  - exact (f_equal _tY Ht).
Qed.

Lemma ticks_leave_registers_alone_witness :
  exists b s',
    run_cycles 400 engine_nine_sprites = Some (b, s')
    /\ vram s' = vram engine_nine_sprites /\ oam s' = oam engine_nine_sprites.
Proof.
  assert (Hr : exists b s', run_cycles 400 engine_nine_sprites = Some (b, s')).
  { eexists _, _. vm_compute. reflexivity. }
  destruct Hr as (b & s' & Hr). exists b, s'. split; [exact Hr |].
  destruct (ticks_leave_registers_alone 400 engine_nine_sprites s' b Hr)
    as (Hv & Ho & _).
  split; [exact Hv | exact Ho].
Defined.

(** X13.  [cycles_since_reset], the counter the warm-up test of the CTRL write
    reads, counts PPU dots: a call of [run_cycles n] adds [n] to it (nothing
    for a negative [n]), also across a frame boundary. *)
Theorem run_cycles_counts_dots {V : Type} `{VRAMView V}
    (n : Z) (s s' : PPU V) (b : bool) :
  run_cycles n s = Some (b, s') ->
  cycles_since_reset s' = cycles_since_reset s + Z.max 0 n.
Proof.
  intros Hr. apply run_cycles_unfold, run_cycles_loop_frame in Hr.
  destruct Hr as [_ Hc]. cbn [fst] in Hc. lia.
Qed.

Lemma run_cycles_counts_dots_witness :
  exists b s',
    run_cycles 400 engine_nine_sprites = Some (b, s')
    /\ cycles_since_reset s' = cycles_since_reset engine_nine_sprites + 400.
Proof.
  assert (Hr : exists b s', run_cycles 400 engine_nine_sprites = Some (b, s')).
  { eexists _, _. vm_compute. reflexivity. }
  destruct Hr as (b & s' & Hr). exists b, s'. split; [exact Hr |].
  exact (run_cycles_counts_dots 400 engine_nine_sprites s' b Hr).
Defined.

(** X14.  The length of a frame and what happens at its end. From a state
    inside the frame, a call of [run_cycles n] that stops short of the last
    dot (line 261, dot 340, or dot 339 when [frames_since_reset] is odd)
    returns False and has moved the dot counter by [n]; a call that reaches it
    returns True with the counter back at line 0 dot 0, and has started a new
    frame at every iteration from the last dot on, so that
    [frames_since_reset] has grown by one plus the dots that were left over.
    *)
Theorem run_cycles_frame_end {V : Type} `{VRAMView V}
    (n : Z) (s s' : PPU V) (b : bool) :
  clock_ok s ->
  0 <= n ->
  run_cycles n s = Some (b, s') ->
  if n <? dots_left s then
    b = false /\ frame_pos s' = frame_pos s + n
    /\ 0 <= pixel s' <= 340
    /\ frames_since_reset s' = frames_since_reset s
  else
    b = true /\ line s' = 0 /\ pixel s' = 0
    /\ frames_since_reset s' = frames_since_reset s + (n - dots_left s + 1).
Proof.
  intros Hok Hn Hr. apply run_cycles_unfold in Hr.
  assert (Hok0 : loop_ok (s, false)) by (split; [exact Hok | discriminate]).
  pose proof (run_cycles_loop_ok _ _ _ Hok0 Hr) as [Hok' Hsticky].
  pose proof (run_cycles_loop_position _ _ _ _ _ Hok0 Hr) as Hpos.
  cbn [fst snd] in *. rewrite Z2Nat.id in Hpos by exact Hn.
  destruct (n <? dots_left s).
  - destruct Hpos as (-> & Hp & Hf). destruct Hok' as (_ & Hpx & _).
    repeat split; try assumption; lia.
  - destruct Hpos as (-> & Hf). destruct (Hsticky eq_refl) as [Hl0 Hp0].
    repeat split; assumption.
Qed.

Lemma run_cycles_frame_end_witness :
  exists s',
    run_cycles 30 engine_frame_end = Some (true, s')
    /\ line s' = 0 /\ pixel s' = 0 /\ frames_since_reset s' = 20.
Proof.
  assert (Hr : exists b s', run_cycles 30 engine_frame_end = Some (b, s')).
  { eexists _, _. vm_compute. reflexivity. }
  destruct Hr as (b & s' & Hr).
  assert (Hok : clock_ok engine_frame_end).
  { unfold clock_ok. change (line engine_frame_end) with 261.
    change (pixel engine_frame_end) with 330.
    change (frames_since_reset engine_frame_end) with 0.
    change (in_vblank engine_frame_end) with false.
    change (0 mod 2) with 0.
    repeat split; try lia; discriminate. }
  assert (Hn : 0 <= 30) by lia.
  pose proof (run_cycles_frame_end 30 engine_frame_end s' b Hok Hn Hr) as Hend.
  change (30 <? dots_left engine_frame_end) with false in Hend.
  destruct Hend as (Hb & Hl & Hp & Hf). subst b.
  exists s'. split; [exact Hr |]. split; [exact Hl |]. split; [exact Hp |].
  exact Hf.
Defined.

(** ** What the ticks draw *)

Section ScreenLemmas.

Context {V : Type} `{VRAMView V}.

Lemma shift_and_fill_keeps l c (s s' : PPU V) :
  shift_and_fill l c s = Some s' ->
  screen s' = screen s /\ line s' = line s /\ pixel s' = pixel s
  /\ ppu_mask s' = ppu_mask s /\ _active_sprites s' = _active_sprites s
  /\ sprite_overflow s' = sprite_overflow s
  /\ sprite_zero_hit s' = sprite_zero_hit s.
Proof.
  intros Hd. apply shift_and_fill_frame in Hd. repeat split.
  - exact (f_equal screen Hd).
  - exact (f_equal line Hd).
  - exact (f_equal pixel Hd).
  - exact (f_equal ppu_mask Hd).
  - exact (f_equal _active_sprites Hd).
  - exact (f_equal sprite_overflow Hd).
  - exact (f_equal sprite_zero_hit Hd).
Qed.

Lemma overlay_keeps c c' (s s' : PPU V) :
  _overlay_sprites c s = Some (c', s') ->
  screen s' = screen s /\ line s' = line s /\ pixel s' = pixel s
  /\ _active_sprites s' = _active_sprites s
  /\ sprite_overflow s' = sprite_overflow s.
Proof.
  intros Hd. apply overlay_frame in Hd. repeat split.
  - exact (f_equal screen Hd).
  - exact (f_equal line Hd).
  - exact (f_equal pixel Hd).
  - exact (f_equal _active_sprites Hd).
  - exact (f_equal sprite_overflow Hd).
Qed.

(** The overlay can raise the sprite-zero flag, never lower it. *)
Lemma overlay_hit_mono c c' (s s' : PPU V) :
  _overlay_sprites c s = Some (c', s') ->
  sprite_zero_hit s = true -> sprite_zero_hit s' = true.
Proof.
  unfold _overlay_sprites. intros Hd Hhit. crack; subst; try assumption.
  all: try match goal with Hp : decode_palette _ _ _ = Some _ |- _ =>
         apply decode_palette_frame, (f_equal sprite_zero_hit) in Hp;
         cbn in Hp; rewrite Hp end.
  all: match goal with |- context [if ?b then _ else _] => destruct b end.
  all: cbn; try reflexivity; assumption.
Qed.

Lemma fill_sprite_latches_overflow addrs i sl d (s s' : PPU V) :
  _fill_sprite_latches i addrs sl d s = Some s' ->
  sprite_overflow s' = sprite_overflow s.
Proof.
  intros Hd. apply fill_sprite_latches_frame in Hd.
  exact (f_equal sprite_overflow Hd).
Qed.

Lemma prefetch_keeps l (s s' : PPU V) :
  _prefetch_active_sprites l s = Some s' ->
  screen s' = screen s /\ sprite_zero_hit s' = sprite_zero_hit s
  /\ (sprite_overflow s = true -> sprite_overflow s' = true).
Proof.
  intros Hd. pose proof (prefetch_frame _ _ _ Hd) as Hfr.
  split; [exact (f_equal screen Hfr) |].
  split; [exact (f_equal sprite_zero_hit Hfr) |].
  clear Hfr. revert Hd. unfold _prefetch_active_sprites. intros Hd Hov. crack.
  all: apply fill_sprite_latches_overflow in Hd; rewrite Hd.
  all: match goal with Hp : (if ?b then _ else _) = (_, _, _) |- _ =>
         destruct b; injection Hp as <- <- <- end.
  all: first [reflexivity | exact Hov].
Qed.

(** A dot of a visible line draws at most one pixel, inside the picture
    and never in the transparency colour. *)
Lemma visible_line_dot_screen (s s' : PPU V) :
  0 <= line s <= 239 ->
  visible_line_dot s = Some s' ->
  exists new, screen s' = new ++ screen s /\ Forall pixel_ok new.
Proof.
  unfold visible_line_dot. intros Hl Hd. crack; subst.
  all: repeat match goal with
         | Hp : shift_and_fill _ _ _ = Some _ |- _ =>
             apply shift_and_fill_keeps in Hp;
             destruct Hp as (? & ? & ? & _)
         | Hp : _overlay_sprites _ _ = Some _ |- _ =>
             apply overlay_keeps in Hp; destruct Hp as (? & ? & ? & _)
         | Hp : _prefetch_active_sprites _ _ = Some _ |- _ =>
             apply prefetch_keeps in Hp; destruct Hp as (? & _)
         end.
  all: zbool.
  all: try (exists []; split; [cbn; congruence | constructor]; fail).
  all: match goal with
       | |- context [if negb ?b then _ else _] => destruct b eqn:Hc
       end; cbn [negb].
  all: try (exists []; split; [cbn; congruence | constructor]; fail).
  all: eexists [_]; split;
    [unfold screen_write_at; cbn; f_equal; congruence |].
  all: constructor; [| constructor].
  all: unfold pixel_ok; repeat split; try exact Hc; lia.
Qed.

Lemma scanline_events_keeps (s s' : PPU V) (ended_now : bool) :
  scanline_events s = Some (s', ended_now) ->
  screen s' = screen s
  /\ (if (line s =? 261) && (pixel s =? 1)
      then sprite_overflow s' = false /\ sprite_zero_hit s' = false
      else (sprite_overflow s = true -> sprite_overflow s' = true)
           /\ sprite_zero_hit s' = sprite_zero_hit s).
Proof.
  unfold scanline_events. intros Hd. crack; subst.
  all: repeat match goal with
         | Hp : shift_and_fill _ _ _ = Some _ |- _ =>
             apply shift_and_fill_keeps in Hp;
             destruct Hp as (? & _ & _ & _ & _ & ? & ?)
         | Hp : _prefetch_active_sprites _ _ = Some _ |- _ =>
             apply prefetch_keeps in Hp; destruct Hp as (? & ? & ?)
         end.
  all: zbool.
  all: repeat match goal with
         | Hp : ?a = _ |- context [?a =? _] => rewrite Hp
         end.
  all: repeat match goal with
         | |- context [if 0 <? ?x then _ else _] => destruct (0 <? x)
         end; cbn.
  all: try (split; [congruence |]).
  all: zcases; try lia; cbn.
  all: try (split; [congruence | congruence]).
  all: try (split; [tauto | congruence]).
Qed.

Lemma advance_counters_keeps (s : PPU V) :
  screen (advance_counters s) = screen s
  /\ sprite_overflow (advance_counters s) = sprite_overflow s
  /\ sprite_zero_hit (advance_counters s) = sprite_zero_hit s
  /\ _active_sprites (advance_counters s) = _active_sprites s.
Proof.
  unfold advance_counters. cbn.
  repeat match goal with
         | |- context [if ?b then _ else _] => destruct b
         end; repeat split; reflexivity.
Qed.

Lemma new_frame_keeps (s : PPU V) :
  screen (_new_frame s) = screen s
  /\ sprite_overflow (_new_frame s) = sprite_overflow s
  /\ sprite_zero_hit (_new_frame s) = sprite_zero_hit s
  /\ _active_sprites (_new_frame s) = _active_sprites s.
Proof. repeat split; reflexivity. Qed.

Lemma run_cycle_screen (s s' : PPU V) (fe fe' : bool) :
  0 <= line s ->
  run_cycle (s, fe) = Some (s', fe') ->
  exists new,
    screen s' = new ++ screen s /\ Forall pixel_ok new
    /\ (Z.land (ppu_mask s) RENDERING_ENABLED_MASK = 0 -> new = []).
Proof.
  unfold run_cycle. intros Hl Hd.
  apply bind_Some in Hd. destruct Hd as (s1 & Hvis & Hd).
  apply bind_Some in Hd. destruct Hd as ([s2 ended_now] & Hev & Hd).
  injection Hd as Hs' Hfe'.
  apply scanline_events_keeps in Hev. destruct Hev as [Hsc2 _].
  destruct (advance_counters_keeps s2) as (Hsc3 & _).
  assert (Hsc' : screen s' = screen s1).
  { subst s'. destruct (fe || ended_now);
      [rewrite (proj1 (new_frame_keeps (advance_counters s2))) |];
      congruence. }
  rewrite Hsc'. clear Hsc' Hs' Hsc2 Hsc3.
  destruct (Z.leb_spec (line s) 239); cbn [andb] in Hvis.
  - destruct (Z.ltb_spec 0 (Z.land (ppu_mask s) RENDERING_ENABLED_MASK)).
    + destruct (visible_line_dot_screen s s1 ltac:(lia) Hvis)
        as (new & Hnew & Hok).
      exists new. split; [exact Hnew |]. split; [exact Hok | lia].
    + injection Hvis as <-. exists []. repeat split. constructor.
  - injection Hvis as <-. exists []. repeat split. constructor.
Qed.

Lemma run_cycles_loop_screen (n : nat) :
  forall (st st' : PPU V * bool),
    loop_ok st ->
    run_cycles_loop n st = Some st' ->
    exists new,
      screen (fst st') = new ++ screen (fst st) /\ Forall pixel_ok new
      /\ (Z.land (ppu_mask (fst st)) RENDERING_ENABLED_MASK = 0 -> new = []).
Proof.
  induction n as [| n IH]; intros st st' Hok Hr.
  - injection Hr as <-. exists []. repeat split. constructor.
  - cbn [run_cycles_loop] in Hr.
    apply bind_Some in Hr. destruct Hr as ([s1 fe1] & Hstep & Hr).
    destruct st as [s fe].
    destruct (run_cycle_discipline s s1 fe fe1 Hok Hstep) as [Hok1 _].
    destruct (IH _ _ Hok1 Hr) as (new2 & Hs2 & Hp2 & Hoff2).
    pose proof (run_cycle_frame _ _ _ _ Hstep) as [Hfr _].
    apply (f_equal ppu_mask) in Hfr.
    change (ppu_mask s1 = ppu_mask s) in Hfr.
    destruct Hok as [(Hl & _) _].
    destruct (run_cycle_screen s s1 fe fe1 ltac:(cbn in Hl; lia) Hstep)
      as (new1 & Hs1 & Hp1 & Hoff1).
    cbn [fst] in *. exists (new2 ++ new1). split; [| split].
    + rewrite Hs2, Hs1. apply app_assoc.
    + apply Forall_app. split; assumption.
    + intros Hoff. rewrite Hoff1 by exact Hoff.
      rewrite Hoff2 by (rewrite Hfr; exact Hoff). reflexivity.
Qed.

End ScreenLemmas.

(** X15.  Every pixel the ticks hand to the screen lies on the 256 x 240
    picture and is not the transparency sentinel; with rendering disabled
    (MASK bits 3 and 4 clear) nothing is drawn at all. *)
Theorem ticks_draw_inside_picture {V : Type} `{VRAMView V}
    (n : Z) (s s' : PPU V) (b : bool) :
  clock_ok s ->
  run_cycles n s = Some (b, s') ->
  exists new,
    screen s' = new ++ screen s /\ Forall pixel_ok new
    /\ (Z.land (ppu_mask s) RENDERING_ENABLED_MASK = 0 -> new = []).
Proof.
  intros Hok Hr. apply run_cycles_unfold in Hr.
  assert (Hok0 : loop_ok (s, false)) by (split; [exact Hok | discriminate]).
  exact (run_cycles_loop_screen _ _ _ Hok0 Hr).
Qed.

Lemma ticks_draw_inside_picture_witness :
  exists b s' new,
    run_cycles 400 engine_nine_sprites = Some (b, s')
    /\ screen s' = new ++ screen engine_nine_sprites
    /\ Forall pixel_ok new.
Proof.
  assert (Hr : exists b s', run_cycles 400 engine_nine_sprites = Some (b, s')).
  { eexists _, _. vm_compute. reflexivity. }
  destruct Hr as (b & s' & Hr).
  assert (Hok : clock_ok engine_nine_sprites).
  { unfold clock_ok. change (line engine_nine_sprites) with 49.
    change (pixel engine_nine_sprites) with 257.
    change (in_vblank engine_nine_sprites) with false.
    repeat split; try lia; discriminate. }
  destruct (ticks_draw_inside_picture 400 engine_nine_sprites s' b Hok Hr)
    as (new & Hnew & Hpix & _).
  exists b, s', new. split; [exact Hr |]. split; [exact Hnew | exact Hpix].
Defined.

(** X16.  The sprite flags are sticky: a dot other than dot 1 of line 261
    lowers neither the overflow flag nor the sprite-zero flag; dot 1 of line
    261 lowers both; and in every state no register access, a read of STATUS
    included, changes either. *)
Theorem sprite_flags_cleared_only_on_prerender_line {V : Type} `{VRAMView V}
    (s : PPU V) :
  (forall (s' : PPU V) (fe fe' : bool),
      run_cycle (s, fe) = Some (s', fe') ->
      if (line s =? 261) && (pixel s =? 1)
      then sprite_overflow s' = false /\ sprite_zero_hit s' = false
      else (sprite_overflow s = true -> sprite_overflow s' = true)
           /\ (sprite_zero_hit s = true -> sprite_zero_hit s' = true))
  /\ (forall (r : register) (v : Z) (t : PPU V),
         read_register r s = Some (v, t) \/ write_register r v s = Some t ->
         sprite_overflow t = sprite_overflow s
         /\ sprite_zero_hit t = sprite_zero_hit s).
Proof.
  split.
  - intros s' fe fe' Hd.
    revert Hd. unfold run_cycle. intros Hd.
    apply bind_Some in Hd. destruct Hd as (s1 & Hvis & Hd).
    apply bind_Some in Hd. destruct Hd as ([s2 ended_now] & Hev & Hd).
    injection Hd as Hs' Hfe'.
    assert (Hl1 : line s1 = line s /\ pixel s1 = pixel s).
    { apply render_gate_frame in Hvis.
      split; [exact (f_equal line Hvis) | exact (f_equal pixel Hvis)]. }
    destruct Hl1 as [Hl1 Hp1].
    apply scanline_events_keeps in Hev. destruct Hev as [_ Hev].
    rewrite Hl1, Hp1 in Hev.
    destruct (advance_counters_keeps s2) as (_ & Hov3 & Hz3 & _).
    assert (Hfl : sprite_overflow s' = sprite_overflow s2
                  /\ sprite_zero_hit s' = sprite_zero_hit s2).
    { subst s'. destruct (fe || ended_now);
        [destruct (new_frame_keeps (advance_counters s2))
           as (_ & -> & -> & _) |];
        split; assumption. }
    destruct Hfl as [-> ->].
    destruct ((line s =? 261) && (pixel s =? 1)) eqn:Hat; [exact Hev |].
    destruct Hev as [Hov Hz].
    assert (Hvisfl : (sprite_overflow s = true -> sprite_overflow s1 = true)
                     /\ (sprite_zero_hit s = true -> sprite_zero_hit s1 = true)).
    { destruct ((line s <=? 239)
                && (0 <? Z.land (ppu_mask s) RENDERING_ENABLED_MASK));
        [| injection Hvis as <-; tauto].
      revert Hvis. unfold visible_line_dot. intros Hvis. crack; subst.
      all: repeat match goal with
             | Hp : shift_and_fill _ _ _ = Some _ |- _ =>
                 apply shift_and_fill_keeps in Hp;
                 destruct Hp as (_ & _ & _ & _ & _ & ? & ?)
             | Hp : _overlay_sprites _ _ = Some _ |- _ =>
                 pose proof (overlay_hit_mono _ _ _ _ Hp);
                 apply overlay_keeps in Hp;
                 destruct Hp as (_ & _ & _ & _ & ?)
             | Hp : _prefetch_active_sprites _ _ = Some _ |- _ =>
                 apply prefetch_keeps in Hp; destruct Hp as (_ & ? & ?)
             end.
      all: repeat match goal with
             | |- context [if ?b then _ else _] => destruct b
             end; cbn.
      all: split; intros; try congruence; auto.
      all: match goal with
           | Hm : _ -> sprite_zero_hit _ = true |- _ => apply Hm; congruence
           end. }
    destruct Hvisfl as [Hov1 Hz1]. split.
    + intros Hs. apply Hov, Hov1, Hs.
    + intros Hs. rewrite Hz. apply Hz1, Hs.
  - intros r v t Ha. exact (register_access_sprite_flags r v s t Ha).
Qed.

(** [sprite_flags_cleared_only_on_prerender_line] on dot 1 of line 261, and
    on a read of STATUS in the same state. *)
Lemma sprite_flags_cleared_only_on_prerender_line_witness :
  exists s' fe' st t,
    run_cycle (engine_prerender_dot1, false) = Some (s', fe')
    /\ sprite_overflow s' = false /\ sprite_zero_hit s' = false
    /\ read_register PPU_STATUS engine_prerender_dot1 = Some (st, t)
    /\ sprite_overflow t = true /\ sprite_zero_hit t = true.
Proof.
  assert (Hr : exists s' fe',
             run_cycle (engine_prerender_dot1, false) = Some (s', fe')).
  { eexists _, _. vm_compute. reflexivity. }
  destruct Hr as (s' & fe' & Hr).
  assert (Hs : exists st t,
             read_register PPU_STATUS engine_prerender_dot1 = Some (st, t)).
  { eexists _, _. reflexivity. }
  destruct Hs as (st & t & Hs).
  destruct (sprite_flags_cleared_only_on_prerender_line engine_prerender_dot1)
    as [Htick Hport].
  destruct (Htick s' false fe' Hr) as [Hov Hz].
  destruct (Hport PPU_STATUS st t (or_introl Hs)) as [Hov' Hz'].
  exists s', fe', st, t. split; [exact Hr |]. split; [exact Hov |].
  split; [exact Hz |]. split; [exact Hs |].
  split; [rewrite Hov' | rewrite Hz']; reflexivity.
Defined.

(** ** The held OAM address *)

Section HeldAddress.

Context {V : Type} `{VRAMView V}.

Lemma scanline_events_held (s s' : PPU V) (ended_now : bool) :
  scanline_events s = Some (s', ended_now) ->
  _oam_addr_held s'
  = if (line s =? 0) && (pixel s =? 65) then oam_addr s
    else _oam_addr_held s.
Proof.
  unfold scanline_events. intros Hd.
  destruct ((line s =? 0) && (pixel s =? 65)).
  - injection Hd as <- _. reflexivity.
  - crack; subst.
    all: repeat match goal with
           | Hp : shift_and_fill _ _ _ = Some _ |- _ =>
               apply shift_and_fill_frame, (f_equal _oam_addr_held) in Hp;
               change (_oam_addr_held s' = _oam_addr_held s) in Hp
           | Hp : _prefetch_active_sprites _ _ = Some _ |- _ =>
               apply prefetch_frame, (f_equal _oam_addr_held) in Hp;
               change (_oam_addr_held s' = _oam_addr_held s) in Hp
           end.
    all: repeat match goal with
           | |- context [if ?b then _ else _] => destruct b
           end.
    all: try reflexivity; assumption.
Qed.

Lemma advance_counters_held (s : PPU V) :
  _oam_addr_held (advance_counters s) = _oam_addr_held s.
Proof.
  unfold advance_counters. cbn.
  repeat match goal with
         | |- context [if ?b then _ else _] => destruct b
         end; reflexivity.
Qed.

Lemma new_frame_held (s : PPU V) :
  _oam_addr_held (_new_frame s) = _oam_addr_held s.
Proof. reflexivity. Qed.

End HeldAddress.

(** X17.  The OAM address the sprite evaluation starts from is the OAM cursor
    as it stood at dot 65 of line 0: that dot copies it, with rendering
    enabled or not, and no other dot changes the copy. *)
Theorem oam_address_held_from_line0_dot65 {V : Type} `{VRAMView V}
    (s s' : PPU V) (fe fe' : bool) :
  run_cycle (s, fe) = Some (s', fe') ->
  _oam_addr_held s'
  = if (line s =? 0) && (pixel s =? 65) then oam_addr s
    else _oam_addr_held s.
Proof.
  unfold run_cycle. intros Hd.
  apply bind_Some in Hd. destruct Hd as (s1 & Hvis & Hd).
  apply bind_Some in Hd. destruct Hd as ([s2 ended_now] & Hev & Hd).
  injection Hd as Hs' Hfe'.
  apply render_gate_frame in Hvis.
  pose proof (f_equal line Hvis) as E1. change (line s1 = line s) in E1.
  pose proof (f_equal pixel Hvis) as E2. change (pixel s1 = pixel s) in E2.
  pose proof (f_equal oam_addr Hvis) as E3.
  change (oam_addr s1 = oam_addr s) in E3.
  pose proof (f_equal _oam_addr_held Hvis) as E4.
  change (_oam_addr_held s1 = _oam_addr_held s) in E4.
  apply scanline_events_held in Hev. rewrite E1, E2, E3, E4 in Hev.
  rewrite <- Hev, <- (advance_counters_held s2).
  subst s'. destruct (fe || ended_now); [apply new_frame_held | reflexivity].
Qed.

Lemma oam_address_held_from_line0_dot65_witness :
  exists s' fe',
    run_cycle (engine_line0_dot65, false) = Some (s', fe')
    /\ _oam_addr_held s' = 0x40.
Proof.
  assert (Hr : exists s' fe',
             run_cycle (engine_line0_dot65, false) = Some (s', fe')).
  { eexists _, _. vm_compute. reflexivity. }
  destruct Hr as (s' & fe' & Hr). exists s', fe'. split; [exact Hr |].
  exact (oam_address_held_from_line0_dot65 engine_line0_dot65 s' false fe' Hr).
Defined.

(** ** Sprites before the first evaluation *)

Section FirstLine.

Context {V : Type} `{VRAMView V}.

Lemma overlay_needs_sprites (c : color) (s : PPU V) :
  _active_sprites s = None -> sprites_shown s = true ->
  _overlay_sprites c s = None.
Proof.
  unfold _overlay_sprites, sprites_shown. intros Hn Hs.
  apply negb_true_iff in Hs. rewrite Hs, Hn. reflexivity.
Qed.

Lemma visible_dot_needs_sprites (s : PPU V) :
  0 < pixel s <= 256 ->
  _active_sprites s = None -> sprites_shown s = true ->
  visible_line_dot s = None.
Proof.
  intros Hp Hn Hs. unfold visible_line_dot.
  replace ((0 <? pixel s) && (pixel s <=? 256)) with true
    by (symmetry; apply andb_true_iff; split;
        [apply Z.ltb_lt | apply Z.leb_le]; lia).
  destruct (if ((pixel s - 1) mod 8 =? 0) && (1 <? pixel s)
            then shift_and_fill (line s) (col s + 1) s else Some s)
    as [s1 |] eqn:Hsf; [| reflexivity].
  cbn [mbind option_bind].
  assert (Hsame : _active_sprites s1 = None /\ sprites_shown s1 = true).
  { destruct (((pixel s - 1) mod 8 =? 0) && (1 <? pixel s)).
    - apply shift_and_fill_keeps in Hsf.
      destruct Hsf as (_ & _ & Hpx & Hm & Ha & _).
      split; [congruence |]. unfold sprites_shown in *. rewrite Hpx, Hm.
      exact Hs.
    - injection Hsf as <-. split; assumption. }
  destruct Hsame as [Hn1 Hs1].
  destruct (_get_bkg_pixel s1) as [c |]; [| reflexivity].
  cbn [mbind option_bind]. rewrite (overlay_needs_sprites c s1 Hn1 Hs1).
  reflexivity.
Qed.

Lemma sprites_bit_renders (m : Z) :
  Z.testbit m 4 = true ->
  (Z.land m RENDER_SPRITES_MASK =? 0) = false
  /\ (0 <? Z.land m RENDERING_ENABLED_MASK) = true.
Proof.
  intros Hb. split.
  - change RENDER_SPRITES_MASK with (2 ^ 4). rewrite land_pow2_eqb_0 by lia.
    rewrite Hb. reflexivity.
  - apply Z.ltb_lt.
    assert (Hnn : 0 <= Z.land m RENDERING_ENABLED_MASK)
      by (apply Z.land_nonneg; right; unfold RENDERING_ENABLED_MASK; lia).
    assert (Hne : Z.land m RENDERING_ENABLED_MASK <> 0).
    { intros H0. apply (f_equal (fun x => Z.testbit x 4)) in H0.
      rewrite Z.land_spec, Hb in H0. discriminate H0. }
    lia.
Qed.

(** A dot of a visible line that asks for sprites before any sprite
    evaluation has run raises. *)
Lemma run_cycle_needs_sprites (s : PPU V) (fe : bool) :
  line s <= 239 -> 0 < pixel s <= 256 ->
  _active_sprites s = None ->
  Z.testbit (ppu_mask s) 4 = true ->
  8 <= pixel s - 1 ->
  run_cycle (s, fe) = None.
Proof.
  intros Hl Hp Hn Hb H8. destruct (sprites_bit_renders _ Hb) as [Hspr Hren].
  unfold run_cycle. rewrite Hren.
  replace (line s <=? 239) with true by (symmetry; apply Z.leb_le; exact Hl).
  cbn [andb]. rewrite visible_dot_needs_sprites; [reflexivity | exact Hp | exact Hn |].
  unfold sprites_shown. rewrite Hspr.
  replace (pixel s - 1 <? 8) with false by (symmetry; apply Z.ltb_ge; exact H8).
  reflexivity.
Qed.

Lemma visible_line_dot_active (s s' : PPU V) :
  pixel s <> 257 ->
  visible_line_dot s = Some s' -> _active_sprites s' = _active_sprites s.
Proof.
  unfold visible_line_dot. intros Hp Hd. crack; subst.
  all: repeat match goal with
         | Hp : shift_and_fill _ _ _ = Some _ |- _ =>
             apply shift_and_fill_keeps in Hp;
             destruct Hp as (_ & _ & _ & _ & ? & _)
         | Hp : _overlay_sprites _ _ = Some _ |- _ =>
             apply overlay_keeps in Hp; destruct Hp as (_ & _ & _ & ? & _)
         end.
  all: zbool; try lia.
  all: repeat match goal with
         | |- context [if ?b then _ else _] => destruct b
         end.
  all: try reflexivity.
  all: unfold screen_write_at;
    try change (_active_sprites (set_screen ?x ?y)) with (_active_sprites y);
    congruence.
Qed.

Lemma scanline_events_active (s s' : PPU V) (ended_now : bool) :
  pixel s <> 257 ->
  scanline_events s = Some (s', ended_now) ->
  _active_sprites s' = _active_sprites s.
Proof.
  unfold scanline_events. intros Hp Hd. crack; subst.
  all: repeat match goal with
         | Hp : shift_and_fill _ _ _ = Some _ |- _ =>
             apply shift_and_fill_keeps in Hp;
             destruct Hp as (_ & _ & _ & _ & ? & _)
         end.
  all: zbool; try lia.
  all: repeat match goal with
         | |- context [if ?b then _ else _] => destruct b
         end.
  all: try reflexivity; assumption.
Qed.

Lemma run_cycle_active (s s' : PPU V) (fe fe' : bool) :
  pixel s <> 257 ->
  run_cycle (s, fe) = Some (s', fe') ->
  _active_sprites s' = _active_sprites s.
Proof.
  unfold run_cycle. intros Hp Hd.
  apply bind_Some in Hd. destruct Hd as (s1 & Hvis & Hd).
  apply bind_Some in Hd. destruct Hd as ([s2 ended_now] & Hev & Hd).
  injection Hd as Hs' Hfe'.
  assert (H1 : _active_sprites s1 = _active_sprites s /\ pixel s1 = pixel s).
  { split.
    - destruct ((line s <=? 239)
                && (0 <? Z.land (ppu_mask s) RENDERING_ENABLED_MASK)).
      + apply visible_line_dot_active in Hvis; assumption.
      + injection Hvis as <-. reflexivity.
    - apply render_gate_frame in Hvis. exact (f_equal pixel Hvis). }
  destruct H1 as [Ha1 Hp1].
  apply scanline_events_active in Hev; [| congruence].
  destruct (advance_counters_keeps s2) as (_ & _ & _ & Ha3).
  subst s'. destruct (fe || ended_now);
    [destruct (new_frame_keeps (advance_counters s2)) as (_ & _ & _ & ->) |];
    congruence.
Qed.

Lemma first_line_raises (k : nat) :
  forall s : PPU V,
    line s = 0 -> 0 <= pixel s <= 9 ->
    _active_sprites s = None ->
    Z.testbit (ppu_mask s) 4 = true ->
    10 - pixel s <= Z.of_nat k ->
    run_cycles_loop k (s, false) = None.
Proof.
  induction k as [| k IH]; intros s Hl Hp Hn Hb Hk; [cbn in Hk; lia |].
  cbn [run_cycles_loop].
  destruct (run_cycle (s, false)) as [[s1 fe1] |] eqn:Hstep; [| reflexivity].
  cbn [mbind option_bind].
  destruct (Z.eq_dec (pixel s) 9) as [H9 | H9].
  - rewrite run_cycle_needs_sprites in Hstep by (try assumption; lia).
    discriminate Hstep.
  - assert (Hne : pixel s <> 257) by lia.
    pose proof (run_cycle_active _ _ _ _ Hne Hstep) as Ha.
    pose proof (run_cycle_frame _ _ _ _ Hstep) as [Hfr _].
    apply (f_equal ppu_mask) in Hfr.
    change (ppu_mask s1 = ppu_mask s) in Hfr.
    apply run_cycle_clock in Hstep.
    destruct Hstep as (_ & _ & _ & Hfe1 & Hpos).
    rewrite Hl in Hfe1. cbn in Hfe1. subst fe1.
    destruct Hpos as (_ & Hpos).
    replace (341 <=? pixel s + 1) with false in Hpos
      by (symmetry; apply Z.leb_gt; lia).
    destruct Hpos as [Hl1 Hp1].
    apply IH; try congruence; lia.
Qed.

End FirstLine.

(** X18.  [__init__] does not create the list of captured sprites; its first
    assignment is the sprite evaluation at dot 257. An engine whose MASK gets
    bit 4 (show sprites) right after construction therefore raises before the
    tenth dot of line 0 has been run. *)
Theorem sprites_enabled_after_reset_raise {V : Type} `{VRAMView V}
    (v : V) (m n : Z) :
  Z.testbit m 4 = true ->
  10 <= n ->
  exec [Write PPU_MASK m; Run n] (init v) = None.
Proof.
  intros Hb Hn. cbn [exec do_action]. unfold write_register.
  cbn [mbind option_bind]. unfold run_cycles.
  rewrite first_line_raises; try reflexivity.
  - cbn. lia.
  - change (Z.testbit (Z.land m 0xFF) 4 = true).
    rewrite Z.land_spec, Hb. reflexivity.
  - change (10 - 0 <= Z.of_nat (Z.to_nat n)). lia.
Qed.

Lemma sprites_enabled_after_reset_raise_witness :
  exec [Write PPU_MASK 0x1E; Run 10] reset_state = None.
Proof.
  refine (sprites_enabled_after_reset_raise empty_vram 0x1E 10 _ _);
    [reflexivity | lia].
Defined.

(** ** Runs with rendering disabled *)

Lemma attribute_palette_id_range (x a b : Z) :
  0 <= Z.shiftr (Z.land x (Z.shiftl 3 (4 * (a mod 2) + 2 * (b mod 2))))
         (4 * (a mod 2) + 2 * (b mod 2)) <= 3.
Proof.
  pose proof (Z.mod_pos_bound a 2 ltac:(lia)) as Ha.
  pose proof (Z.mod_pos_bound b 2 ltac:(lia)) as Hb.
  set (sh := 4 * (a mod 2) + 2 * (b mod 2)).
  assert (Hsh : 0 <= sh) by (subst sh; lia).
  rewrite Z.shiftr_land, Z.shiftr_shiftl_l by lia.
  rewrite Z.sub_diag, Z.shiftl_0_r.
  replace (Z.land (Z.shiftr x sh) 3) with (Z.shiftr x sh mod 2 ^ 2)
    by (symmetry; apply (Z.land_ones _ 2); lia).
  pose proof (Z.mod_pos_bound (Z.shiftr x sh) (2 ^ 2) ltac:(reflexivity)) as Hm.
  change (2 ^ 2) with 4 in *. lia.
Qed.

Section Quiet.

Context {V : Type} `{VRAMView V}.

(** The pattern latches are bytearrays, so the fetch succeeds only if the
    memory view answers with bytes. *)
Hypothesis view_bytes : forall (m : V) (a : Z), 0 <= vram_read m a <= 255.

Lemma shift_bkg_latches_ok (s : PPU V) :
  bkg_latches_ok s ->
  exists s',
    shift_bkg_latches s = Some s' /\ bkg_latches_ok s'
    /\ _palette_cache s' = _palette_cache s.
Proof.
  intros (Hpal & Hlo & Hhi & Blo & Bhi). unfold shift_bkg_latches.
  destruct (lookup_lt_is_Some_2 (_palette s) 1 ltac:(lia)) as [p1 Hp1].
  rewrite Hp1. cbn [mbind option_bind].
  rewrite list_set_is_Some by lia. cbn [mbind option_bind].
  change (_pattern_lo (set__palette ?x s)) with (_pattern_lo s).
  destruct (lookup_lt_is_Some_2 (_pattern_lo s) 1 ltac:(lia)) as [lo1 Hlo1].
  rewrite Hlo1. cbn [mbind option_bind].
  rewrite list_set_is_Some by lia. cbn [mbind option_bind].
  change (_pattern_hi (set__pattern_lo ?x (set__palette ?y s)))
    with (_pattern_hi s).
  destruct (lookup_lt_is_Some_2 (_pattern_hi s) 1 ltac:(lia)) as [hi1 Hhi1].
  rewrite Hhi1. cbn [mbind option_bind].
  rewrite list_set_is_Some by lia. cbn [mbind option_bind].
  eexists. split; [reflexivity |]. split; [| reflexivity].
  unfold bkg_latches_ok.
  change (_palette (set__pattern_hi ?a (set__pattern_lo ?b (set__palette ?c s))))
    with c.
  change (_pattern_lo (set__pattern_hi ?a (set__pattern_lo ?b (set__palette ?c s))))
    with b.
  change (_pattern_hi (set__pattern_hi ?a (set__pattern_lo ?b (set__palette ?c s))))
    with a.
  rewrite !length_insert. repeat split; try assumption.
  - apply Forall_insert; [exact Blo |].
    exact (Forall_lookup_1 _ _ _ _ Blo Hlo1).
  - apply Forall_insert; [exact Bhi |].
    exact (Forall_lookup_1 _ _ _ _ Bhi Hhi1).
Qed.

Lemma fill_bkg_latches_ok l c (s : PPU V) :
  bkg_latches_ok s -> length (ppu_scroll s) = 2%nat ->
  cache_ok (_palette_cache s) ->
  exists s',
    fill_bkg_latches l c s = Some s'
    /\ bkg_latches_ok s' /\ cache_ok (_palette_cache s').
Proof.
  intros (Hpal & Hlo & Hhi & Blo & Bhi) Hsc Hcache.
  unfold fill_bkg_latches. cbv zeta.
  destruct (py_index_is_Some (ppu_scroll s) PPU_SCROLL_Y
              ltac:(unfold PPU_SCROLL_Y; lia)) as [sy Hsy].
  destruct (py_index_is_Some (ppu_scroll s) PPU_SCROLL_X
              ltac:(unfold PPU_SCROLL_X; lia)) as [sx Hsx].
  rewrite Hsy. cbn [mbind option_bind]. rewrite Hsx. cbn [mbind option_bind].
  match goal with
  | |- context [decode_palette ?id false s] =>
      destruct (decode_palette_ok id false s Hcache
                  (attribute_palette_id_range _ _ _))
        as (p & s1 & Hdec & Hp & Hc1 & He1);
      rewrite Hdec
  end.
  cbn [mbind option_bind].
  pose proof (f_equal _palette He1) as E1.
  pose proof (f_equal _pattern_lo He1) as E2.
  pose proof (f_equal _pattern_hi He1) as E3.
  change (_palette s1 = _palette s) in E1.
  change (_pattern_lo s1 = _pattern_lo s) in E2.
  change (_pattern_hi s1 = _pattern_hi s) in E3.
  rewrite list_set_is_Some by (rewrite E1; lia). cbn [mbind option_bind].
  change (_pattern_lo (set__palette ?x s1)) with (_pattern_lo s1).
  rewrite list_set_is_Some by (rewrite E2; lia). cbn [mbind option_bind].
  change (_pattern_hi (set__pattern_lo ?x (set__palette ?y s1)))
    with (_pattern_hi s1).
  rewrite list_set_is_Some by (rewrite E3; lia). cbn [mbind option_bind].
  eexists. split; [reflexivity |]. split; [| exact Hc1].
  unfold bkg_latches_ok.
  change (_palette (set__pattern_hi ?a (set__pattern_lo ?b (set__palette ?c s1))))
    with c.
  change (_pattern_lo (set__pattern_hi ?a (set__pattern_lo ?b (set__palette ?c s1))))
    with b.
  change (_pattern_hi (set__pattern_hi ?a (set__pattern_lo ?b (set__palette ?c s1))))
    with a.
  rewrite !length_insert, E1, E2, E3. repeat split; try assumption.
  - apply Forall_insert; [exact Blo | apply view_bytes].
  - apply Forall_insert; [exact Bhi | apply view_bytes].
Qed.

Lemma engine_ok_bkg (s s' : PPU V) :
  erase_bkg s' = erase_bkg s ->
  bkg_latches_ok s' -> cache_ok (_palette_cache s') ->
  engine_ok s -> engine_ok s'.
Proof.
  intros He Hb Hc ((Ho & Ha & Hsc & Ht) & (Lo & Lp & Lf & Lb & Lc) & _).
  pose proof (f_equal oam He) as E1. change (oam s' = oam s) in E1.
  pose proof (f_equal oam_addr He) as E2.
  change (oam_addr s' = oam_addr s) in E2.
  pose proof (f_equal ppu_scroll He) as E3.
  change (ppu_scroll s' = ppu_scroll s) in E3.
  pose proof (f_equal _ppu_byte_latch He) as E4.
  change (_ppu_byte_latch s' = _ppu_byte_latch s) in E4.
  pose proof (f_equal _sprite_pattern He) as E5.
  change (_sprite_pattern s' = _sprite_pattern s) in E5.
  pose proof (f_equal _sprite_bkg_priority He) as E6.
  change (_sprite_bkg_priority s' = _sprite_bkg_priority s) in E6.
  unfold engine_ok, port_ok, latches_ok.
  rewrite E1, E2, E3, E4, E5, E6.
  repeat split; first [assumption | lia | apply Hc | apply Hb].
Qed.

Lemma engine_ok_eval (s s' : PPU V) :
  erase_eval s' = erase_eval s ->
  latches_ok s' -> engine_ok s -> engine_ok s'.
Proof.
  intros He Hl ((Ho & Ha & Hsc & Ht) & _ & (Bp & Blo & Bhi & Vlo & Vhi)).
  pose proof (f_equal oam He) as E1. change (oam s' = oam s) in E1.
  pose proof (f_equal oam_addr He) as E2.
  change (oam_addr s' = oam_addr s) in E2.
  pose proof (f_equal ppu_scroll He) as E3.
  change (ppu_scroll s' = ppu_scroll s) in E3.
  pose proof (f_equal _ppu_byte_latch He) as E4.
  change (_ppu_byte_latch s' = _ppu_byte_latch s) in E4.
  pose proof (f_equal _palette He) as E5.
  change (_palette s' = _palette s) in E5.
  pose proof (f_equal _pattern_lo He) as E6.
  change (_pattern_lo s' = _pattern_lo s) in E6.
  pose proof (f_equal _pattern_hi He) as E7.
  change (_pattern_hi s' = _pattern_hi s) in E7.
  unfold engine_ok, port_ok, bkg_latches_ok.
  rewrite E1, E2, E3, E4, E5, E6, E7.
  repeat split; first [assumption | lia | apply Hl].
Qed.

Lemma shift_and_fill_ok l c (s : PPU V) :
  engine_ok s ->
  exists s', shift_and_fill l c s = Some s' /\ engine_ok s'.
Proof.
  intros Hok. pose proof Hok as ((_ & _ & Hsc & _) & (_ & _ & _ & _ & Hc) & Hb).
  unfold shift_and_fill.
  destruct (shift_bkg_latches_ok s Hb) as (s1 & Hsh & Hb1 & Hc1).
  pose proof (shift_bkg_latches_frame _ _ Hsh) as Hfr1.
  pose proof (f_equal ppu_scroll Hfr1) as Hsc1.
  change (ppu_scroll s1 = ppu_scroll s) in Hsc1.
  destruct (fill_bkg_latches_ok l c s1 Hb1 ltac:(congruence)
              ltac:(rewrite Hc1; exact Hc)) as (s2 & Hfill & Hb2 & Hc2).
  pose proof (fill_bkg_latches_frame _ _ _ _ Hfill) as Hfr2.
  rewrite Hsh. cbn [mbind option_bind]. rewrite Hfill.
  exists s2. split; [reflexivity |].
  apply (engine_ok_bkg s s2); try assumption. congruence.
Qed.

Lemma engine_ok_events (s s' : PPU V) :
  erase_events s' = erase_events s ->
  latches_ok s' -> bkg_latches_ok s' -> engine_ok s -> engine_ok s'.
Proof.
  intros He Hl Hb ((Ho & Ha & Hsc & Ht) & _ & _).
  pose proof (f_equal oam He) as E1. change (oam s' = oam s) in E1.
  pose proof (f_equal oam_addr He) as E2.
  change (oam_addr s' = oam_addr s) in E2.
  pose proof (f_equal ppu_scroll He) as E3.
  change (ppu_scroll s' = ppu_scroll s) in E3.
  pose proof (f_equal _ppu_byte_latch He) as E4.
  change (_ppu_byte_latch s' = _ppu_byte_latch s) in E4.
  unfold engine_ok, port_ok.
  rewrite E1, E2, E3, E4.
  repeat split; first [assumption | lia | apply Hl | apply Hb].
Qed.

Lemma scanline_events_ok (s : PPU V) :
  engine_ok s ->
  exists s' ended_now,
    scanline_events s = Some (s', ended_now) /\ engine_ok s'.
Proof.
  intros Hok. pose proof Hok as (_ & Hlat & _).
  destruct (prefetch_active_sprites_spec 0 s Hlat)
    as (sp & Hpre & _ & _ & Hep & Hlp).
  pose proof (engine_ok_eval s sp Hep Hlp Hok) as Hokp.
  destruct (shift_and_fill_ok 0 (Z.quot (pixel s - 321) 8) s Hok)
    as (sb & Hsf & Hokb).
  unfold scanline_events. rewrite Hpre, Hsf. cbn [mbind option_bind].
  repeat match goal with
         | |- context [if ?b then _ else _] => destruct b
         end.
  all: eexists _, _; (split; [reflexivity |]); assumption.
Qed.

Lemma advance_counters_ok (s : PPU V) :
  engine_ok s -> engine_ok (advance_counters s).
Proof.
  intros Hok. unfold advance_counters. cbn.
  repeat match goal with
         | |- context [if ?b then _ else _] => destruct b
         end; exact Hok.
Qed.

Lemma new_frame_ok (s : PPU V) : engine_ok s -> engine_ok (_new_frame s).
Proof. intros Hok. exact Hok. Qed.

Lemma run_cycle_ok (s : PPU V) (fe : bool) :
  engine_ok s ->
  Z.land (ppu_mask s) RENDERING_ENABLED_MASK = 0 ->
  exists s' fe',
    run_cycle (s, fe) = Some (s', fe')
    /\ engine_ok s' /\ ppu_mask s' = ppu_mask s.
Proof.
  intros Hok Hoff.
  assert (Hex : exists s' fe',
             run_cycle (s, fe) = Some (s', fe') /\ engine_ok s').
  { unfold run_cycle. rewrite Hoff.
    replace ((line s <=? 239) && (0 <? 0)) with false
      by (symmetry; apply andb_false_r).
    cbn [mbind option_bind].
    destruct (scanline_events_ok s Hok) as (s2 & ended_now & Hev & Hok2).
    rewrite Hev. cbn [mbind option_bind].
    eexists _, _. split; [reflexivity |].
    pose proof (advance_counters_ok s2 Hok2) as Hok3.
    destruct (fe || ended_now); [apply new_frame_ok |]; exact Hok3. }
  destruct Hex as (s' & fe' & Hrun & Hok').
  exists s', fe'. split; [exact Hrun |]. split; [exact Hok' |].
  apply run_cycle_frame in Hrun. destruct Hrun as [Hfr _].
  exact (f_equal ppu_mask Hfr).
Qed.

Lemma run_cycles_loop_quiet (n : nat) :
  forall (s : PPU V) (fe : bool),
    engine_ok s ->
    Z.land (ppu_mask s) RENDERING_ENABLED_MASK = 0 ->
    exists s' fe',
      run_cycles_loop n (s, fe) = Some (s', fe')
      /\ engine_ok s' /\ ppu_mask s' = ppu_mask s.
Proof.
  induction n as [| n IH]; intros s fe Hok Hoff.
  - exists s, fe. split; [reflexivity | split; [exact Hok | reflexivity]].
  - destruct (run_cycle_ok s fe Hok Hoff) as (s1 & fe1 & Hstep & Hok1 & Hm1).
    destruct (IH s1 fe1 Hok1 ltac:(rewrite Hm1; exact Hoff))
      as (s2 & fe2 & Hloop & Hok2 & Hm2).
    exists s2, fe2. cbn [run_cycles_loop]. rewrite Hstep.
    cbn [mbind option_bind]. split; [exact Hloop |].
    split; [exact Hok2 | congruence].
Qed.

Lemma cache_ok_fresh : cache_ok [replicate 4 None; replicate 4 None].
Proof. split; [reflexivity |]. repeat constructor. Qed.

Ltac shape_ok Hlat Hbkg :=
  split;
  [ repeat split; cbn; rewrite ?length_insert; first [assumption | lia]
  | split;
    [ first [ exact Hlat
            | repeat split; cbn; rewrite ?length_insert;
              first [assumption | apply cache_ok_fresh | apply Hlat] ]
    | exact Hbkg ] ].

Lemma read_register_engine_ok (r : register) (s : PPU V) :
  engine_ok s ->
  exists x s',
    read_register r s = Some (x, s')
    /\ engine_ok s' /\ ppu_mask s' = ppu_mask s.
Proof.
  intros ((Hoam & Hcur & Hsc & Htog) & Hlat & Hbkg).
  destruct r; cbn.
  all: try (eexists _, _; split; [reflexivity |]; split; [| reflexivity];
            shape_ok Hlat Hbkg; fail).
  - destruct (py_index_is_Some (oam s) (oam_addr s) ltac:(lia)) as [x Hx].
    rewrite Hx. cbn. eexists _, _. split; [reflexivity |].
    split; [| reflexivity]. shape_ok Hlat Hbkg.
  - destruct (ppu_addr s <? PALETTE_START); cbn;
      (eexists _, _; split; [reflexivity |]; split; [| reflexivity];
       shape_ok Hlat Hbkg).
Qed.

Lemma write_register_engine_ok (r : register) (x : Z) (s : PPU V) :
  engine_ok s ->
  0 <= x <= 255 ->
  exists s',
    write_register r x s = Some s'
    /\ engine_ok s'
    /\ ppu_mask s' = match r with
                     | PPU_MASK => Z.land x 0xFF
                     | _ => ppu_mask s
                     end.
Proof.
  intros ((Hoam & Hcur & Hsc & Htog) & Hlat & Hbkg) Hx.
  pose proof (land_FF_byte (oam_addr s + 1)) as Hbyte.
  pose proof (land_FF_byte x) as Hbx.
  destruct r; cbn.
  - destruct (cycles_since_reset s <? 29658);
      [| destruct (in_vblank s && _ && _)];
      (eexists; split; [reflexivity |]; split; [| reflexivity];
       shape_ok Hlat Hbkg).
  - eexists; split; [reflexivity |]. split; [| reflexivity].
    shape_ok Hlat Hbkg.
  - eexists; split; [reflexivity |]. split; [| reflexivity].
    shape_ok Hlat Hbkg.
  - eexists; split; [reflexivity |]. split; [| reflexivity].
    shape_ok Hlat Hbkg.
  - rewrite bytearray_set_in_range by lia. cbn.
    eexists; split; [reflexivity |]. split; [| reflexivity].
    shape_ok Hlat Hbkg.
  - destruct Htog as [Ht | Ht]; rewrite Ht;
      rewrite bytearray_set_in_range by lia; cbn; rewrite Ht; cbn;
      (eexists; split; [reflexivity |]; split; [| reflexivity];
       shape_ok Hlat Hbkg).
  - destruct Htog as [Ht | Ht]; rewrite Ht; cbn;
      (eexists; split; [reflexivity |]; split; [| reflexivity];
       shape_ok Hlat Hbkg).
  - destruct (PALETTE_START <=? _);
      (eexists; split; [reflexivity |]; split; [| reflexivity];
       shape_ok Hlat Hbkg).
Qed.

Lemma mask_write_keeps_rendering_off (x : Z) :
  Z.land x RENDERING_ENABLED_MASK = 0 ->
  Z.land (Z.land x 0xFF) RENDERING_ENABLED_MASK = 0.
Proof.
  intros Hx. rewrite <- Z.land_assoc.
  change (Z.land 0xFF RENDERING_ENABLED_MASK) with RENDERING_ENABLED_MASK.
  exact Hx.
Qed.

Lemma exec_quiet (tr : list action) :
  forall s : PPU V,
    Forall quiet tr ->
    engine_ok s ->
    Z.land (ppu_mask s) RENDERING_ENABLED_MASK = 0 ->
    exists s',
      exec tr s = Some s' /\ engine_ok s'
      /\ Z.land (ppu_mask s') RENDERING_ENABLED_MASK = 0.
Proof.
  induction tr as [| a tr IH]; intros s Hq Hok Hoff.
  - exists s. split; [reflexivity | split; assumption].
  - inversion Hq as [| a0 tr0 Ha Htr]. subst a0 tr0.
    assert (Hstep : exists s1,
               do_action a s = Some s1 /\ engine_ok s1
               /\ Z.land (ppu_mask s1) RENDERING_ENABLED_MASK = 0).
    { destruct a as [n | r | r x]; cbn [do_action].
      - unfold run_cycles.
        destruct (run_cycles_loop_quiet (Z.to_nat n) s false Hok Hoff)
          as (s1 & fe1 & Hloop & Hok1 & Hm1).
        rewrite Hloop. exists s1. split; [reflexivity |].
        split; [exact Hok1 | rewrite Hm1; exact Hoff].
      - destruct (read_register_engine_ok r s Hok) as (x & s1 & Hr & Hok1 & Hm1).
        rewrite Hr. exists s1. split; [reflexivity |].
        split; [exact Hok1 | rewrite Hm1; exact Hoff].
      - destruct Ha as [Hx Hmask].
        destruct (write_register_engine_ok r x s Hok Hx) as (s1 & Hw & Hok1 & Hm1).
        exists s1. split; [exact Hw |]. split; [exact Hok1 |].
        rewrite Hm1. destruct r; try exact Hoff.
        apply mask_write_keeps_rendering_off, Hmask. reflexivity. }
    destruct Hstep as (s1 & Hdo & Hok1 & Hoff1).
    destruct (IH s1 Htr Hok1 Hoff1) as (s2 & He & Hok2 & Hoff2).
    exists s2. cbn [exec]. rewrite Hdo. cbn [mbind option_bind].
    split; [exact He | split; assumption].
Qed.

Lemma engine_ok_init (v : V) : engine_ok (init v).
Proof.
  unfold engine_ok, port_ok, latches_ok, bkg_latches_ok. cbn.
  repeat split; try reflexivity; try lia.
  all: repeat constructor; lia.
Qed.

End Quiet.

(** X19.  With rendering disabled the engine never raises. Over a memory view
    that answers with bytes, from an engine of the shape [__init__] builds,
    with MASK bits 3 and 4 clear, every sequence of ticks, register reads and
    writes of bytes that leave those two bits clear runs to its end, and
    leaves an engine of that shape. *)
Theorem rendering_off_never_raises {V : Type} `{VRAMView V}
    (tr : list action) (s : PPU V) :
  (forall (m : V) (a : Z), 0 <= vram_read m a <= 255) ->
  engine_ok s ->
  Z.land (ppu_mask s) RENDERING_ENABLED_MASK = 0 ->
  Forall quiet tr ->
  exists s',
    exec tr s = Some s' /\ engine_ok s'
    /\ Z.land (ppu_mask s') RENDERING_ENABLED_MASK = 0.
Proof.
  intros Hbytes Hok Hoff Hq. exact (exec_quiet Hbytes tr s Hq Hok Hoff).
Qed.

Lemma rendering_off_never_raises_witness :
  exists s',
    exec [Run 1000; Write PPU_MASK 0x06; Write OAM_DATA 0x20;
          Read PPU_STATUS; Write PPU_ADDR 0x3F; Write PPU_ADDR 0x00;
          Write PPU_DATA 0x21; Run 1000] reset_state = Some s'
    /\ engine_ok s'
    /\ Z.land (ppu_mask s') RENDERING_ENABLED_MASK = 0.
Proof.
  refine (rendering_off_never_raises _ reset_state _ _ _ _).
  - intros m a. apply land_FF_byte.
  - apply (engine_ok_init empty_vram).
  - reflexivity.
  - repeat constructor; first [lia | discriminate].
Defined.

(** ** The shape of the sprite memories along a run *)

Section Shape.

Context {V : Type} `{VRAMView V}.

Lemma latches_ok_same (s s' : PPU V) :
  oam s' = oam s ->
  _sprite_pattern s' = _sprite_pattern s ->
  _sprite_bkg_priority s' = _sprite_bkg_priority s ->
  cache_ok (_palette_cache s') ->
  latches_ok s -> latches_ok s'.
Proof.
  intros E1 E2 E3 Hc (Lo & Lp & Lf & Lb & _). unfold latches_ok.
  rewrite E1, E2, E3. repeat split; first [assumption | apply Hc].
Qed.

Lemma decode_palette_cache_ok id b (s s' : PPU V) p :
  0 <= id <= 3 -> cache_ok (_palette_cache s) ->
  decode_palette id b s = Some (p, s') ->
  cache_ok (_palette_cache s').
Proof.
  intros Hid Hc Hd.
  destruct (decode_palette_ok id b s Hc Hid) as (p1 & s1 & Hd1 & _ & Hc1 & _).
  congruence.
Qed.

Lemma shift_bkg_latches_cache (s s' : PPU V) :
  shift_bkg_latches s = Some s' -> _palette_cache s' = _palette_cache s.
Proof.
  unfold shift_bkg_latches. intros Hd. crack. subst. reflexivity.
Qed.

Lemma fill_bkg_latches_cache_ok l c (s s' : PPU V) :
  fill_bkg_latches l c s = Some s' ->
  cache_ok (_palette_cache s) -> cache_ok (_palette_cache s').
Proof.
  unfold fill_bkg_latches. cbv zeta. intros Hd Hc.
  apply bind_Some in Hd. destruct Hd as (sy & _ & Hd).
  apply bind_Some in Hd. destruct Hd as (sx & _ & Hd).
  apply bind_Some in Hd. destruct Hd as ([p s1] & Hdec & Hd).
  apply bind_Some in Hd. destruct Hd as (l1 & _ & Hd).
  apply bind_Some in Hd. destruct Hd as (l2 & _ & Hd).
  apply bind_Some in Hd. destruct Hd as (l3 & _ & Hd).
  injection Hd as <-.
  change (cache_ok (_palette_cache s1)).
  exact (decode_palette_cache_ok _ _ _ _ _
           (attribute_palette_id_range _ _ _) Hc Hdec).
Qed.

Lemma shift_and_fill_shape l c (s s' : PPU V) :
  shift_and_fill l c s = Some s' -> latches_ok s -> latches_ok s'.
Proof.
  intros Hd Hok. pose proof (shift_and_fill_frame _ _ _ _ Hd) as Hfr.
  revert Hd. unfold shift_and_fill. intros Hd.
  apply bind_Some in Hd. destruct Hd as (s1 & Hsh & Hfill).
  apply (latches_ok_same s s'); try exact Hok.
  - exact (f_equal oam Hfr).
  - exact (f_equal _sprite_pattern Hfr).
  - exact (f_equal _sprite_bkg_priority Hfr).
  - apply (fill_bkg_latches_cache_ok _ _ _ _ Hfill).
    rewrite (shift_bkg_latches_cache _ _ Hsh). apply Hok.
Qed.

Lemma prefetch_shape l (s s' : PPU V) :
  _prefetch_active_sprites l s = Some s' -> latches_ok s -> latches_ok s'.
Proof.
  intros Hd Hok.
  destruct (prefetch_active_sprites_spec l s Hok) as (s1 & Hd1 & _ & _ & _ & Hok1).
  congruence.
Qed.

Lemma overlay_shape c c' (s s' : PPU V) :
  _overlay_sprites c s = Some (c', s') -> latches_ok s -> latches_ok s'.
Proof.
  intros Hd Hok. pose proof (overlay_frame _ _ _ _ Hd) as Hfr.
  apply (latches_ok_same s s'); try exact Hok.
  - exact (f_equal oam Hfr).
  - exact (f_equal _sprite_pattern Hfr).
  - exact (f_equal _sprite_bkg_priority Hfr).
  - clear Hfr. revert Hd. unfold _overlay_sprites. intros Hd.
    assert (Hc : cache_ok (_palette_cache s)) by apply Hok.
    crack; subst.
    all: try match goal with
             | Hp : decode_palette 0 false ?t = Some _ |- _ =>
                 apply (decode_palette_cache_ok 0 false t _ _ ltac:(lia)) in Hp;
                 [exact Hp |]
             end.
    all: repeat match goal with
                | |- context [if ?b then _ else _] => destruct b
                end.
    all: exact Hc.
Qed.

Lemma visible_line_dot_shape (s s' : PPU V) :
  visible_line_dot s = Some s' -> latches_ok s -> latches_ok s'.
Proof.
  unfold visible_line_dot. intros Hd Hok. crack; subst.
  all: repeat match goal with
         | Hp : shift_and_fill _ _ ?t = Some _, Hq : latches_ok ?t |- _ =>
             apply (fun E => shift_and_fill_shape _ _ _ _ E Hq) in Hp
         | Hp : _overlay_sprites _ ?t = Some _, Hq : latches_ok ?t |- _ =>
             apply (fun E => overlay_shape _ _ _ _ E Hq) in Hp
         | Hp : _prefetch_active_sprites _ ?t = Some _, Hq : latches_ok ?t |- _ =>
             apply (fun E => prefetch_shape _ _ _ E Hq) in Hp
         end.
  all: repeat match goal with
         | |- context [if ?b then _ else _] => destruct b
         end.
  all: assumption.
Qed.

Lemma scanline_events_shape (s s' : PPU V) (ended_now : bool) :
  scanline_events s = Some (s', ended_now) -> latches_ok s -> latches_ok s'.
Proof.
  unfold scanline_events. intros Hd Hok. crack; subst.
  all: repeat match goal with
         | Hp : shift_and_fill _ _ ?t = Some _, Hq : latches_ok ?t |- _ =>
             apply (fun E => shift_and_fill_shape _ _ _ _ E Hq) in Hp
         | Hp : _prefetch_active_sprites _ ?t = Some _, Hq : latches_ok ?t |- _ =>
             apply (fun E => prefetch_shape _ _ _ E Hq) in Hp
         end.
  all: repeat match goal with
         | |- context [if ?b then _ else _] => destruct b
         end.
  all: assumption.
Qed.

Lemma advance_counters_shape (s : PPU V) :
  latches_ok s -> latches_ok (advance_counters s).
Proof.
  intros Hok. unfold advance_counters. cbn.
  repeat match goal with
         | |- context [if ?b then _ else _] => destruct b
         end; exact Hok.
Qed.

Lemma new_frame_shape (s : PPU V) : latches_ok s -> latches_ok (_new_frame s).
Proof. intros Hok. exact Hok. Qed.

Lemma port_ok_tick (s s' : PPU V) :
  erase_tick s' = erase_tick s -> port_ok s -> port_ok s'.
Proof.
  intros He (Ho & Ha & Hsc & Ht).
  pose proof (f_equal oam He) as E1. change (oam s' = oam s) in E1.
  pose proof (f_equal oam_addr He) as E2.
  change (oam_addr s' = oam_addr s) in E2.
  pose proof (f_equal ppu_scroll He) as E3.
  change (ppu_scroll s' = ppu_scroll s) in E3.
  pose proof (f_equal _ppu_byte_latch He) as E4.
  change (_ppu_byte_latch s' = _ppu_byte_latch s) in E4.
  unfold port_ok. rewrite E1, E2, E3, E4.
  repeat split; first [assumption | lia].
Qed.

Lemma run_cycle_shape (s s' : PPU V) (fe fe' : bool) :
  run_cycle (s, fe) = Some (s', fe') ->
  port_ok s /\ latches_ok s -> port_ok s' /\ latches_ok s'.
Proof.
  intros Hd [Hp Hl]. split.
  - apply (port_ok_tick s s'); [| exact Hp].
    exact (proj1 (run_cycle_frame _ _ _ _ Hd)).
  - revert Hd. unfold run_cycle. intros Hd.
    apply bind_Some in Hd. destruct Hd as (s1 & Hvis & Hd).
    apply bind_Some in Hd. destruct Hd as ([s2 ended_now] & Hev & Hd).
    injection Hd as Hs' Hfe'.
    assert (Hl1 : latches_ok s1).
    { destruct ((line s <=? 239)
                && (0 <? Z.land (ppu_mask s) RENDERING_ENABLED_MASK)).
      - exact (visible_line_dot_shape _ _ Hvis Hl).
      - injection Hvis as <-. exact Hl. }
    pose proof (scanline_events_shape _ _ _ Hev Hl1) as Hl2.
    pose proof (advance_counters_shape _ Hl2) as Hl3.
    subst s'. destruct (fe || ended_now); [apply new_frame_shape |]; exact Hl3.
Qed.

Lemma run_cycles_loop_shape (n : nat) :
  forall (st st' : PPU V * bool),
    run_cycles_loop n st = Some st' ->
    port_ok (fst st) /\ latches_ok (fst st) ->
    port_ok (fst st') /\ latches_ok (fst st').
Proof.
  induction n as [| n IH]; intros st st' Hr Hok.
  - injection Hr as <-. exact Hok.
  - cbn [run_cycles_loop] in Hr.
    apply bind_Some in Hr. destruct Hr as ([s1 fe1] & Hstep & Hr).
    destruct st as [s fe].
    apply (IH _ _ Hr). exact (run_cycle_shape _ _ _ _ Hstep Hok).
Qed.

Lemma bytearray_set_length (b b' : list Z) (i x : Z) :
  bytearray_set b i x = Some b' -> length b' = length b.
Proof.
  unfold bytearray_set. intros Hs. crack; subst; apply length_insert.
Qed.

Lemma read_register_shape (r : register) (s s' : PPU V) (x : Z) :
  read_register r s = Some (x, s') ->
  port_ok s /\ latches_ok s -> port_ok s' /\ latches_ok s'.
Proof.
  destruct r; cbn; intros Hr [(Ho & Ha & Hsc & Ht) Hl]; crack; subst.
  all: try match goal with
           | Hp : (if ?b then _ else _) = (_, _) |- _ =>
               destruct b; injection Hp as <- <-
           end.
  all: split; [| exact Hl].
  all: repeat split; cbn; first [assumption | lia].
Qed.

Lemma write_register_shape (r : register) (x : Z) (s s' : PPU V) :
  write_register r x s = Some s' ->
  port_ok s /\ latches_ok s -> port_ok s' /\ latches_ok s'.
Proof.
  pose proof (land_FF_byte x) as Hbx.
  pose proof (land_FF_byte (oam_addr s + 1)) as Hb1.
  destruct r; cbn; intros Hw [(Ho & Ha & Hsc & Ht) Hl]; crack; subst.
  all: repeat match goal with
              | Hp : bytearray_set _ _ _ = Some _ |- _ =>
                  apply bytearray_set_length in Hp
              end.
  all: repeat match goal with
              | |- context [if ?b then _ else _] => destruct b eqn:?
              end.
  all: zbool.
  all: split;
    [ repeat split; cbn; first [assumption | lia | congruence]
    | first [ exact Hl
            | destruct Hl as (Lo & Lp & Lf & Lb & Lc);
              repeat split; cbn;
              first [assumption | congruence | apply cache_ok_fresh
                    | apply Lc] ] ].
Qed.

Lemma exec_shape (tr : list action) :
  forall s s' : PPU V,
    exec tr s = Some s' ->
    port_ok s /\ latches_ok s -> port_ok s' /\ latches_ok s'.
Proof.
  induction tr as [| a tr IH]; intros s s' He Hok.
  - injection He as <-. exact Hok.
  - cbn [exec] in He. apply bind_Some in He. destruct He as (s1 & Ha & He).
    apply (IH _ _ He). clear IH He.
    destruct a as [n | r | r x]; cbn [do_action] in Ha.
    + apply fmap_Some in Ha. destruct Ha as ([b s2] & Ha & ->).
      apply run_cycles_unfold in Ha.
      exact (run_cycles_loop_shape _ _ _ Ha Hok).
    + apply fmap_Some in Ha. destruct Ha as ([x s2] & Ha & ->).
      exact (read_register_shape _ _ _ _ Ha Hok).
    + exact (write_register_shape _ _ _ _ Ha Hok).
Qed.

End Shape.

(** X20.  Every state the engine reaches from construction has the shape the
    sprite evaluation relies on: a 256-byte OAM with its cursor inside it, two
    scroll bytes, a write toggle of 0 or 1, eight sprite pattern rows of eight
    pixels, eight priority flags and a two-by-four palette memo whose entries,
    when present, hold four colours. *)
Theorem shape_kept_along_runs {V : Type} `{VRAMView V}
    (v : V) (tr : list action) (s : PPU V) :
  exec tr (init v) = Some s -> port_ok s /\ latches_ok s.
Proof.
  intros He. apply (exec_shape tr _ _ He).
  destruct (engine_ok_init v) as (Hp & Hl & _). split; assumption.
Qed.

Lemma shape_kept_along_runs_witness :
  exists s,
    exec [Write PPU_MASK 0x08; Write OAM_ADDR 0x10; Write OAM_DATA 0x30;
          Run 700; Read PPU_DATA] reset_state = Some s
    /\ port_ok s /\ latches_ok s.
Proof.
  assert (He : exists s,
             exec [Write PPU_MASK 0x08; Write OAM_ADDR 0x10;
                   Write OAM_DATA 0x30; Run 700; Read PPU_DATA] reset_state
             = Some s).
  { eexists. vm_compute. reflexivity. }
  destruct He as [s He]. exists s. split; [exact He |].
  exact (shape_kept_along_runs empty_vram _ s He).
Defined.

(** ** Palettes *)

(** X21.  Once a palette has been decoded it is served from the memo table: a
    second call returns the same colours without reading VRAM, whatever VRAM
    holds by then, and changes nothing. *)
Theorem decode_palette_memo {V : Type} `{VRAMView V}
    (id : Z) (b : bool) (s s' : PPU V) (p : palette) (m : V) :
  0 <= id ->
  decode_palette id b s = Some (p, s') ->
  decode_palette id b (set_vram m s') = Some (p, set_vram m s').
Proof.
  unfold decode_palette. intros Hid Hd.
  change (_palette_cache (set_vram m s')) with (_palette_cache s').
  apply bind_Some in Hd. destruct Hd as (cache_row & Hrow & Hd).
  apply bind_Some in Hd. destruct Hd as (cached & Hent & Hd).
  assert (Hfresh :
    forall q : palette,
      (cache_row' ← list_set cache_row (Z.to_nat id) (Some q);
       Some (q, set__palette_cache
                  (<[(if b then 1%nat else 0%nat) := cache_row']>
                     (_palette_cache s)) s)) = Some (p, s') ->
      exists cache_row',
        q = p
        /\ _palette_cache s' !! (if b then 1%nat else 0%nat) = Some cache_row'
        /\ py_index cache_row' id = Some (Some q)).
  { intros q Hq. apply bind_Some in Hq. destruct Hq as (cache_row' & Hset & Hq).
    injection Hq as Hp Hs'. exists cache_row'. split; [exact Hp |].
    clear Hd. subst s'.
    change (_palette_cache (set__palette_cache ?c s)) with c.
    split.
    - apply list_lookup_insert_eq. apply lookup_lt_Some in Hrow. exact Hrow.
    - unfold list_set in Hset.
      destruct (Z.to_nat id <? length cache_row)%nat eqn:Hlt;
        [| discriminate Hset].
      injection Hset as <-. rewrite py_index_lookup by exact Hid.
      apply list_lookup_insert_eq. apply Nat.ltb_lt. exact Hlt. }
  destruct cached as [[| c q] |].
  - destruct (Hfresh _ Hd) as (cache_row' & Hp & Hrow' & Hent').
    rewrite Hrow'. cbn [mbind option_bind]. rewrite Hent'.
    cbn [mbind option_bind]. subst p. reflexivity.
  - injection Hd as <- <-. rewrite Hrow. cbn [mbind option_bind].
    rewrite Hent. reflexivity.
  - destruct (Hfresh _ Hd) as (cache_row' & Hp & Hrow' & Hent').
    rewrite Hrow'. cbn [mbind option_bind]. rewrite Hent'.
    cbn [mbind option_bind]. subst p. reflexivity.
Qed.

Lemma decode_palette_memo_witness :
  exists p s',
    decode_palette 2 true reset_state = Some (p, s')
    /\ decode_palette 2 true (set_vram (fun _ => 0x3F) s')
       = Some (p, set_vram (fun _ => 0x3F) s').
Proof.
  eexists _, _. split; [reflexivity |].
  refine (decode_palette_memo 2 true reset_state _ _ _ _ _);
    [lia | reflexivity].
Defined.

(** X22.  A write through DATA at an address in the palette region empties the
    memo table, so that the next [decode_palette] reads the four colour
    indices from the memory as written. *)
Theorem data_write_refreshes_palettes {V : Type} `{VRAMView V}
    (s : PPU V) (x id : Z) (b : bool) :
  PALETTE_START <= ppu_addr s ->
  0 <= id <= 3 ->
  exists s1 s2,
    write_register PPU_DATA x s = Some s1
    /\ vram s1 = vram_write (vram s) (ppu_addr s) x
    /\ decode_palette id b s1
       = Some (map (fun i =>
                      nth (Z.to_nat
                             (Z.land (vram_read (vram s1)
                                        (PALETTE_START + 16 * Z.b2z b
                                         + 4 * id + i)) 0x3F))
                          rgb_palette (0, 0, 0))
                   (py_range 4), s2).
Proof.
  intros Ha Hid.
  assert (Hn : (Z.to_nat id < 4)%nat) by lia.
  unfold write_register.
  change (ppu_addr (_increment_vram_address
                      (set_vram ?m (set__io_latch ?l s))))
    with (ppu_addr s
          + (if Z.land (ppu_ctrl s) VRAM_INCREMENT_MASK =? 0 then 1 else 32)).
  replace (PALETTE_START <=? _) with true
    by (symmetry; apply Z.leb_le;
        destruct (Z.land (ppu_ctrl s) VRAM_INCREMENT_MASK =? 0); lia).
  eexists _, _. split; [reflexivity |]. split; [reflexivity |].
  unfold decode_palette.
  change (_palette_cache (invalidate_palette_cache ?t))
    with [replicate 4 (@None palette); replicate 4 None].
  assert (Hrow : [replicate 4 (@None palette); replicate 4 None]
                 !! (if b then 1%nat else 0%nat)
                 = Some (replicate 4 None)) by (destruct b; reflexivity).
  rewrite Hrow. cbn [mbind option_bind].
  assert (Hent : py_index (replicate 4 (@None palette)) id = Some None).
  { rewrite py_index_lookup by lia.
    apply lookup_replicate_2. exact Hn. }
  rewrite Hent. cbn [mbind option_bind].
  rewrite list_set_is_Some by (rewrite length_replicate; exact Hn).
  cbn [mbind option_bind]. reflexivity.
Qed.

Lemma data_write_refreshes_palettes_witness :
  exists s1 s2 p,
    write_register PPU_DATA 0x21 (set_ppu_addr 0x3F00 reset_state) = Some s1
    /\ decode_palette 0 false s1 = Some (p, s2)
    /\ p !! 0%nat = rgb_palette !! 33%nat.
Proof.
  assert (Ha : PALETTE_START <= ppu_addr (set_ppu_addr 0x3F00 reset_state))
    by (vm_compute; discriminate).
  assert (Hid : 0 <= 0 <= 3) by lia.
  destruct (data_write_refreshes_palettes
              (set_ppu_addr 0x3F00 reset_state) 0x21 0 false Ha Hid)
    as (s1 & s2 & Hw & Hm & Hd).
  eexists s1, s2, _. split; [exact Hw |]. split; [exact Hd |].
  rewrite Hm. reflexivity.
Defined.

(** *** The search for a colour outside the table *)

Lemma color_eqb_eq (a b : color) : color_eqb a b = true <-> a = b.
Proof.
  destruct a as [[r1 g1] b1], b as [[r2 g2] b2]. unfold color_eqb. split.
  - intros Hc. apply andb_true_iff in Hc. destruct Hc as [Hc Hb].
    apply andb_true_iff in Hc. destruct Hc as [Hr Hg].
    apply Z.eqb_eq in Hr, Hg, Hb. congruence.
  - intros Hc. injection Hc as -> -> ->. rewrite !Z.eqb_refl. reflexivity.
Qed.

Lemma in_palette_iff (c : color) :
  existsb (color_eqb c) rgb_palette = true <-> In c rgb_palette.
Proof.
  rewrite existsb_exists. split.
  - intros (x & Hx & Hc). apply color_eqb_eq in Hc. subst x. exact Hx.
  - intros Hc. exists c. split; [exact Hc | apply color_eqb_eq; reflexivity].
Qed.

Lemma diagonal_step (c : color) (k : Z) :
  diagonal (c.1.1 + 1, c.1.2 + 1, c.2 + 1) k = diagonal c (k + 1).
Proof. unfold diagonal. cbn [fst snd]. f_equal; [f_equal |]; lia. Qed.

(** A colour that is returned lies on the diagonal and outside the table. *)
Lemma non_palette_color_sound (fuel : nat) :
  forall (c r : color),
    _get_non_palette_color fuel c = Some r ->
    existsb (color_eqb r) rgb_palette = false
    /\ exists k, 0 <= k < Z.of_nat fuel /\ r = diagonal c k.
Proof.
  induction fuel as [| fuel IH]; intros c r; [discriminate |].
  cbn [_get_non_palette_color].
  destruct (existsb (color_eqb c) rgb_palette) eqn:Hin.
  - destruct c as [[cr cg] cb]. intros Hr.
    destruct (IH _ _ Hr) as (Hout & k & Hk & ->).
    split; [exact Hout |]. exists (k + 1). split; [lia |].
    apply (diagonal_step (cr, cg, cb)).
  - intros Hr. injection Hr as <-. split; [exact Hin |].
    exists 0. split; [lia |]. destruct c as [[cr cg] cb].
    unfold diagonal. cbn [fst snd]. f_equal; [f_equal |]; lia.
Qed.

(** A search that gives up has met table colours only. *)
Lemma non_palette_color_exhausted (fuel : nat) :
  forall c : color,
    _get_non_palette_color fuel c = None ->
    forall n : nat, (n < fuel)%nat -> In (diagonal c (Z.of_nat n)) rgb_palette.
Proof.
  induction fuel as [| fuel IH]; intros c Hnone n Hn; [lia |].
  cbn [_get_non_palette_color] in Hnone.
  destruct (existsb (color_eqb c) rgb_palette) eqn:Hin; [| discriminate].
  destruct c as [[cr cg] cb]. destruct n as [| n].
  - apply in_palette_iff in Hin.
    replace (diagonal (cr, cg, cb) (Z.of_nat 0)) with (cr, cg, cb);
      [exact Hin |].
    unfold diagonal. cbn [fst snd]. f_equal; [f_equal |]; lia.
  - specialize (IH _ Hnone n ltac:(lia)).
    rewrite (diagonal_step (cr, cg, cb)) in IH.
    replace (Z.of_nat (S n)) with (Z.of_nat n + 1) by lia. exact IH.
Qed.

(** X23.  [_get_non_palette_color] terminates from every starting colour: the
    table has 64 entries, so at most 64 colours of the diagonal through the
    start are taken and the loop body runs at most 65 times. The colour
    returned lies on that diagonal and is not in the RGB table. *)
Theorem non_palette_color_found (c : color) :
  exists r k,
    _get_non_palette_color 65 c = Some r
    /\ 0 <= k < 65 /\ r = diagonal c k
    /\ existsb (color_eqb r) rgb_palette = false.
Proof.
  destruct (_get_non_palette_color 65 c) as [r |] eqn:Hs.
  - destruct (non_palette_color_sound _ _ _ Hs) as (Hout & k & Hk & Hr).
    exists r, k. split; [reflexivity |]. split; [lia |].
    split; [exact Hr | exact Hout].
  - exfalso.
    pose proof (non_palette_color_exhausted _ _ Hs) as Hall.
    assert (Hnd : NoDup (map (fun n => diagonal c (Z.of_nat n)) (seq 0 65))).
    { assert (Hinj : Inj (=) (=) (fun n => diagonal c (Z.of_nat n))).
      { intros a b Hab. unfold diagonal in Hab. injection Hab as Hab _ _.
        lia. }
      change (NoDup ((fun n => diagonal c (Z.of_nat n)) <$> seq 0 65)).
      apply (NoDup_fmap_2 _). apply NoDup_seq. }
    assert (Hincl : incl (map (fun n => diagonal c (Z.of_nat n)) (seq 0 65))
                         rgb_palette).
    { intros x Hx. apply in_map_iff in Hx. destruct Hx as (n & <- & Hn).
      apply in_seq in Hn. apply Hall. lia. }
    apply NoDup_ListNoDup in Hnd.
    pose proof (NoDup_incl_length Hnd Hincl) as Hlen.
    rewrite length_map, length_seq in Hlen.
    change (length rgb_palette) with 64%nat in Hlen. lia.
Qed.
